(** * OAuth 2.1 authorization-code-with-PKCE core of the Hevy MCP server

    A shallow embedding of the server's OAuth module (the file that holds
    [handleAuthorize], [handleToken], [validateBearerToken] and the sweep
    timer) together with the properties the specification states about it.

    Conventions of the embedding.
    - The two module-level [Map]s are [gmap string _]; a handler is a function
      from the server state to a response and a new server state.
    - The clock and the random source are inputs of a handler call: one value
      per [Date.now()] call in the body, and a function standing for
      [crypto.randomBytes].  Times are milliseconds in [Z]; every quantity the
      code computes with them is an integer far below 2^53, so the arithmetic
      of JavaScript numbers is exact on them.
    - Request parameters (query parameters, fields of the JSON body, the
      [Authorization] header) are absent ([None]) or strings, as the handlers
      type them; [truthy] is JavaScript's truthiness on such a value (absent
      and the empty string are falsy).  On such requests no statement of a
      handler body throws, so the [catch] clauses, which answer 500
      [server_error], are never entered and are left out.  A request with a
      parameter that is neither absent nor a string (the query parser hands
      over a repeated parameter as an array, and a JSON body can hold any
      value) lies outside the embedding: there [redirect_uri.startsWith] or
      the hash of the verifier can throw, and the [catch] clause answers.
      Every statement below about a request is a statement about a request
      whose parameters are absent or strings.
    - A [string] holds the UTF-8 octets of a well-formed JavaScript string.
      A string with a lone surrogate has no such form and lies outside the
      embedding ([encodeURIComponent] throws [URIError] on one).
    - Node's [crypto] hash and [Buffer] encoding are outside the repository;
      they are written out after FIPS 180-4 and RFC 4648 section 5 and checked
      on published test vectors. *)

From Stdlib Require Import ZArith String Ascii Strings.Byte List Lia.
From stdpp Require Import gmap strings.
Import ListNotations.

Local Open Scope Z_scope.

(** ** Node's [Buffer.toString('base64url')] *)

Module Base64url.

Definition alphabet : string :=
  "ABCDEFGHIJKLMNOPQRSTUVWXYZabcdefghijklmnopqrstuvwxyz0123456789-_".

Definition sextet (i : Z) : ascii :=
  match String.get (Z.to_nat i) alphabet with
  | Some c => c
  | None => "A"%char
  end.

(** Three octets give four characters; a tail of one or two octets gives
    two or three characters and no padding. *)
Fixpoint encode_octets (bs : list Z) : string :=
  match bs with
  | a :: b :: c :: rest =>
      String (sextet (Z.shiftr a 2))
        (String (sextet (Z.lor (Z.shiftl (Z.land a 3) 4) (Z.shiftr b 4)))
           (String (sextet (Z.lor (Z.shiftl (Z.land b 15) 2) (Z.shiftr c 6)))
              (String (sextet (Z.land c 63)) (encode_octets rest))))
  | [a; b] =>
      String (sextet (Z.shiftr a 2))
        (String (sextet (Z.lor (Z.shiftl (Z.land a 3) 4) (Z.shiftr b 4)))
           (String (sextet (Z.shiftl (Z.land b 15) 2)) EmptyString))
  | [a] =>
      String (sextet (Z.shiftr a 2))
        (String (sextet (Z.shiftl (Z.land a 3) 4)) EmptyString)
  | [] => EmptyString
  end.

Definition octet (b : byte) : Z := Z.of_N (Byte.to_N b).

Definition encode (bs : list byte) : string := encode_octets (map octet bs).

End Base64url.

(** ** Node's [crypto.createHash('sha256')] *)

Module SHA256.

Definition mask32 : Z := 4294967295.
Definition w32 (x : Z) : Z := Z.land x mask32.
Definition add32 (x y : Z) : Z := w32 (x + y).
Definition rotr (n x : Z) : Z :=
  Z.lor (Z.shiftr x n) (w32 (Z.shiftl x (32 - n))).
Definition shr (n x : Z) : Z := Z.shiftr x n.

Definition ch (x y z : Z) : Z :=
  Z.lxor (Z.land x y) (Z.land (Z.lxor x mask32) z).
Definition maj (x y z : Z) : Z :=
  Z.lxor (Z.lxor (Z.land x y) (Z.land x z)) (Z.land y z).
Definition big_sigma0 (x : Z) : Z :=
  Z.lxor (Z.lxor (rotr 2 x) (rotr 13 x)) (rotr 22 x).
Definition big_sigma1 (x : Z) : Z :=
  Z.lxor (Z.lxor (rotr 6 x) (rotr 11 x)) (rotr 25 x).
Definition small_sigma0 (x : Z) : Z :=
  Z.lxor (Z.lxor (rotr 7 x) (rotr 18 x)) (shr 3 x).
Definition small_sigma1 (x : Z) : Z :=
  Z.lxor (Z.lxor (rotr 17 x) (rotr 19 x)) (shr 10 x).

(** Round constants (FIPS 180-4, 4.2.2), in decimal. *)
Definition round_constants : list Z :=
  [ 1116352408; 1899447441; 3049323471; 3921009573;
    961987163; 1508970993; 2453635748; 2870763221;
    3624381080; 310598401; 607225278; 1426881987;
    1925078388; 2162078206; 2614888103; 3248222580;
    3835390401; 4022224774; 264347078; 604807628;
    770255983; 1249150122; 1555081692; 1996064986;
    2554220882; 2821834349; 2952996808; 3210313671;
    3336571891; 3584528711; 113926993; 338241895;
    666307205; 773529912; 1294757372; 1396182291;
    1695183700; 1986661051; 2177026350; 2456956037;
    2730485921; 2820302411; 3259730800; 3345764771;
    3516065817; 3600352804; 4094571909; 275423344;
    430227734; 506948616; 659060556; 883997877;
    958139571; 1322822218; 1537002063; 1747873779;
    1955562222; 2024104815; 2227730452; 2361852424;
    2428436474; 2756734187; 3204031479; 3329325298 ].

Record regs := Regs { ra : Z; rb : Z; rc : Z; rd : Z;
                      re : Z; rf : Z; rg : Z; rh : Z }.

Definition initial_hash : regs :=
  Regs 1779033703 3144134277 1013904242 2773480762
       1359893119 2600822924 528734635 1541459225.

(** Padding (5.1.1): 0x80, zero octets up to 56 modulo 64, then the bit
    length on eight octets, most significant first. *)
Definition be_octets (n : nat) (x : Z) : list Z :=
  map (fun i => Z.land (Z.shiftr x (8 * Z.of_nat i)) 255) (rev (seq 0 n)).

Definition pad (msg : list Z) : list Z :=
  let len := Z.of_nat (List.length msg) in
  msg ++ [128] ++ repeat 0 (Z.to_nat ((55 - len) mod 64))
      ++ be_octets 8 (8 * len).

Fixpoint words_of_octets (bs : list Z) : list Z :=
  match bs with
  | a :: b :: c :: d :: rest =>
      (Z.shiftl a 24 + Z.shiftl b 16 + Z.shiftl c 8 + d) :: words_of_octets rest
  | _ => []
  end.

(** Message schedule (6.2.2, step 1), kept most recent word first. *)
Fixpoint extend_schedule (n : nat) (rw : list Z) : list Z :=
  match n with
  | O => rw
  | S n' =>
      let wt := add32 (add32 (add32 (small_sigma1 (nth 1 rw 0)) (nth 6 rw 0))
                              (small_sigma0 (nth 14 rw 0)))
                      (nth 15 rw 0) in
      extend_schedule n' (wt :: rw)
  end.

Definition schedule (block : list Z) : list Z :=
  rev (extend_schedule 48 (rev block)).

Definition round (s : regs) (kw : Z * Z) : regs :=
  let t1 := add32 (add32 (add32 (add32 (rh s) (big_sigma1 (re s)))
                                (ch (re s) (rf s) (rg s)))
                         (fst kw))
                  (snd kw) in
  let t2 := add32 (big_sigma0 (ra s)) (maj (ra s) (rb s) (rc s)) in
  Regs (add32 t1 t2) (ra s) (rb s) (rc s) (add32 (rd s) t1) (re s) (rf s) (rg s).

Definition compress (h : regs) (block : list Z) : regs :=
  let s := fold_left round (combine round_constants (schedule block)) h in
  Regs (add32 (ra h) (ra s)) (add32 (rb h) (rb s))
       (add32 (rc h) (rc s)) (add32 (rd h) (rd s))
       (add32 (re h) (re s)) (add32 (rf h) (rf s))
       (add32 (rg h) (rg s)) (add32 (rh h) (rh s)).

Fixpoint process (nblocks : nat) (ws : list Z) (h : regs) : regs :=
  match nblocks with
  | O => h
  | S n => process n (skipn 16 ws) (compress h (firstn 16 ws))
  end.

Definition digest_octets (msg : list Z) : list Z :=
  let ws := words_of_octets (pad msg) in
  let h := process (Nat.div (List.length ws) 16) ws initial_hash in
  flat_map (be_octets 4)
    [ra h; rb h; rc h; rd h; re h; rf h; rg h; rh h].

End SHA256.

(** [crypto.createHash('sha256').update(s).digest('base64url')]: the string is
    hashed as its UTF-8 octets, which is how a [string] is held here. *)
Definition sha256_base64url (s : string) : string :=
  Base64url.encode_octets
    (SHA256.digest_octets (map Base64url.octet (list_byte_of_string s))).

Arguments sha256_base64url : simpl never.


(** ** Request parameters as JavaScript sees them *)

(** [!x] is [negb (truthy x)]. *)
Definition truthy (p : option string) : bool :=
  match p with
  | Some s => negb (String.eqb s EmptyString)
  | None => false
  end.

(** The string held by a parameter that is known to be one. *)
Definition str (p : option string) : string := default EmptyString p.

(** [p || d]. *)
Definition or_else (p : option string) (d : string) : string :=
  if truthy p then str p else d.

(** [p === s] for a string [s]. *)
Definition strict_eq (p : option string) (s : string) : bool :=
  match p with
  | Some x => String.eqb x s
  | None => false
  end.

(** The one-character string holding a double quote. *)
Definition dquote : string := String (ascii_of_nat 34) EmptyString.

(** [s.startsWith(p)] and [s.substring(n)]. *)
Definition startsWith (s p : string) : bool := String.prefix p s.

Definition substring_from (n : nat) (s : string) : string :=
  String.substring n (String.length s - n) s.

(** ** Data model *)

Module AuthorizationSession.
Record t := mk {
  codeChallenge : string;
  codeChallengeMethod : string;
  redirectUri : string;
  clientId : string;
  scope : string;
  state : string;
  resource : string;
  createdAt : Z
}.
End AuthorizationSession.

Module AccessToken.
Record t := mk {
  token : string;
  clientId : string;
  scope : string;
  resource : string;
  expiresAt : Z;
  createdAt : Z
}.
End AccessToken.

(** The calls made on [logger].  The metadata object of [info] and [error]
    is not kept, only the message. *)
Inductive LogEntry :=
| info (message : string)
| error (message : string)
| authAttempt (success : bool) (clientIp clientId : string)
| authFailure (reason clientIp : string).

(** [authorizationCodes] and [accessTokens] are the module's two maps; [log]
    collects the logger calls, oldest first. *)
Record ServerState := mkState {
  authorizationCodes : gmap string AuthorizationSession.t;
  accessTokens : gmap string AccessToken.t;
  log : list LogEntry
}.

Definition initial : ServerState := mkState ∅ ∅ [].

Definition logged (e : LogEntry) (s : ServerState) : ServerState :=
  mkState (authorizationCodes s) (accessTokens s) (log s ++ [e]).

Definition set_authorizationCodes
    (m : gmap string AuthorizationSession.t) (s : ServerState) : ServerState :=
  mkState m (accessTokens s) (log s).

Definition set_accessTokens
    (m : gmap string AccessToken.t) (s : ServerState) : ServerState :=
  mkState (authorizationCodes s) m (log s).

(** ** Requests and responses *)

Module Query.
Record t := mk {
  client_id : option string;
  redirect_uri : option string;
  response_type : option string;
  code_challenge : option string;
  code_challenge_method : option string;
  state : option string;
  scope : option string;
  resource : option string
}.
End Query.

Module Body.
Record t := mk {
  grant_type : option string;
  code : option string;
  code_verifier : option string;
  client_id : option string;
  redirect_uri : option string;
  resource : option string
}.
End Body.

(** The [URL] object the authorize handler builds: the parsed input and the
    [searchParams.set] calls made on it.  Parsing cannot throw on an input
    that passed the prefix check of the handler (scheme and host are then
    fixed and valid), so [new] is total here. *)
Module URL.
Inductive t :=
| new (input : string)
| searchParams_set (u : t) (name value : string).

(** The input the object was parsed from. *)
Fixpoint input_of (u : t) : string :=
  match u with
  | new i => i
  | searchParams_set u' _ _ => input_of u'
  end.

(** [URLSearchParams], the object behind [url.searchParams]: the list of
    the name-value pairs of the query, in their order.  [getAll name] gives
    the values of the pairs of that name. *)
Definition getAll (name : string) (pairs : list (string * string)) : list string :=
  List.map snd (List.filter (fun p => String.eqb (fst p) name) pairs).

(** [set name value]: the first pair of that name takes the value and the
    other pairs of that name are removed; without such a pair, one is added
    at the end. *)
Fixpoint set (name value : string) (pairs : list (string * string))
    : list (string * string) :=
  match pairs with
  | [] => [(name, value)]
  | (n, v) :: rest =>
      if String.eqb n name
      then (name, value)
             :: List.filter (fun p => negb (String.eqb (fst p) name)) rest
      else (n, v) :: set name value rest
  end.

(** The pairs of the object's query, which are those of the [Location] the
    object is serialized to.  [parsed input] stands for the pairs that
    [new URL(input)] finds in the query of its input. *)
Fixpoint searchParams (parsed : string -> list (string * string)) (u : t)
    : list (string * string) :=
  match u with
  | new i => parsed i
  | searchParams_set u' n v => set n v (searchParams parsed u')
  end.
End URL.

Inductive json :=
| JStr (s : string)
| JNum (n : Z)
| JBool (b : bool)
| JArr (items : list string).

(** What a handler does with [res] (or with [next]). *)
Inductive Response :=
| Json (status : Z) (headers : list (string * string)) (body : list (string * json))
| Redirect (status : Z) (location : URL.t)
| Next.

Definition oauth_error (status : Z) (err description : string) : Response :=
  Json status [] [("error", JStr err); ("error_description", JStr description)].

(** ** The background sweep: the [setInterval] callback *)

Definition sweep (now : Z) (s : ServerState) : ServerState :=
  let codes :=
    map_fold (fun code session acc =>
                if bool_decide (now - AuthorizationSession.createdAt session > 10 * 60 * 1000)
                then delete code acc else acc)
             (authorizationCodes s) (authorizationCodes s) in
  let tokens :=
    map_fold (fun token data acc =>
                if bool_decide (now > AccessToken.expiresAt data)
                then delete token acc else acc)
             (accessTokens s) (accessTokens s) in
  mkState codes tokens (log s).

(** ** [generateRandomString] and [verifyCodeChallenge] *)

Definition generateRandomString (randomBytes : nat -> list byte) (length : nat) : string :=
  String.substring 0 length (Base64url.encode (randomBytes length)).

Definition verifyCodeChallenge (verifier challenge method : string) : bool :=
  if String.eqb method "S256" then
    let computedChallenge := sha256_base64url verifier in
    String.eqb computedChallenge challenge
  else if String.eqb method "plain" then
    String.eqb verifier challenge
  else false.

Arguments generateRandomString : simpl never.
Arguments verifyCodeChallenge : simpl never.

(** ** [GET /authorize] *)

Definition handleAuthorize (baseUrl authToken : string)
    (randomBytes : nat -> list byte) (now : Z)
    (query : Query.t) (s : ServerState) : Response * ServerState :=
  let s := logged (info "OAuth /authorize request:") s in
  let client_id := Query.client_id query in
  let redirect_uri := Query.redirect_uri query in
  let response_type := Query.response_type query in
  let code_challenge := Query.code_challenge query in
  let code_challenge_method := Query.code_challenge_method query in
  let state := Query.state query in
  let scope := Query.scope query in
  let resource := Query.resource query in
  if negb (truthy client_id) || negb (truthy redirect_uri)
     || negb (truthy response_type) || negb (truthy code_challenge)
     || negb (truthy code_challenge_method)
  then (oauth_error 400 "invalid_request" "Missing required parameters", s)
  else if negb (strict_eq response_type "code")
  then (oauth_error 400 "unsupported_response_type"
          "Only authorization_code flow is supported", s)
  else if negb (strict_eq code_challenge_method "S256")
  then (oauth_error 400 "invalid_request"
          "Only S256 code_challenge_method is supported", s)
  else if negb (startsWith (str redirect_uri) "https://claude.ai/")
          && negb (startsWith (str redirect_uri) "https://claude.com/")
  then (oauth_error 400 "invalid_request" "Invalid redirect_uri", s)
  else
    let authCode := generateRandomString randomBytes 32 in
    let session :=
      AuthorizationSession.mk
        (str code_challenge) (str code_challenge_method)
        (str redirect_uri) (str client_id)
        (or_else scope EmptyString) (or_else state EmptyString)
        (or_else resource baseUrl)
        now in
    let s := set_authorizationCodes (<[authCode := session]> (authorizationCodes s)) s in
    let s := logged (info "Generated authorization code:") s in
    let redirectUrl := URL.new (str redirect_uri) in
    let redirectUrl := URL.searchParams_set redirectUrl "code" authCode in
    let redirectUrl :=
      if truthy state
      then URL.searchParams_set redirectUrl "state" (str state)
      else redirectUrl in
    let s := logged (info "Redirecting to:") s in
    (Redirect 302 redirectUrl, s).

(** ** [POST /token] *)

Definition expiresIn : Z := 3600.

(** [now_expiresAt] and [now_createdAt] are the two [Date.now()] readings of
    the success path, in the order the object literal takes them. *)
Definition handleToken (authToken : string)
    (randomBytes : nat -> list byte) (now_expiresAt now_createdAt : Z)
    (body : Body.t) (ip : string) (s : ServerState) : Response * ServerState :=
  let s := logged (info "OAuth /token request:") s in
  let grant_type := Body.grant_type body in
  let code := Body.code body in
  let code_verifier := Body.code_verifier body in
  let client_id := Body.client_id body in
  let redirect_uri := Body.redirect_uri body in
  if negb (truthy grant_type) || negb (truthy code)
     || negb (truthy code_verifier) || negb (truthy client_id)
  then (oauth_error 400 "invalid_request" "Missing required parameters", s)
  else if negb (strict_eq grant_type "authorization_code")
  then (oauth_error 400 "unsupported_grant_type"
          "Only authorization_code grant is supported", s)
  else
    match authorizationCodes s !! str code with
    | None =>
        let s := logged (authFailure "invalid_authorization_code" ip) s in
        (oauth_error 400 "invalid_grant" "Invalid or expired authorization code", s)
    | Some session =>
        if negb (verifyCodeChallenge (str code_verifier)
                   (AuthorizationSession.codeChallenge session)
                   (AuthorizationSession.codeChallengeMethod session))
        then
          let s := logged (authFailure "invalid_code_verifier" ip) s in
          let s := set_authorizationCodes (delete (str code) (authorizationCodes s)) s in
          (oauth_error 400 "invalid_grant" "Invalid code_verifier", s)
        else if negb (strict_eq client_id (AuthorizationSession.clientId session))
        then
          let s := logged (authFailure "client_id_mismatch" ip) s in
          let s := set_authorizationCodes (delete (str code) (authorizationCodes s)) s in
          (oauth_error 400 "invalid_grant" "client_id mismatch", s)
        else if truthy redirect_uri
                && negb (strict_eq redirect_uri (AuthorizationSession.redirectUri session))
        then
          let s := logged (authFailure "redirect_uri_mismatch" ip) s in
          let s := set_authorizationCodes (delete (str code) (authorizationCodes s)) s in
          (oauth_error 400 "invalid_grant" "redirect_uri mismatch", s)
        else
          let s := set_authorizationCodes (delete (str code) (authorizationCodes s)) s in
          let accessToken := generateRandomString randomBytes 48 in
          let data :=
            AccessToken.mk accessToken (str client_id)
              (AuthorizationSession.scope session)
              (AuthorizationSession.resource session)
              (now_expiresAt + expiresIn * 1000) now_createdAt in
          let s := set_accessTokens (<[accessToken := data]> (accessTokens s)) s in
          let s := logged (authAttempt true ip (str client_id)) s in
          let s := logged (info "Issued access token:") s in
          (Json 200 []
             ([("access_token", JStr accessToken);
               ("token_type", JStr "Bearer");
               ("expires_in", JNum expiresIn)]
              ++ (if truthy (Some (AuthorizationSession.scope session))
                  then [("scope", JStr (AuthorizationSession.scope session))]
                  else [])),
           s)
    end.

(** ** The bearer-token middleware *)

Definition validateBearerToken (baseUrl : option string) (now : Z)
    (authorization : option string) (ip : string) (s : ServerState)
  : Response * ServerState :=
  let authHeader := authorization in
  if negb (truthy authHeader) || negb (startsWith (str authHeader) "Bearer ")
  then
    let resourceMetadataUrl :=
      if truthy baseUrl
      then str baseUrl +:+ "/.well-known/oauth-protected-resource"
      else "/.well-known/oauth-protected-resource" in
    (Json 401
       [("WWW-Authenticate",
         "Bearer resource_metadata=" +:+ dquote +:+ resourceMetadataUrl +:+ dquote
           +:+ ", scope=" +:+ dquote +:+ "mcp" +:+ dquote)]
       [("error", JStr "invalid_token");
        ("error_description", JStr "Missing or invalid Authorization header")],
     s)
  else
    let token := substring_from 7 (str authHeader) in
    match accessTokens s !! token with
    | None =>
        let s := logged (authFailure "invalid_access_token" ip) s in
        (oauth_error 401 "invalid_token" "Invalid or expired access token", s)
    | Some tokenData =>
        if bool_decide (now > AccessToken.expiresAt tokenData)
        then
          let s := set_accessTokens (delete token (accessTokens s)) s in
          let s := logged (authFailure "expired_access_token" ip) s in
          (oauth_error 401 "invalid_token" "Token has expired", s)
        else
          let s := logged (info "Valid access token:") s in
          (Next, s)
    end.

(** ** The metadata endpoints *)

Definition handleProtectedResourceMetadata (baseUrl authServerUrl : string) : Response :=
  Json 200 []
    [("resource", JStr baseUrl);
     ("authorization_servers", JArr [authServerUrl]);
     ("scopes_supported", JArr ["mcp"]);
     ("bearer_methods_supported", JArr ["header"])].

Definition handleAuthorizationServerMetadata (baseUrl : string) : Response :=
  Json 200 []
    [("issuer", JStr baseUrl);
     ("authorization_endpoint", JStr (baseUrl +:+ "/authorize"));
     ("token_endpoint", JStr (baseUrl +:+ "/token"));
     ("code_challenge_methods_supported", JArr ["S256"]);
     ("grant_types_supported", JArr ["authorization_code"]);
     ("response_types_supported", JArr ["code"]);
     ("scopes_supported", JArr ["mcp"; "claudeai"]);
     ("token_endpoint_auth_methods_supported", JArr ["none"]);
     ("client_id_metadata_document_supported", JBool false)].

(** ** The server as a transition system *)

(** What can happen to the two maps: a request on one of the public routes,
    with the clock readings and random bytes its handler consumes, or a tick
    of the sweep timer. *)
Inductive Event :=
| Authorize (randomBytes : nat -> list byte) (now : Z) (query : Query.t)
| Token (randomBytes : nat -> list byte) (now_expiresAt now_createdAt : Z)
        (body : Body.t) (ip : string)
| Protected (now : Z) (authorization : option string) (ip : string)
| ProtectedResourceMetadata
| AuthorizationServerMetadata
| SweepTick (now : Z).

Section Server.

(** How the handlers are instantiated when the routes are mounted. *)
Variables (baseUrl authToken : string).
Variable (middlewareBaseUrl : option string).

Definition step (s : ServerState) (e : Event) : ServerState :=
  match e with
  | Authorize randomBytes now query =>
      snd (handleAuthorize baseUrl authToken randomBytes now query s)
  | Token randomBytes now_expiresAt now_createdAt body ip =>
      snd (handleToken authToken randomBytes now_expiresAt now_createdAt body ip s)
  | Protected now authorization ip =>
      snd (validateBearerToken middlewareBaseUrl now authorization ip s)
  | ProtectedResourceMetadata => s
  | AuthorizationServerMetadata => s
  | SweepTick now => sweep now s
  end.

Definition run (s : ServerState) (events : list Event) : ServerState :=
  fold_left step events s.

Definition reachable (s : ServerState) : Prop :=
  exists events, s = run initial events.

End Server.

(** The authorization code an event stores a session under, if it is an
    authorize request (whether or not the request is then accepted). *)
Definition minted_code (e : Event) : option string :=
  match e with
  | Authorize randomBytes _ _ => Some (generateRandomString randomBytes 32)
  | _ => None
  end.

(** ** Observations on responses *)

Definition status_of (r : Response) : option Z :=
  match r with
  | Json status _ _ => Some status
  | Redirect status _ => Some status
  | Next => None
  end.

Definition body_of (r : Response) : list (string * json) :=
  match r with
  | Json _ _ body => body
  | _ => []
  end.

(** The value of a field of a JSON object, the first one if it is repeated. *)
Fixpoint field (k : string) (body : list (string * json)) : option json :=
  match body with
  | [] => None
  | (k', v) :: rest => if String.eqb k' k then Some v else field k rest
  end.

Definition error_of (r : Response) : option json := field "error" (body_of r).

(** ** The host of a URI, after RFC 3986 section 3

    [scheme "://" authority ...] with
    [authority = [userinfo "@"] host [":" port]]; used to state the
    allow-list the way the specification words it. *)
Module URI.

Definition is_scheme_char (c : ascii) : bool :=
  let n := nat_of_ascii c in
  ((65 <=? n) && (n <=? 90) || (97 <=? n) && (n <=? 122)
   || (48 <=? n) && (n <=? 57)
   || (n =? 43) || (n =? 45) || (n =? 46))%nat.

(** What follows [scheme "://"]. *)
Fixpoint after_scheme (s : string) : option string :=
  match s with
  | String ":" (String "/" (String "/" rest)) => Some rest
  | String c rest => if is_scheme_char c then after_scheme rest else None
  | EmptyString => None
  end.

Fixpoint take_until (stop : ascii -> bool) (s : string) : string :=
  match s with
  | EmptyString => EmptyString
  | String c rest => if stop c then EmptyString else String c (take_until stop rest)
  end.

Fixpoint contains (c : ascii) (s : string) : bool :=
  match s with
  | EmptyString => false
  | String c' rest => Ascii.eqb c' c || contains c rest
  end.

(** What follows the last ["@"], or the whole string if there is none. *)
Fixpoint after_userinfo (s : string) : string :=
  match s with
  | EmptyString => EmptyString
  | String c rest =>
      if contains "@" rest then after_userinfo rest
      else if Ascii.eqb c "@" then rest
      else s
  end.

Definition ends_authority (c : ascii) : bool :=
  Ascii.eqb c "/" || Ascii.eqb c "?" || Ascii.eqb c "#".

Definition host (uri : string) : option string :=
  match after_scheme uri with
  | Some rest =>
      Some (take_until (Ascii.eqb ":")
              (after_userinfo (take_until ends_authority rest)))
  | None => None
  end.

End URI.

(** The trusted callback hosts named by the specification. *)
Definition trusted_hosts : list string := ["claude.ai"; "claude.com"].

Definition host_trusted (uri : string) : bool :=
  match URI.host uri with
  | Some h => existsb (String.eqb h) trusted_hosts
  | None => false
  end.

(** ** The validation steps, named

    The guards of the two handlers, as predicates on the request, in the
    order the handlers apply them. *)

(** Checks 1 to 3 of [handleAuthorize]: the five required parameters, the
    response type and the PKCE method. *)
Definition authorize_checks_1_to_3 (query : Query.t) : bool :=
  truthy (Query.client_id query) && truthy (Query.redirect_uri query)
  && truthy (Query.response_type query) && truthy (Query.code_challenge query)
  && truthy (Query.code_challenge_method query)
  && strict_eq (Query.response_type query) "code"
  && strict_eq (Query.code_challenge_method query) "S256".

(** Check 4 of [handleAuthorize]. *)
Definition redirect_uri_accepted (redirect_uri : string) : bool :=
  startsWith redirect_uri "https://claude.ai/"
  || startsWith redirect_uri "https://claude.com/".

(** Checks 1 and 2 of [handleToken]: the four required fields and the grant
    type.  A body that passes them is an authorization-code exchange. *)
Definition token_checks_1_to_2 (body : Body.t) : bool :=
  truthy (Body.grant_type body) && truthy (Body.code body)
  && truthy (Body.code_verifier body) && truthy (Body.client_id body)
  && strict_eq (Body.grant_type body) "authorization_code".

(** Checks 4 to 6 of [handleToken] against the session found in check 3. *)
Definition token_checks_4_to_6 (body : Body.t) (session : AuthorizationSession.t) : bool :=
  verifyCodeChallenge (str (Body.code_verifier body))
    (AuthorizationSession.codeChallenge session)
    (AuthorizationSession.codeChallengeMethod session)
  && strict_eq (Body.client_id body) (AuthorizationSession.clientId session)
  && (negb (truthy (Body.redirect_uri body))
      || strict_eq (Body.redirect_uri body) (AuthorizationSession.redirectUri session)).

(** The session [handleAuthorize] stores for a query, and the URL it
    redirects to. *)
Definition session_of (baseUrl : string) (now : Z) (query : Query.t)
  : AuthorizationSession.t :=
  AuthorizationSession.mk
    (str (Query.code_challenge query))
    (str (Query.code_challenge_method query))
    (str (Query.redirect_uri query)) (str (Query.client_id query))
    (or_else (Query.scope query) EmptyString)
    (or_else (Query.state query) EmptyString)
    (or_else (Query.resource query) baseUrl)
    now.

Definition redirect_of (authCode : string) (query : Query.t) : URL.t :=
  let with_code :=
    URL.searchParams_set (URL.new (str (Query.redirect_uri query))) "code" authCode in
  if truthy (Query.state query)
  then URL.searchParams_set with_code "state" (str (Query.state query))
  else with_code.

(** ** [generateToken], of the script that prints an [AUTH_TOKEN] *)

Definition generateToken (randomBytes : nat -> list byte) (length : nat) : string :=
  Base64url.encode (randomBytes length).

(** ** Character classes of the generated secrets *)

(** The characters of the base64url alphabet: letters, digits, [-] and [_]. *)
Definition url_safe (c : ascii) : bool :=
  let n := nat_of_ascii c in
  ((65 <=? n) && (n <=? 90) || (97 <=? n) && (n <=? 122)
   || (48 <=? n) && (n <=? 57) || (n =? 45) || (n =? 95))%nat.

Fixpoint all_chars (p : ascii -> bool) (s : string) : bool :=
  match s with
  | EmptyString => true
  | String c rest => p c && all_chars p rest
  end.

(** ** A concrete run: the end-to-end scenario of the specification *)

Module Scenario.

Definition baseUrl : string := "https://mcp.example.org".
Definition authToken : string := "unused".

(** Two sources of random octets, one per minted secret. *)
Definition code_bytes (n : nat) : list byte := repeat x2a n.
Definition token_bytes (n : nat) : list byte := repeat x37 n.

Definition verifier : string := "dBjftJeZ4CVP-mB92K27uhbUJU1p1r_wW1gFWFOEjXk".
Definition challenge : string := "E9Melhoa2OwvFrEMTJguCHaoeK1t8URWbuGJSstw-cM".

Definition T : Z := 1700000000000.

Definition query (redirect_uri : string) (state : option string) : Query.t :=
  Query.mk (Some "abc") (Some redirect_uri) (Some "code")
           (Some challenge) (Some "S256") state None None.

Definition code : string := generateRandomString code_bytes 32.
Definition bearer : string := generateRandomString token_bytes 48.

Definition body (grant_type code_verifier : string) : Body.t :=
  Body.mk (Some grant_type) (Some code) (Some code_verifier) (Some "abc") None None.

Definition ip : string := "203.0.113.7".

(** After [GET /authorize] at time [T]. *)
Definition authorized : ServerState :=
  snd (handleAuthorize baseUrl authToken code_bytes T
         (query "https://claude.ai/cb" (Some "xyz")) initial).

(** The session that request stores. *)
Definition session : AuthorizationSession.t :=
  session_of baseUrl T (query "https://claude.ai/cb" (Some "xyz")).

(** After the code has been exchanged, a second later. *)
Definition exchanged : ServerState :=
  snd (handleToken authToken token_bytes (T + 1000) (T + 1000)
         (body "authorization_code" verifier) ip authorized).

(** The access token that exchange stores. *)
Definition issued : AccessToken.t :=
  AccessToken.mk bearer "abc" EmptyString baseUrl
    (T + 1000 + 3600 * 1000) (T + 1000).

(** The same exchange attempted with a verifier that is not the one the
    challenge was derived from. *)
Definition tampered : ServerState :=
  snd (handleToken authToken token_bytes (T + 1000) (T + 1000)
         (body "authorization_code" "not-the-verifier") ip authorized).

(** The sweep timer firing every 60 seconds, first 50 seconds after the
    authorize request: the tenth tick comes 9 minutes 50 seconds after it
    and the eleventh 10 minutes 50 seconds after it. *)
Definition ticks : list Event :=
  map (fun k => SweepTick (T + 50000 + 60000 * Z.of_nat k)) (seq 0 10).

(** The state 10 minutes and 1 second after the authorize request. *)
Definition stale : ServerState :=
  run baseUrl authToken None authorized ticks.

(** Later traffic that leaves [code] alone: a sweep, another authorize
    request (its code comes from other random octets) and a protected
    request. *)
Definition later : list Event :=
  [SweepTick (T + 50000);
   Authorize token_bytes (T + 70000) (query "https://claude.com/cb" None);
   Protected (T + 80000) (Some ("Bearer " +:+ bearer)) ip].

End Scenario.

(** ** What the handlers put in the two maps *)

(** A session as [handleAuthorize] stores them: an accepted redirect URI, a
    client id and a challenge that are not empty, method "S256". *)
Definition session_well_formed (session : AuthorizationSession.t) : bool :=
  redirect_uri_accepted (AuthorizationSession.redirectUri session)
  && negb (String.eqb (AuthorizationSession.clientId session) EmptyString)
  && negb (String.eqb (AuthorizationSession.codeChallenge session) EmptyString)
  && String.eqb (AuthorizationSession.codeChallengeMethod session) "S256".

(** A token entry as [handleToken] stores them: the [token] field is the
    key, and the client id is not empty. *)
Definition token_well_formed (key : string) (data : AccessToken.t) : bool :=
  String.eqb (AccessToken.token data) key
  && negb (String.eqb (AccessToken.clientId data) EmptyString).

(** Both maps hold only such entries. *)
Definition maps_well_formed (s : ServerState) : Prop :=
  (forall code session, authorizationCodes s !! code = Some session ->
                        session_well_formed session = true)
  /\ (forall key data, accessTokens s !! key = Some data ->
                       token_well_formed key data = true).

(** ** Reading the discovery document *)

(** The strings a metadata document lists under a field. *)
Definition advertised (k : string) (doc : list (string * json)) : list string :=
  match field k doc with
  | Some (JArr items) => items
  | _ => []
  end.

(** ** Further sample inputs *)

Module Samples.

(** A source of random octets that agrees with [Scenario.code_bytes] on the
    first 24 octets of a draw and differs after them. *)
Definition code_bytes' (n : nat) : list byte :=
  repeat x2a 24 ++ repeat x00 (n - 24).

End Samples.

(** * The Home Assistant client, its tools and the MCP server

    The rest of the repository's code that is in reach: the [HAClient] class,
    the Home Assistant tool module and [createHevyMCPServer].  The
    conventions are those of the OAuth part: arguments are absent or of the
    type their declaration gives them; what lies outside the repository is a
    parameter, gathered in the classes [Runtime] and [HevyModules]. *)

(** ** JavaScript built-ins the client uses *)

Module JS.

Definition is_alnum (c : ascii) : bool :=
  let n := nat_of_ascii c in
  ((65 <=? n) && (n <=? 90) || (97 <=? n) && (n <=? 122)
   || (48 <=? n) && (n <=? 57))%nat.

Definition hex_digit (n : nat) : ascii :=
  match String.get n "0123456789ABCDEF" with
  | Some c => c
  | None => "0"%char
  end.

(** [%XX] for one octet. *)
Definition percent (c : ascii) : string :=
  let n := nat_of_ascii c in
  String "%" (String (hex_digit (n / 16)) (String (hex_digit (n mod 16)) EmptyString)).

(** [encodeURIComponent]: letters, digits and [-_.!~*'()] stay, every other
    octet of the UTF-8 form is percent-encoded.  The built-in throws
    [URIError] on a string with a lone surrogate; such a string has no UTF-8
    form and is not a [string] here, so the function is total. *)
Definition uri_unreserved (c : ascii) : bool :=
  is_alnum c || URI.contains c "-_.!~*'()".

Fixpoint encodeURIComponent (s : string) : string :=
  match s with
  | EmptyString => EmptyString
  | String c rest =>
      (if uri_unreserved c then String c EmptyString else percent c)
        +:+ encodeURIComponent rest
  end.

(** [URLSearchParams.prototype.toString]: the form-urlencoded serializer,
    where letters, digits and [*-._] stay, a space becomes [+] and every
    other octet is percent-encoded. *)
Definition form_safe (c : ascii) : bool :=
  is_alnum c || URI.contains c "*-._".

Fixpoint form_encode (s : string) : string :=
  match s with
  | EmptyString => EmptyString
  | String c rest =>
      (if form_safe c then String c EmptyString
       else if Ascii.eqb c " " then "+"
       else percent c)
        +:+ form_encode rest
  end.

Fixpoint join (sep : string) (parts : list string) : string :=
  match parts with
  | [] => EmptyString
  | [x] => x
  | x :: rest => x +:+ sep +:+ join sep rest
  end.

Definition URLSearchParams_toString (params : list (string * string)) : string :=
  join "&" (map (fun kv => form_encode (fst kv) +:+ "=" +:+ form_encode (snd kv)) params).

(** [s.replace(/\/$/, '')]: a slash that ends the string is removed, one at
    most. *)
Fixpoint remove_trailing_slash (s : string) : string :=
  match s with
  | EmptyString => EmptyString
  | String c rest =>
      if Ascii.eqb c "/" && String.eqb rest EmptyString then EmptyString
      else String c (remove_trailing_slash rest)
  end.

End JS.

(** The characters [encodeURIComponent] can produce. *)
Definition path_safe (c : ascii) : bool :=
  JS.uri_unreserved c || Ascii.eqb c "%".

(** ** What lies outside the repository *)

(** A field of an object handed to [JSON.stringify] as a request body. *)
Inductive BodyField (JsonValue : Type) : Type :=
| FString (s : string)
| FJson (j : JsonValue).

Arguments FString {JsonValue} s.
Arguments FJson {JsonValue} j.

(** The second argument of [fetch], as far as this code fills it, and the
    call as a whole. *)
Record RequestInit (JsonValue : Type) := mkInit {
  method : option string;
  body : option (list (string * BodyField JsonValue))
}.

Arguments mkInit {JsonValue} method body.
Arguments method {JsonValue} r.
Arguments body {JsonValue} r.

Record FetchCall (JsonValue : Type) := mkFetch {
  url : string;
  init : RequestInit JsonValue;
  headers : list (string * string)
}.

Arguments mkFetch {JsonValue} url init headers.
Arguments url {JsonValue} f.
Arguments init {JsonValue} f.
Arguments headers {JsonValue} f.

(** [World] is everything beyond the process; [JsonValue] the parsed JSON values;
    [Exn] the values that are thrown.  [transport] is [fetch] together with
    the rest of [HAClient.request] after it (the timeout, the reading of the
    response and the errors made from it): it answers a call with the JSON
    of the response or with the thrown error.  [handleToolError] is the
    function of that name of the errors module, which is not among the
    sources; [JSON_stringify v] is [JSON.stringify(v, null, 2)]. *)
Class Runtime := {
  World : Type;
  JsonValue : Type;
  Exn : Type;
  new_Error : string -> Exn;
  JSON_stringify : JsonValue -> string;
  empty_object : JsonValue;
  handleToolError : Exn -> string;
  transport : FetchCall JsonValue -> World -> (Exn + JsonValue) * World
}.

(** ** [HAClient] *)

Module HAConfig.
Record t := mk { baseUrl : string; token : string }.
End HAConfig.

Module HAHistoryParams.
Record t := mk {
  entity_id : option string;
  start_time : option string;
  end_time : option string;
  minimal_response : option bool
}.
End HAHistoryParams.

Module HAServiceCallData.
Record t (JsonValue : Type) := mk {
  domain : string;
  service : string;
  service_data : option JsonValue;
  target : option JsonValue
}.
Arguments mk {JsonValue} domain service service_data target.
Arguments domain {JsonValue} t.
Arguments service {JsonValue} t.
Arguments service_data {JsonValue} t.
Arguments target {JsonValue} t.
End HAServiceCallData.

Module HAClient.

Record t := mk { baseUrl : string; token : string }.

Definition new (config : HAConfig.t) : t :=
  mk (JS.remove_trailing_slash (HAConfig.baseUrl config)) (HAConfig.token config).

Section WithRuntime.
Context `{Runtime}.

(** [request(endpoint)] with no options. *)
Definition no_options : RequestInit JsonValue := mkInit None None.

Definition request (this : t) (endpoint : string) (options : RequestInit JsonValue)
    (w : World) : (Exn + JsonValue) * World :=
  let url := baseUrl this +:+ endpoint in
  transport
    (mkFetch url options
       [("Authorization", "Bearer " +:+ token this);
        ("Content-Type", "application/json")])
    w.

Definition getStates (this : t) : World -> (Exn + JsonValue) * World :=
  request this "/api/states" no_options.

Definition getState (this : t) (entityId : string) : World -> (Exn + JsonValue) * World :=
  request this ("/api/states/" +:+ JS.encodeURIComponent entityId) no_options.

Definition setState (this : t) (entityId state : string) (attributes : option JsonValue)
  : World -> (Exn + JsonValue) * World :=
  request this ("/api/states/" +:+ JS.encodeURIComponent entityId)
    (mkInit (Some "POST")
       (Some [("state", FString state);
              ("attributes", FJson (default empty_object attributes))])).

Definition getServices (this : t) : World -> (Exn + JsonValue) * World :=
  request this "/api/services" no_options.

Definition callService (this : t) (data : HAServiceCallData.t JsonValue)
  : World -> (Exn + JsonValue) * World :=
  let domain := HAServiceCallData.domain data in
  let service := HAServiceCallData.service data in
  let service_data := HAServiceCallData.service_data data in
  let target := HAServiceCallData.target data in
  let payload :=
    (match service_data with Some v => [("service_data", FJson v)] | None => [] end)
    ++ (match target with Some v => [("target", FJson v)] | None => [] end) in
  request this
    ("/api/services/" +:+ JS.encodeURIComponent domain +:+ "/"
       +:+ JS.encodeURIComponent service)
    (mkInit (Some "POST") (Some payload)).

(** The endpoint [getHistory] asks for. *)
Definition history_endpoint (params : HAHistoryParams.t) : string :=
  let queryParams : list (string * string) := [] in
  let queryParams :=
    if truthy (HAHistoryParams.start_time params)
    then queryParams ++ [("filter_entity_id",
                          or_else (HAHistoryParams.entity_id params) EmptyString)]
    else queryParams in
  let queryParams :=
    if truthy (HAHistoryParams.end_time params)
    then queryParams ++ [("end_time", str (HAHistoryParams.end_time params))]
    else queryParams in
  let queryParams :=
    if default false (HAHistoryParams.minimal_response params)
    then queryParams ++ [("minimal_response", "true")]
    else queryParams in
  if truthy (HAHistoryParams.start_time params)
  then "/api/history/period/" +:+ str (HAHistoryParams.start_time params)
         +:+ "?" +:+ JS.URLSearchParams_toString queryParams
  else "/api/history/period?" +:+ JS.URLSearchParams_toString queryParams.

Definition getHistory (this : t) (params : HAHistoryParams.t)
  : World -> (Exn + JsonValue) * World :=
  request this (history_endpoint params) no_options.

Definition ping (this : t) : World -> (Exn + JsonValue) * World :=
  request this "/api/" no_options.

Definition getConfig (this : t) : World -> (Exn + JsonValue) * World :=
  request this "/api/config" no_options.

Definition getErrorLog (this : t) : World -> (Exn + JsonValue) * World :=
  request this "/api/error_log" no_options.

End WithRuntime.

End HAClient.

(** ** Tools and tool calls *)

Module Tool.

Inductive TypeSpec :=
| One (type : string)
| AnyOf (types : list string).

(** A property of a nested object, and a property of the input object. *)
Record LeafProperty := Leaf {
  leaf_type : TypeSpec;
  leaf_description : string
}.

Record Property := mkProp {
  type : TypeSpec;
  description : string;
  default_value : option bool;
  properties : list (string * LeafProperty)
}.

Record InputSchema := Schema {
  schema_type : string;
  schema_properties : list (string * Property);
  required : option (list string)
}.

Record t := mk {
  name : string;
  tool_description : string;
  inputSchema : InputSchema
}.

End Tool.

(** [request.params.arguments], with each argument at the type the tool
    schemas give it. *)
Module Args.
Record t (JsonValue : Type) := mk {
  entity_id : option string;
  state : option string;
  attributes : option JsonValue;
  domain : option string;
  service : option string;
  service_data : option JsonValue;
  target : option JsonValue;
  start_time : option string;
  end_time : option string;
  minimal_response : option bool
}.
Arguments mk {JsonValue}.
Arguments entity_id {JsonValue} t.
Arguments state {JsonValue} t.
Arguments attributes {JsonValue} t.
Arguments domain {JsonValue} t.
Arguments service {JsonValue} t.
Arguments service_data {JsonValue} t.
Arguments target {JsonValue} t.
Arguments start_time {JsonValue} t.
Arguments end_time {JsonValue} t.
Arguments minimal_response {JsonValue} t.

(** [{}]. *)
Definition empty {JsonValue : Type} : t JsonValue :=
  mk None None None None None None None None None None.

(** Whether the string argument of that name is truthy. *)
Definition has {JsonValue : Type} (args : t JsonValue) (name : string) : bool :=
  if String.eqb name "entity_id" then truthy (entity_id args)
  else if String.eqb name "state" then truthy (state args)
  else if String.eqb name "domain" then truthy (domain args)
  else if String.eqb name "service" then truthy (service args)
  else if String.eqb name "start_time" then truthy (start_time args)
  else if String.eqb name "end_time" then truthy (end_time args)
  else false.
End Args.

Record CallToolRequest (JsonValue : Type) := mkCall {
  call_name : string;
  call_arguments : option (Args.t JsonValue)
}.
Arguments mkCall {JsonValue} call_name call_arguments.
Arguments call_name {JsonValue} c.
Arguments call_arguments {JsonValue} c.

Record TextContent := mkText { content_type : string; text : string }.

(** A result without [isError] has [isError = false] here. *)
Record ToolResult := mkResult { content : list TextContent; isError : bool }.

Definition text_result (t : string) : ToolResult :=
  mkResult [mkText "text" t] false.

Definition error_result (t : string) : ToolResult :=
  mkResult [mkText "text" t] true.

(** The tool list of [getHATools], entry by entry. *)
Definition getHATools : list Tool.t :=
  [ Tool.mk "ha_get_states"
      "Get all entity states from Home Assistant. Returns a list of all entities with their current states and attributes."
      (Tool.Schema "object" [] None);
    Tool.mk "ha_get_state"
      "Get the current state of a specific entity by entity_id. Returns entity state, attributes, and last updated time."
      (Tool.Schema "object"
         [("entity_id",
           Tool.mkProp (Tool.One "string")
             ("The entity ID (e.g., " +:+ dquote +:+ "light.living_room" +:+ dquote +:+ ", " +:+ dquote +:+ "switch.bedroom" +:+ dquote +:+ ")")
             None [])]
         (Some ["entity_id"]));
    Tool.mk "ha_set_state"
      "Set or update the state of an entity. Note: This only updates the state in Home Assistant's state machine, it does not trigger automations or call services."
      (Tool.Schema "object"
         [("entity_id", Tool.mkProp (Tool.One "string") "The entity ID to update" None []);
          ("state",
           Tool.mkProp (Tool.One "string")
             ("The new state value (e.g., " +:+ dquote +:+ "on" +:+ dquote +:+ ", " +:+ dquote +:+ "off" +:+ dquote +:+ ", " +:+ dquote +:+ "25" +:+ dquote +:+ ")")
             None []);
          ("attributes",
           Tool.mkProp (Tool.One "object") "Optional attributes to set on the entity" None [])]
         (Some ["entity_id"; "state"]));
    Tool.mk "ha_call_service"
      "Call a Home Assistant service to control devices or trigger automations. This is the primary way to control devices (e.g., turn on lights, set temperature)."
      (Tool.Schema "object"
         [("domain",
           Tool.mkProp (Tool.One "string")
             ("The service domain (e.g., " +:+ dquote +:+ "light" +:+ dquote +:+ ", " +:+ dquote +:+ "switch" +:+ dquote +:+ ", " +:+ dquote +:+ "climate" +:+ dquote +:+ ", " +:+ dquote +:+ "automation" +:+ dquote +:+ ")")
             None []);
          ("service",
           Tool.mkProp (Tool.One "string")
             ("The service to call (e.g., " +:+ dquote +:+ "turn_on" +:+ dquote +:+ ", " +:+ dquote +:+ "turn_off" +:+ dquote +:+ ", " +:+ dquote +:+ "toggle" +:+ dquote +:+ ")")
             None []);
          ("service_data",
           Tool.mkProp (Tool.One "object")
             ("Optional service data (e.g., {" +:+ dquote +:+ "brightness" +:+ dquote +:+ ": 255, " +:+ dquote +:+ "rgb_color" +:+ dquote +:+ ": [255, 0, 0]})")
             None []);
          ("target",
           Tool.mkProp (Tool.One "object") "Target entities, devices, or areas" None
             [("entity_id",
               Tool.Leaf (Tool.AnyOf ["string"; "array"]) "Entity ID or array of entity IDs");
              ("device_id",
               Tool.Leaf (Tool.AnyOf ["string"; "array"]) "Device ID or array of device IDs");
              ("area_id",
               Tool.Leaf (Tool.AnyOf ["string"; "array"]) "Area ID or array of area IDs")])]
         (Some ["domain"; "service"]));
    Tool.mk "ha_get_services"
      "Get all available services from Home Assistant. Returns a list of all service domains and their available services with descriptions."
      (Tool.Schema "object" [] None);
    Tool.mk "ha_get_history"
      "Get historical state data for entities. Useful for tracking changes over time or analyzing patterns."
      (Tool.Schema "object"
         [("entity_id", Tool.mkProp (Tool.One "string") "The entity ID to get history for" None []);
          ("start_time",
           Tool.mkProp (Tool.One "string")
             ("ISO 8601 datetime string for history start (e.g., " +:+ dquote +:+ "2024-01-01T00:00:00" +:+ dquote +:+ ")")
             None []);
          ("end_time",
           Tool.mkProp (Tool.One "string")
             "ISO 8601 datetime string for history end (defaults to now)"
             None []);
          ("minimal_response",
           Tool.mkProp (Tool.One "boolean")
             "If true, returns minimal data (state and timestamp only)"
             (Some false) [])]
         None) ].

Section HATools.
Context `{Runtime}.

(** What a [case] of [handleHAToolCall] answers once the client has
    answered: the JSON as text, or, through the [catch], the error. *)
Definition answered (r : (Exn + JsonValue) * World) : option ToolResult * World :=
  match r with
  | (inr v, w) => (Some (text_result (JSON_stringify v)), w)
  | (inl e, w) => (Some (error_result (handleToolError e)), w)
  end.

(** [throw new Error(message)] inside the [try]. *)
Definition thrown (message : string) (w : World) : option ToolResult * World :=
  (Some (error_result (handleToolError (new_Error message))), w).

Definition handleHAToolCall (request : CallToolRequest JsonValue) (haClient : HAClient.t)
    (w : World) : option ToolResult * World :=
  let toolName := call_name request in
  let args := default Args.empty (call_arguments request) in
  if String.eqb toolName "ha_get_states" then
    answered (HAClient.getStates haClient w)
  else if String.eqb toolName "ha_get_state" then
    let entity_id := Args.entity_id args in
    if negb (truthy entity_id) then thrown "entity_id is required" w
    else answered (HAClient.getState haClient (str entity_id) w)
  else if String.eqb toolName "ha_set_state" then
    let entity_id := Args.entity_id args in
    let state := Args.state args in
    let attributes := Args.attributes args in
    if negb (truthy entity_id) || negb (truthy state)
    then thrown "entity_id and state are required" w
    else answered (HAClient.setState haClient (str entity_id) (str state) attributes w)
  else if String.eqb toolName "ha_call_service" then
    let domain := Args.domain args in
    let service := Args.service args in
    let service_data := Args.service_data args in
    let target := Args.target args in
    if negb (truthy domain) || negb (truthy service)
    then thrown "domain and service are required" w
    else answered (HAClient.callService haClient
                     (HAServiceCallData.mk (str domain) (str service)
                        service_data target) w)
  else if String.eqb toolName "ha_get_services" then
    answered (HAClient.getServices haClient w)
  else if String.eqb toolName "ha_get_history" then
    answered (HAClient.getHistory haClient
                (HAHistoryParams.mk (Args.entity_id args) (Args.start_time args)
                   (Args.end_time args) (Args.minimal_response args)) w)
  else (None, w).

End HATools.

(** ** [createHevyMCPServer] *)

Module ServerConfig.
Record t := mk {
  apiKey : option string;
  apiBaseUrl : option string;
  haBaseUrl : option string;
  haToken : option string
}.
End ServerConfig.

(** The Hevy client and the four Hevy tool modules, which are not among the
    sources: their tool lists, and their handlers, each answering a call
    with a result or with [null]. *)
Class HevyModules `{Runtime} := {
  HevyClient : Type;
  HevyClient_new : string -> string -> HevyClient;
  getWorkoutTools : list Tool.t;
  getRoutineTools : list Tool.t;
  getExerciseTools : list Tool.t;
  getFolderTools : list Tool.t;
  handleWorkoutToolCall :
    CallToolRequest JsonValue -> HevyClient -> World -> option ToolResult * World;
  handleRoutineToolCall :
    CallToolRequest JsonValue -> HevyClient -> World -> option ToolResult * World;
  handleExerciseToolCall :
    CallToolRequest JsonValue -> HevyClient -> World -> option ToolResult * World;
  handleFolderToolCall :
    CallToolRequest JsonValue -> HevyClient -> World -> option ToolResult * World
}.

Section MCPServer.
Context `{HevyModules}.

(** The two request handlers the server registers, and what it is named. *)
Record Server := mkServer {
  server_name : string;
  server_version : string;
  listTools : list Tool.t;
  callTool : CallToolRequest JsonValue -> World -> ToolResult * World
}.

Definition createHevyMCPServer (config : ServerConfig.t) : string + Server :=
  if negb (truthy (ServerConfig.apiKey config))
  then inl "HEVY_API_KEY is required"
  else
    let hevyClient :=
      HevyClient_new (str (ServerConfig.apiKey config))
        (or_else (ServerConfig.apiBaseUrl config) "https://api.hevyapp.com") in
    let haClient : option HAClient.t :=
      if truthy (ServerConfig.haBaseUrl config) && truthy (ServerConfig.haToken config)
      then Some (HAClient.new
                   (HAConfig.mk (str (ServerConfig.haBaseUrl config))
                      (str (ServerConfig.haToken config))))
      else None in
    let allTools :=
      getWorkoutTools ++ getRoutineTools ++ getExerciseTools ++ getFolderTools in
    let allTools :=
      match haClient with
      | Some _ => allTools ++ getHATools
      | None => allTools
      end in
    inr (mkServer "hevy-ha-mcp-server" "1.0.0" allTools
           (fun request w =>
              match handleWorkoutToolCall request hevyClient w with
              | (Some result, w) => (result, w)
              | (None, w) =>
              match handleRoutineToolCall request hevyClient w with
              | (Some result, w) => (result, w)
              | (None, w) =>
              match handleExerciseToolCall request hevyClient w with
              | (Some result, w) => (result, w)
              | (None, w) =>
              match handleFolderToolCall request hevyClient w with
              | (Some result, w) => (result, w)
              | (None, w) =>
              match
                match haClient with
                | Some client => handleHAToolCall request client w
                | None => (None, w)
                end
              with
              | (Some result, w) => (result, w)
              | (None, w) =>
                  (error_result ("Unknown tool: " +:+ call_name request), w)
              end end end end end)).

End MCPServer.

(** ** A runtime to run the tools on *)

Module Testbed.

(** The world is the list of the calls made so far; Home Assistant answers
    every call with an empty list; JSON values and errors are their own
    text. *)
Definition runtime : Runtime :=
  {| World := list (FetchCall string);
     JsonValue := string;
     Exn := string;
     new_Error := fun message => message;
     JSON_stringify := fun v => v;
     empty_object := "{}";
     handleToolError := fun e => "Error: " +:+ e;
     transport := fun call w => (inr "[]", w ++ [call]) |}.

(** Hevy modules with one tool, [get-workouts], served by the workout
    module. *)
Definition get_workouts : Tool.t :=
  Tool.mk "get-workouts" "Get workouts" (Tool.Schema "object" [] None).

Definition modules : @HevyModules runtime :=
  {| HevyClient := string * string;
     HevyClient_new := fun apiKey baseUrl => (apiKey, baseUrl);
     getWorkoutTools := [get_workouts];
     getRoutineTools := [];
     getExerciseTools := [];
     getFolderTools := [];
     handleWorkoutToolCall := fun request _ w =>
       if String.eqb (call_name request) "get-workouts"
       then (Some (text_result "[]"), w) else (None, w);
     handleRoutineToolCall := fun _ _ w => (None, w);
     handleExerciseToolCall := fun _ _ w => (None, w);
     handleFolderToolCall := fun _ _ w => (None, w) |}.

Definition client : HAClient.t :=
  HAClient.new (HAConfig.mk "http://ha.local:8123/" "secret").

Definition call (name : string) (args : Args.t string) : CallToolRequest string :=
  mkCall name (Some args).

Definition entity (id : string) : Args.t string :=
  Args.mk (Some id) None None None None None None None None None.

Definition config (haBaseUrl haToken : option string) : ServerConfig.t :=
  ServerConfig.mk (Some "hevy-key") None haBaseUrl haToken.

End Testbed.

(** * Properties *)

(** ** Test vectors for the hash and the encoding *)

Example sha256_base64url_empty :
  sha256_base64url EmptyString = "47DEQpj8HBSa-_TImW-5JCeuQeRkm5NMpJWZG3hSuFU".
Proof. vm_compute. reflexivity. Qed.

Example sha256_base64url_abc :
  sha256_base64url "abc" = "ungWv48Bz-pBQUDeXa4iI7ADYaOWF3qctBD_YfIAFa0".
Proof. vm_compute. reflexivity. Qed.

(** 56 octets: the padding spills into a second block. *)
Example sha256_base64url_padding_spills :
  sha256_base64url
    "aaaaaaaaaaaaaaaaaaaaaaaaaaaaaaaaaaaaaaaaaaaaaaaaaaaaaaaa"
  = "s1Q5pKxvCUi21vnjxq8PX1kM4g8b3nCQ73lwaG7Gc4o".
Proof. vm_compute. reflexivity. Qed.

(** 64 octets: two blocks after padding. *)
Example sha256_base64url_two_blocks :
  sha256_base64url
    "aaaaaaaaaaaaaaaaaaaaaaaaaaaaaaaaaaaaaaaaaaaaaaaaaaaaaaaaaaaaaaaa"
  = "_-BU_nrgy23GXDr5th1SCfQ5hR20PQulmXM33xVGaOs".
Proof. vm_compute. reflexivity. Qed.

(** The verifier and challenge of RFC 7636, appendix B. *)
Example sha256_base64url_rfc7636 :
  sha256_base64url "dBjftJeZ4CVP-mB92K27uhbUJU1p1r_wW1gFWFOEjXk"
  = "E9Melhoa2OwvFrEMTJguCHaoeK1t8URWbuGJSstw-cM".
Proof. vm_compute. reflexivity. Qed.

Example base64url_tails :
  Base64url.encode [xfb; xff; xbe] = "-_--"
  /\ Base64url.encode [x01; x02; x03; x04] = "AQIDBA"
  /\ Base64url.encode [xff; xfe; xfd; xfc; xfb] = "__79_Ps".
Proof. vm_compute. repeat split. Qed.

Example URI_host_examples :
  URI.host "http://claude.ai/cb" = Some "claude.ai"
  /\ URI.host "https://user@claude.ai:8443/x" = Some "claude.ai"
  /\ URI.host "https://evil.example/cb" = Some "evil.example"
  /\ URI.host "/cb?next=http://claude.ai" = None.
Proof. vm_compute. repeat split. Qed.

(** ** Strings and parameters *)

Lemma truthy_inv (p : option string) :
  truthy p = true -> exists x, p = Some x /\ x <> EmptyString.
Proof.
  destruct p as [x|]; simpl; [|discriminate].
  intros H. exists x. split; [reflexivity|].
  apply String.eqb_neq. now apply negb_true_iff.
Qed.

Lemma truthy_Some (x : string) : x <> EmptyString -> truthy (Some x) = true.
Proof. intros H. simpl. apply negb_true_iff. now apply String.eqb_neq. Qed.

Lemma strict_eq_true (p : option string) (s : string) :
  strict_eq p s = true <-> p = Some s.
Proof.
  destruct p as [x|]; simpl.
  - rewrite String.eqb_eq. split; congruence.
  - split; discriminate.
Qed.

Lemma strict_eq_str (p : option string) (s : string) :
  strict_eq p s = true -> str p = s.
Proof. intros H. apply strict_eq_true in H. now subst. Qed.

Lemma startsWith_inv (p s : string) :
  startsWith s p = true -> exists t, s = p +:+ t.
Proof.
  unfold startsWith. revert s.
  induction p as [|c p IH]; intros s H.
  - now exists s.
  - destruct s as [|d s]; simpl in H; [discriminate|].
    destruct (ascii_dec c d) as [->|]; [|discriminate].
    destruct (IH s H) as [t ->]. now exists t.
Qed.

Lemma startsWith_append (p t : string) : startsWith (p +:+ t) p = true.
Proof.
  unfold startsWith. induction p as [|c p IH]; simpl.
  - now destruct t.
  - destruct (ascii_dec c c); [exact IH|congruence].
Qed.

Lemma substring_whole (t : string) : String.substring 0 (String.length t) t = t.
Proof. induction t as [|c t IH]; simpl; [reflexivity|now rewrite IH]. Qed.

Lemma substring_from_append (p t : string) :
  substring_from (String.length p) (p +:+ t) = t.
Proof.
  unfold substring_from. induction p as [|c p IH]; simpl.
  - rewrite Nat.sub_0_r. apply substring_whole.
  - exact IH.
Qed.

(** ** The sweep, entry by entry *)

Lemma map_fold_delete_expired {A} (expired : A -> bool) (b m : gmap string A) k :
  map_fold (fun i x acc => if expired x then delete i acc else acc) b m !! k
  = match m !! k with
    | Some x => if expired x then None else b !! k
    | None => b !! k
    end.
Proof.
  revert k.
  apply (map_fold_weak_ind
           (fun r m => forall k, r !! k = match m !! k with
                                          | Some x => if expired x then None else b !! k
                                          | None => b !! k
                                          end)).
  - intros k. now rewrite lookup_empty.
  - intros i x m' r Hi IH k.
    destruct (decide (i = k)) as [->|Hne].
    + rewrite lookup_insert_eq. destruct (expired x).
      * apply lookup_delete_eq.
      * rewrite IH, Hi. reflexivity.
    + rewrite lookup_insert_ne by done. destruct (expired x).
      * rewrite lookup_delete_ne by done. apply IH.
      * apply IH.
Qed.

Lemma sweep_authorizationCodes now s code :
  authorizationCodes (sweep now s) !! code
  = match authorizationCodes s !! code with
    | Some session =>
        if bool_decide (now - AuthorizationSession.createdAt session > 10 * 60 * 1000)
        then None else Some session
    | None => None
    end.
Proof.
  unfold sweep; simpl.
  rewrite (map_fold_delete_expired
             (fun session => bool_decide (now - AuthorizationSession.createdAt session
                                          > 10 * 60 * 1000))).
  destruct (authorizationCodes s !! code) eqn:E; [|reflexivity].
  now destruct (bool_decide _).
Qed.

Lemma sweep_accessTokens now s token :
  accessTokens (sweep now s) !! token
  = match accessTokens s !! token with
    | Some data =>
        if bool_decide (now > AccessToken.expiresAt data) then None else Some data
    | None => None
    end.
Proof.
  unfold sweep; simpl.
  rewrite (map_fold_delete_expired
             (fun data => bool_decide (now > AccessToken.expiresAt data))).
  destruct (accessTokens s !! token) eqn:E; [|reflexivity].
  now destruct (bool_decide _).
Qed.

(** ** The PKCE verifier *)

Lemma verifyCodeChallenge_S256 (v c : string) :
  verifyCodeChallenge v c "S256" = String.eqb (sha256_base64url v) c.
Proof. reflexivity. Qed.

Lemma verifyCodeChallenge_plain (v c : string) :
  verifyCodeChallenge v c "plain" = String.eqb v c.
Proof. reflexivity. Qed.

Lemma verifyCodeChallenge_other (v c m : string) :
  m <> "S256" -> m <> "plain" -> verifyCodeChallenge v c m = false.
Proof.
  intros H1 H2. unfold verifyCodeChallenge.
  apply String.eqb_neq in H1. apply String.eqb_neq in H2.
  now rewrite H1, H2.
Qed.

(** C4.  [verifyCodeChallenge] accepts every verifier against its own SHA-256
    base64url digest under "S256", accepts every verifier against itself
    under "plain", rejects under "S256" whenever the digest of the verifier
    differs from the challenge, and rejects everything under any other
    method.  It is a function of its three arguments only: it neither reads
    nor returns the server state, which is how the embedding renders the
    absence of side effects. *)
Theorem C4_verifyCodeChallenge_correct (v c m : string) :
  verifyCodeChallenge v (sha256_base64url v) "S256" = true
  /\ verifyCodeChallenge v v "plain" = true
  /\ (sha256_base64url v <> c -> verifyCodeChallenge v c "S256" = false)
  /\ (m <> "S256" -> m <> "plain" -> verifyCodeChallenge v c m = false).
Proof.
  repeat split.
  - rewrite verifyCodeChallenge_S256. apply String.eqb_refl.
  - rewrite verifyCodeChallenge_plain. apply String.eqb_refl.
  - intros H. rewrite verifyCodeChallenge_S256. now apply String.eqb_neq.
  - apply verifyCodeChallenge_other.
Qed.

Lemma C4_verifyCodeChallenge_witness :
  verifyCodeChallenge "dBjftJeZ4CVP-mB92K27uhbUJU1p1r_wW1gFWFOEjXk"
    "E9Melhoa2OwvFrEMTJguCHaoeK1t8URWbuGJSstw-cM" "S256" = true
  /\ verifyCodeChallenge "dBjftJeZ4CVP-mB92K27uhbUJU1p1r_wW1gFWFOEjXk"
       "dBjftJeZ4CVP-mB92K27uhbUJU1p1r_wW1gFWFOEjXk" "plain" = true
  /\ verifyCodeChallenge "dBjftJeZ4CVP-mB92K27uhbUJU1p1r_wW1gFWFOEjXk"
       "E9Melhoa2OwvFrEMTJguCHaoeK1t8URWbuGJSstw-cN" "S256" = false
  /\ verifyCodeChallenge "dBjftJeZ4CVP-mB92K27uhbUJU1p1r_wW1gFWFOEjXk"
       "E9Melhoa2OwvFrEMTJguCHaoeK1t8URWbuGJSstw-cN" "S512" = false.
Proof.
  destruct (C4_verifyCodeChallenge_correct
              "dBjftJeZ4CVP-mB92K27uhbUJU1p1r_wW1gFWFOEjXk"
              "E9Melhoa2OwvFrEMTJguCHaoeK1t8URWbuGJSstw-cN" "S512")
    as (H1 & H2 & H3 & H4).
  split; [|split; [|split]].
  - rewrite sha256_base64url_rfc7636 in H1. exact H1.
  - exact H2.
  - apply H3. vm_compute. discriminate.
  - apply H4; discriminate.
Defined.

(** ** The bearer-token middleware *)

Lemma bearer_header (token : string) :
  truthy (Some ("Bearer " +:+ token)) = true
  /\ startsWith (str (Some ("Bearer " +:+ token))) "Bearer " = true
  /\ substring_from 7 (str (Some ("Bearer " +:+ token))) = token.
Proof.
  split; [reflexivity|]. split.
  - apply startsWith_append.
  - apply (substring_from_append "Bearer ").
Qed.

Lemma validateBearerToken_bearer baseUrl now token ip s :
  validateBearerToken baseUrl now (Some ("Bearer " +:+ token)) ip s
  = match accessTokens s !! token with
    | None =>
        (oauth_error 401 "invalid_token" "Invalid or expired access token",
         logged (authFailure "invalid_access_token" ip) s)
    | Some tokenData =>
        if bool_decide (now > AccessToken.expiresAt tokenData)
        then (oauth_error 401 "invalid_token" "Token has expired",
              logged (authFailure "expired_access_token" ip)
                (set_accessTokens (delete token (accessTokens s)) s))
        else (Next, logged (info "Valid access token:") s)
    end.
Proof.
  destruct (bearer_header token) as (Ht & Hp & Hs).
  unfold validateBearerToken. rewrite Ht, Hp, Hs. reflexivity.
Qed.

(** C5.  A request bearing a token that is in the store and whose [expiresAt]
    lies strictly before the current time is answered 401 [invalid_token]
    with the description "Token has expired"; the token is deleted from the
    token store, an [authFailure] is logged, the pending sessions are left
    alone and the protected handler is not reached. *)
Theorem C5_expired_token_rejected
    (baseUrl : option string) (now : Z) (ip token : string)
    (data : AccessToken.t) (s : ServerState) :
  accessTokens s !! token = Some data ->
  now > AccessToken.expiresAt data ->
  let r := validateBearerToken baseUrl now (Some ("Bearer " +:+ token)) ip s in
  fst r = Json 401 [] [("error", JStr "invalid_token");
                       ("error_description", JStr "Token has expired")]
  /\ fst r <> Next
  /\ accessTokens (snd r) = delete token (accessTokens s)
  /\ accessTokens (snd r) !! token = None
  /\ authorizationCodes (snd r) = authorizationCodes s
  /\ log (snd r) = log s ++ [authFailure "expired_access_token" ip].
Proof.
  intros Hfound Hexp r. subst r.
  rewrite validateBearerToken_bearer, Hfound.
  rewrite bool_decide_eq_true_2 by exact Hexp. simpl.
  repeat split; try discriminate. apply lookup_delete_eq.
Qed.

(** C9.  A request bearing a token that is in the store and not expired is
    passed on to the protected handler, and neither the pending sessions nor
    the token store change: the entry of the token, its [expiresAt]
    included, is what it was. *)
Theorem C9_valid_token_changes_nothing
    (baseUrl : option string) (now : Z) (ip token : string)
    (data : AccessToken.t) (s : ServerState) :
  accessTokens s !! token = Some data ->
  ~ now > AccessToken.expiresAt data ->
  let r := validateBearerToken baseUrl now (Some ("Bearer " +:+ token)) ip s in
  fst r = Next
  /\ authorizationCodes (snd r) = authorizationCodes s
  /\ accessTokens (snd r) = accessTokens s
  /\ accessTokens (snd r) !! token = Some data.
Proof.
  intros Hfound Hlive r. subst r.
  rewrite validateBearerToken_bearer, Hfound.
  rewrite bool_decide_eq_false_2 by exact Hlive. simpl.
  repeat split. exact Hfound.
Qed.

(** ** The token endpoint, case by case *)

Ltac split_andb H :=
  repeat (let H' := fresh H in
          apply andb_true_iff in H; destruct H as [H H']).

(** A body that fails check 1 or 2 is turned away before the lookup: the
    maps are not touched and no token is minted. *)
Lemma handleToken_not_exchange authToken rb n1 n2 body ip s :
  token_checks_1_to_2 body = false ->
  exists err description,
    (err = "invalid_request" \/ err = "unsupported_grant_type")
    /\ handleToken authToken rb n1 n2 body ip s
       = (oauth_error 400 err description,
          logged (info "OAuth /token request:") s).
Proof.
  unfold token_checks_1_to_2, handleToken. cbv zeta. intros H.
  destruct (truthy (Body.grant_type body)), (truthy (Body.code body)),
    (truthy (Body.code_verifier body)), (truthy (Body.client_id body));
    simpl in *; try (eexists _, _; split; [left; reflexivity|reflexivity]).
  rewrite H; simpl. eexists _, _; split; [right; reflexivity|reflexivity].
Qed.

(** Check 3: no session under the code. *)
Lemma handleToken_absent authToken rb n1 n2 body ip s :
  token_checks_1_to_2 body = true ->
  authorizationCodes s !! str (Body.code body) = None ->
  handleToken authToken rb n1 n2 body ip s
  = (oauth_error 400 "invalid_grant" "Invalid or expired authorization code",
     mkState (authorizationCodes s) (accessTokens s)
       (log s ++ [info "OAuth /token request:";
                  authFailure "invalid_authorization_code" ip])).
Proof.
  unfold token_checks_1_to_2, handleToken. cbv zeta. intros H Hnone.
  split_andb H. rewrite H, H3, H2, H1, H0. simpl.
  rewrite Hnone. unfold logged; simpl. now rewrite <- app_assoc.
Qed.

(** Checks 4 to 6 failing: [invalid_grant], and the session is deleted. *)
Lemma handleToken_mismatch authToken rb n1 n2 body ip s session :
  token_checks_1_to_2 body = true ->
  authorizationCodes s !! str (Body.code body) = Some session ->
  token_checks_4_to_6 body session = false ->
  exists description reason,
    handleToken authToken rb n1 n2 body ip s
    = (oauth_error 400 "invalid_grant" description,
       mkState (delete (str (Body.code body)) (authorizationCodes s))
         (accessTokens s)
         (log s ++ [info "OAuth /token request:"; authFailure reason ip])).
Proof.
  unfold token_checks_1_to_2, token_checks_4_to_6, handleToken. cbv zeta.
  intros H Hsome H46.
  split_andb H. rewrite H, H3, H2, H1, H0. simpl. rewrite Hsome.
  destruct (verifyCodeChallenge _ _ _); simpl in *.
  - destruct (strict_eq (Body.client_id body) _); simpl in *.
    + destruct (truthy (Body.redirect_uri body)),
        (strict_eq (Body.redirect_uri body) _); simpl in *; try discriminate.
      eexists _, _. unfold logged; simpl. rewrite <- app_assoc. reflexivity.
    + eexists _, _. unfold logged; simpl. rewrite <- app_assoc. reflexivity.
  - eexists _, _. unfold logged; simpl. rewrite <- app_assoc. reflexivity.
Qed.

(** Check 4 failing, with the response the code gives for it. *)
Lemma handleToken_bad_verifier authToken rb n1 n2 body ip s session :
  token_checks_1_to_2 body = true ->
  authorizationCodes s !! str (Body.code body) = Some session ->
  verifyCodeChallenge (str (Body.code_verifier body))
    (AuthorizationSession.codeChallenge session)
    (AuthorizationSession.codeChallengeMethod session) = false ->
  handleToken authToken rb n1 n2 body ip s
  = (oauth_error 400 "invalid_grant" "Invalid code_verifier",
     mkState (delete (str (Body.code body)) (authorizationCodes s))
       (accessTokens s)
       (log s ++ [info "OAuth /token request:";
                  authFailure "invalid_code_verifier" ip])).
Proof.
  unfold token_checks_1_to_2, handleToken. cbv zeta. intros H Hsome Hv.
  split_andb H. rewrite H, H3, H2, H1, H0. simpl. rewrite Hsome, Hv. simpl.
  unfold logged; simpl. now rewrite <- app_assoc.
Qed.

(** All checks passing. *)
Lemma handleToken_success authToken rb n1 n2 body ip s session :
  token_checks_1_to_2 body = true ->
  authorizationCodes s !! str (Body.code body) = Some session ->
  token_checks_4_to_6 body session = true ->
  let accessToken := generateRandomString rb 48 in
  handleToken authToken rb n1 n2 body ip s
  = (Json 200 []
       ([("access_token", JStr accessToken);
         ("token_type", JStr "Bearer");
         ("expires_in", JNum 3600)]
        ++ (if String.eqb (AuthorizationSession.scope session) EmptyString
            then []
            else [("scope", JStr (AuthorizationSession.scope session))])),
     mkState (delete (str (Body.code body)) (authorizationCodes s))
       (<[accessToken :=
            AccessToken.mk accessToken
              (AuthorizationSession.clientId session)
              (AuthorizationSession.scope session)
              (AuthorizationSession.resource session)
              (n1 + 3600 * 1000) n2]> (accessTokens s))
       (log s ++ [info "OAuth /token request:";
                  authAttempt true ip (AuthorizationSession.clientId session);
                  info "Issued access token:"])).
Proof.
  unfold token_checks_1_to_2, token_checks_4_to_6, handleToken. cbv zeta.
  intros H Hsome H46.
  split_andb H. split_andb H46.
  rewrite H, H3, H2, H1, H0. simpl. rewrite Hsome, H46. simpl.
  rewrite H5. simpl.
  replace (truthy (Body.redirect_uri body)
           && negb (strict_eq (Body.redirect_uri body)
                      (AuthorizationSession.redirectUri session)))
    with false
    by (destruct (truthy (Body.redirect_uri body)),
          (strict_eq (Body.redirect_uri body) _); simpl in *; congruence).
  apply strict_eq_str in H5. rewrite H5.
  unfold logged, expiresIn; simpl. rewrite <- !app_assoc. simpl.
  now destruct (String.eqb (AuthorizationSession.scope session) EmptyString).
Qed.

(** ** The authorization endpoint, case by case *)

(** Checks 1 to 3 failing: a 400 and nothing stored. *)
Lemma handleAuthorize_checks_fail baseUrl authToken rb now query s :
  authorize_checks_1_to_3 query = false ->
  exists err description,
    handleAuthorize baseUrl authToken rb now query s
    = (oauth_error 400 err description,
       logged (info "OAuth /authorize request:") s).
Proof.
  unfold authorize_checks_1_to_3, handleAuthorize. cbv zeta. intros H.
  destruct (truthy (Query.client_id query)), (truthy (Query.redirect_uri query)),
    (truthy (Query.response_type query)), (truthy (Query.code_challenge query)),
    (truthy (Query.code_challenge_method query));
    simpl in *; try (eexists _, _; reflexivity).
  destruct (strict_eq (Query.response_type query) "code");
    simpl in *; [|eexists _, _; reflexivity].
  rewrite H; simpl. eexists _, _; reflexivity.
Qed.

(** Check 4 failing. *)
Lemma handleAuthorize_bad_redirect baseUrl authToken rb now query s :
  authorize_checks_1_to_3 query = true ->
  redirect_uri_accepted (str (Query.redirect_uri query)) = false ->
  handleAuthorize baseUrl authToken rb now query s
  = (oauth_error 400 "invalid_request" "Invalid redirect_uri",
     logged (info "OAuth /authorize request:") s).
Proof.
  unfold authorize_checks_1_to_3, redirect_uri_accepted, handleAuthorize.
  cbv zeta. intros H Hr.
  split_andb H. rewrite H, H5, H4, H3, H2, H1, H0. simpl.
  apply orb_false_iff in Hr. destruct Hr as [-> ->]. reflexivity.
Qed.

(** All four checks passing. *)
Lemma handleAuthorize_success baseUrl authToken rb now query s :
  authorize_checks_1_to_3 query = true ->
  redirect_uri_accepted (str (Query.redirect_uri query)) = true ->
  let authCode := generateRandomString rb 32 in
  handleAuthorize baseUrl authToken rb now query s
  = (Redirect 302 (redirect_of authCode query),
     mkState (<[authCode := session_of baseUrl now query]> (authorizationCodes s))
       (accessTokens s)
       (log s ++ [info "OAuth /authorize request:";
                  info "Generated authorization code:";
                  info "Redirecting to:"])).
Proof.
  unfold authorize_checks_1_to_3, redirect_uri_accepted, handleAuthorize.
  cbv zeta. intros H Hr.
  split_andb H. rewrite H, H5, H4, H3, H2, H1, H0. simpl.
  replace (negb (startsWith (str (Query.redirect_uri query)) "https://claude.ai/")
           && negb (startsWith (str (Query.redirect_uri query)) "https://claude.com/"))
    with false
    by (destruct (startsWith _ "https://claude.ai/"),
          (startsWith _ "https://claude.com/"); simpl in *; congruence).
  unfold session_of, redirect_of, logged; simpl.
  rewrite <- !app_assoc. reflexivity.
Qed.

Lemma session_of_method baseUrl now query :
  authorize_checks_1_to_3 query = true ->
  AuthorizationSession.codeChallengeMethod (session_of baseUrl now query) = "S256".
Proof.
  unfold authorize_checks_1_to_3. intros H. split_andb H.
  simpl. now apply strict_eq_str.
Qed.

(** ** Where the sessions of the next state come from *)

Lemma handleAuthorize_origin baseUrl authToken rb now query s code session :
  authorizationCodes (snd (handleAuthorize baseUrl authToken rb now query s)) !! code
    = Some session ->
  authorizationCodes s !! code = Some session
  \/ (code = generateRandomString rb 32
      /\ AuthorizationSession.codeChallengeMethod session = "S256").
Proof.
  destruct (authorize_checks_1_to_3 query) eqn:Hc.
  - destruct (redirect_uri_accepted (str (Query.redirect_uri query))) eqn:Hr.
    + rewrite handleAuthorize_success by assumption. simpl.
      destruct (decide (generateRandomString rb 32 = code)) as [<-|Hne].
      * rewrite lookup_insert_eq. intros [= <-]. right. split; [reflexivity|].
        now apply session_of_method.
      * rewrite lookup_insert_ne by exact Hne. now left.
    + rewrite handleAuthorize_bad_redirect by assumption. now left.
  - destruct (handleAuthorize_checks_fail baseUrl authToken rb now query s Hc)
      as (err & d & ->). now left.
Qed.

Lemma handleToken_origin authToken rb n1 n2 body ip s code session :
  authorizationCodes (snd (handleToken authToken rb n1 n2 body ip s)) !! code
    = Some session ->
  authorizationCodes s !! code = Some session.
Proof.
  destruct (token_checks_1_to_2 body) eqn:Hc.
  - destruct (authorizationCodes s !! str (Body.code body)) as [found|] eqn:Hl.
    + destruct (token_checks_4_to_6 body found) eqn:H46.
      * rewrite (handleToken_success _ _ _ _ _ _ _ _ Hc Hl H46). simpl.
        intros H. now apply lookup_delete_Some in H.
      * destruct (handleToken_mismatch authToken rb n1 n2 _ ip _ _ Hc Hl H46)
          as (d & r & ->). simpl.
        intros H. now apply lookup_delete_Some in H.
    + now rewrite handleToken_absent by assumption.
  - destruct (handleToken_not_exchange authToken rb n1 n2 body ip s Hc)
      as (err & d & _ & ->). trivial.
Qed.

Lemma validateBearerToken_codes baseUrl now authorization ip s :
  authorizationCodes (snd (validateBearerToken baseUrl now authorization ip s))
  = authorizationCodes s.
Proof.
  unfold validateBearerToken. cbv zeta.
  destruct (negb (truthy authorization) || _); [reflexivity|].
  destruct (accessTokens s !! _) as [data|]; [|reflexivity].
  now destruct (bool_decide _).
Qed.

Lemma sweep_origin now s code session :
  authorizationCodes (sweep now s) !! code = Some session ->
  authorizationCodes s !! code = Some session.
Proof.
  rewrite sweep_authorizationCodes.
  destruct (authorizationCodes s !! code) as [x|]; [|discriminate].
  now destruct (bool_decide _).
Qed.

Section Traces.

Variables (baseUrl authToken : string).
Variable (middlewareBaseUrl : option string).

Local Abbreviation step := (step baseUrl authToken middlewareBaseUrl).
Local Abbreviation run := (run baseUrl authToken middlewareBaseUrl).

(** A session of the next state was there before, or was just minted by
    an authorize request, with method "S256". *)
Lemma step_origin s e code session :
  authorizationCodes (step s e) !! code = Some session ->
  authorizationCodes s !! code = Some session
  \/ (minted_code e = Some code
      /\ AuthorizationSession.codeChallengeMethod session = "S256").
Proof.
  destruct e as [rb now query|rb n1 n2 body ip|now authorization ip| | |now];
    simpl; intros H.
  - apply handleAuthorize_origin in H. destruct H as [H|[-> H]]; auto.
  - left. exact (handleToken_origin _ _ _ _ _ _ _ _ _ H).
  - left. now rewrite validateBearerToken_codes in H.
  - now left.
  - now left.
  - left. exact (sweep_origin _ _ _ _ H).
Qed.

(** A code with no session keeps having none as long as no authorize
    request mints it again. *)
Lemma run_keeps_absent s events code :
  authorizationCodes s !! code = None ->
  Forall (fun e => minted_code e <> Some code) events ->
  authorizationCodes (run s events) !! code = None.
Proof.
  intros Hnone Hfresh. revert s Hnone.
  induction Hfresh as [|e events He _ IH]; intros s Hnone; [exact Hnone|].
  simpl. apply IH.
  destruct (authorizationCodes (step s e) !! code) as [session|] eqn:E;
    [|reflexivity].
  apply step_origin in E. destruct E as [E|[E _]]; congruence.
Qed.

(** Every session of a state reached from one whose sessions all have
    method "S256" has method "S256". *)
Lemma run_keeps_S256 s events :
  (forall code session,
      authorizationCodes s !! code = Some session ->
      AuthorizationSession.codeChallengeMethod session = "S256") ->
  forall code session,
    authorizationCodes (run s events) !! code = Some session ->
    AuthorizationSession.codeChallengeMethod session = "S256".
Proof.
  revert s. induction events as [|e events IH]; intros s Hinv; [exact Hinv|].
  simpl. apply IH. intros code session H.
  apply step_origin in H. destruct H as [H|[_ H]]; eauto.
Qed.

End Traces.

(** ** One-time use of authorization codes *)

(** A 200 from the token endpoint means every check passed. *)
Lemma handleToken_200_inv authToken rb n1 n2 body ip s :
  status_of (fst (handleToken authToken rb n1 n2 body ip s)) = Some 200 ->
  token_checks_1_to_2 body = true
  /\ exists session,
       authorizationCodes s !! str (Body.code body) = Some session
       /\ token_checks_4_to_6 body session = true.
Proof.
  destruct (token_checks_1_to_2 body) eqn:Hc.
  - destruct (authorizationCodes s !! str (Body.code body)) as [found|] eqn:Hl.
    + destruct (token_checks_4_to_6 body found) eqn:H46.
      * intros _. split; [reflexivity|]. now exists found.
      * destruct (handleToken_mismatch authToken rb n1 n2 _ ip _ _ Hc Hl H46)
          as (d & r & ->). discriminate.
    + rewrite handleToken_absent by assumption. discriminate.
  - destruct (handleToken_not_exchange authToken rb n1 n2 body ip s Hc)
      as (err & d & _ & ->). discriminate.
Qed.

(** Presenting a code that has no session: always a 400 that leaves both
    maps alone, and [invalid_grant] once checks 1 and 2 are passed. *)
Lemma handleToken_spent_code authToken rb n1 n2 body ip s :
  authorizationCodes s !! str (Body.code body) = None ->
  let r := handleToken authToken rb n1 n2 body ip s in
  status_of (fst r) = Some 400
  /\ authorizationCodes (snd r) = authorizationCodes s
  /\ accessTokens (snd r) = accessTokens s
  /\ (token_checks_1_to_2 body = true ->
      fst r = oauth_error 400 "invalid_grant" "Invalid or expired authorization code").
Proof.
  intros Hnone r. subst r.
  destruct (token_checks_1_to_2 body) eqn:Hc.
  - rewrite handleToken_absent by assumption. simpl. auto.
  - destruct (handleToken_not_exchange authToken rb n1 n2 body ip s Hc)
      as (err & d & _ & ->). simpl. repeat split; discriminate.
Qed.

(** The outcome of an exchange does not depend on the clock, nor, therefore,
    on the age of the session. *)
Lemma handleToken_ignores_clock authToken rb n1 n2 n1' n2' body ip s :
  fst (handleToken authToken rb n1 n2 body ip s)
  = fst (handleToken authToken rb n1' n2' body ip s).
Proof.
  unfold handleToken. cbv zeta. cbn [authorizationCodes logged].
  repeat match goal with
         | |- context [if ?c then _ else _] => destruct c; try reflexivity
         | |- context [match ?m !! ?k with _ => _ end] =>
             destruct (m !! k); try reflexivity
         end.
Qed.

(** C1, as the code has it.  After a successful exchange of code [C] the
    session keyed by [C] has been deleted, and, for as long as no authorize
    request generates [C] again, every later request to the token endpoint
    that presents [C] gets a 400 and mints no token.  The error is
    [invalid_grant] when the request passes checks 1 and 2 (its four
    required fields are there and its grant type is [authorization_code]);
    a request that fails them is answered by those checks, which come
    before the lookup. *)
Theorem C1_exchanged_code_is_spent
    (baseUrl authToken : string) (middlewareBaseUrl : option string)
    (rb rb' : nat -> list byte) (n1 n2 n1' n2' : Z)
    (body body' : Body.t) (ip ip' : string)
    (s : ServerState) (events : list Event) :
  status_of (fst (handleToken authToken rb n1 n2 body ip s)) = Some 200 ->
  Forall (fun e => minted_code e <> Some (str (Body.code body))) events ->
  Body.code body' = Body.code body ->
  let s1 := snd (handleToken authToken rb n1 n2 body ip s) in
  let s2 := run baseUrl authToken middlewareBaseUrl s1 events in
  let r := handleToken authToken rb' n1' n2' body' ip' s2 in
  authorizationCodes s1 = delete (str (Body.code body)) (authorizationCodes s)
  /\ authorizationCodes s2 !! str (Body.code body) = None
  /\ status_of (fst r) = Some 400
  /\ accessTokens (snd r) = accessTokens s2
  /\ (token_checks_1_to_2 body' = true ->
      fst r = oauth_error 400 "invalid_grant"
                "Invalid or expired authorization code").
Proof.
  intros H200 Hfresh Hsame s1 s2 r.
  apply handleToken_200_inv in H200.
  destruct H200 as (Hc & session & Hl & H46).
  assert (Hs1 : authorizationCodes s1
                = delete (str (Body.code body)) (authorizationCodes s)).
  { subst s1. now rewrite (handleToken_success _ _ _ _ _ _ _ _ Hc Hl H46). }
  assert (Hs2 : authorizationCodes s2 !! str (Body.code body) = None).
  { subst s2. apply run_keeps_absent; [|exact Hfresh].
    rewrite Hs1. apply lookup_delete_eq. }
  split; [exact Hs1|]. split; [exact Hs2|].
  assert (Hs2' : authorizationCodes s2 !! str (Body.code body') = None)
    by now rewrite Hsame.
  destruct (handleToken_spent_code authToken rb' n1' n2' body' ip' s2 Hs2')
    as (H400 & _ & Htok & Hgrant).
  auto.
Qed.

(** C3, as the code has it.  An exchange that reaches the PKCE check (its
    body passes checks 1 and 2: the four required fields are non-empty
    strings and the grant type is [authorization_code]) for a stored
    session, and whose [code_verifier] fails that check against the
    challenge of the session, gets 400 [invalid_grant], and the session is
    deleted, an [authFailure] is logged and the token store stays as it
    was.  From then on, for as long as no authorize request generates the
    code again (in particular right away), every request that presents the
    same code, whatever its verifier, gets a 400 and mints no token; the
    error is [invalid_grant] when the request passes checks 1 and 2. *)
Theorem C3_failed_pkce_burns_code
    (baseUrl authToken : string) (middlewareBaseUrl : option string)
    (rb rb' : nat -> list byte) (n1 n2 n1' n2' : Z)
    (body body' : Body.t) (ip ip' : string)
    (s : ServerState) (session : AuthorizationSession.t) (events : list Event) :
  token_checks_1_to_2 body = true ->
  authorizationCodes s !! str (Body.code body) = Some session ->
  verifyCodeChallenge (str (Body.code_verifier body))
    (AuthorizationSession.codeChallenge session)
    (AuthorizationSession.codeChallengeMethod session) = false ->
  Forall (fun e => minted_code e <> Some (str (Body.code body))) events ->
  Body.code body' = Body.code body ->
  let r1 := handleToken authToken rb n1 n2 body ip s in
  let s2 := run baseUrl authToken middlewareBaseUrl (snd r1) events in
  let r2 := handleToken authToken rb' n1' n2' body' ip' s2 in
  fst r1 = oauth_error 400 "invalid_grant" "Invalid code_verifier"
  /\ authorizationCodes (snd r1)
     = delete (str (Body.code body)) (authorizationCodes s)
  /\ accessTokens (snd r1) = accessTokens s
  /\ log (snd r1) = log s ++ [info "OAuth /token request:";
                              authFailure "invalid_code_verifier" ip]
  /\ authorizationCodes s2 !! str (Body.code body) = None
  /\ status_of (fst r2) = Some 400
  /\ accessTokens (snd r2) = accessTokens s2
  /\ (token_checks_1_to_2 body' = true ->
      fst r2 = oauth_error 400 "invalid_grant"
                 "Invalid or expired authorization code").
Proof.
  intros Hc Hl Hv Hfresh Hsame r1 s2 r2.
  assert (E1 : r1 = (oauth_error 400 "invalid_grant" "Invalid code_verifier",
                     mkState (delete (str (Body.code body)) (authorizationCodes s))
                       (accessTokens s)
                       (log s ++ [info "OAuth /token request:";
                                  authFailure "invalid_code_verifier" ip])))
    by (subst r1; now apply handleToken_bad_verifier with (session := session)).
  assert (Hs2 : authorizationCodes s2 !! str (Body.code body) = None).
  { subst s2. apply run_keeps_absent; [|exact Hfresh].
    rewrite E1. simpl. apply lookup_delete_eq. }
  assert (Hs2' : authorizationCodes s2 !! str (Body.code body') = None)
    by now rewrite Hsame.
  destruct (handleToken_spent_code authToken rb' n1' n2' body' ip' s2 Hs2')
    as (H400 & _ & Htok & Hgrant).
  rewrite E1. simpl. repeat split; assumption.
Qed.

(** C10.  In every state reachable from the empty one through the public
    routes and the sweep timer, every pending session has
    [codeChallengeMethod] "S256"; the PKCE check of the token endpoint on a
    stored session is therefore always the comparison of the SHA-256 digest
    of the verifier with the challenge, never the "plain" comparison. *)
Theorem C10_sessions_are_S256
    (baseUrl authToken : string) (middlewareBaseUrl : option string)
    (s : ServerState) (code : string) (session : AuthorizationSession.t) :
  reachable baseUrl authToken middlewareBaseUrl s ->
  authorizationCodes s !! code = Some session ->
  AuthorizationSession.codeChallengeMethod session = "S256"
  /\ forall verifier,
       verifyCodeChallenge verifier
         (AuthorizationSession.codeChallenge session)
         (AuthorizationSession.codeChallengeMethod session)
       = String.eqb (sha256_base64url verifier)
           (AuthorizationSession.codeChallenge session).
Proof.
  intros [events ->] Hl.
  assert (Hm : AuthorizationSession.codeChallengeMethod session = "S256").
  { eapply run_keeps_S256; [|exact Hl].
    intros c x H. simpl in H. now rewrite lookup_empty in H. }
  split; [exact Hm|]. intros verifier. rewrite Hm.
  apply verifyCodeChallenge_S256.
Qed.

(** ** Witnesses and counterexamples on the end-to-end scenario *)

Lemma scenario_authorized_reachable :
  reachable Scenario.baseUrl Scenario.authToken None Scenario.authorized.
Proof.
  exists [Authorize Scenario.code_bytes Scenario.T
            (Scenario.query "https://claude.ai/cb" (Some "xyz"))].
  reflexivity.
Qed.

Lemma scenario_later_leaves_code :
  Forall (fun e => minted_code e <> Some Scenario.code) Scenario.later.
Proof. repeat constructor; vm_compute; discriminate. Qed.

Lemma C10_sessions_are_S256_witness :
  authorizationCodes Scenario.authorized !! Scenario.code = Some Scenario.session
  /\ AuthorizationSession.codeChallengeMethod Scenario.session = "S256".
Proof.
  assert (H : authorizationCodes Scenario.authorized !! Scenario.code
              = Some Scenario.session) by (vm_compute; reflexivity).
  split; [exact H|].
  exact (proj1 (C10_sessions_are_S256 _ _ _ _ _ _
                  scenario_authorized_reachable H)).
Defined.

Lemma C5_expired_token_rejected_witness :
  accessTokens Scenario.exchanged !! Scenario.bearer = Some Scenario.issued
  /\ Scenario.T + 1000 + 3601000 > AccessToken.expiresAt Scenario.issued
  /\ fst (validateBearerToken None (Scenario.T + 1000 + 3601000)
            (Some ("Bearer " +:+ Scenario.bearer)) Scenario.ip Scenario.exchanged)
     = Json 401 [] [("error", JStr "invalid_token");
                    ("error_description", JStr "Token has expired")].
Proof.
  assert (H1 : accessTokens Scenario.exchanged !! Scenario.bearer
               = Some Scenario.issued) by (vm_compute; reflexivity).
  assert (H2 : Scenario.T + 1000 + 3601000 > AccessToken.expiresAt Scenario.issued)
    by (vm_compute; reflexivity).
  split; [exact H1|]. split; [exact H2|].
  exact (proj1 (C5_expired_token_rejected None _ Scenario.ip _ _ _ H1 H2)).
Defined.

Lemma C9_valid_token_changes_nothing_witness :
  accessTokens Scenario.exchanged !! Scenario.bearer = Some Scenario.issued
  /\ ~ Scenario.T + 2000 > AccessToken.expiresAt Scenario.issued
  /\ fst (validateBearerToken None (Scenario.T + 2000)
            (Some ("Bearer " +:+ Scenario.bearer)) Scenario.ip Scenario.exchanged)
     = Next.
Proof.
  assert (H1 : accessTokens Scenario.exchanged !! Scenario.bearer
               = Some Scenario.issued) by (vm_compute; reflexivity).
  assert (H2 : ~ Scenario.T + 2000 > AccessToken.expiresAt Scenario.issued)
    by (vm_compute; discriminate).
  split; [exact H1|]. split; [exact H2|].
  exact (proj1 (C9_valid_token_changes_nothing None _ Scenario.ip _ _ _ H1 H2)).
Defined.

Lemma C1_exchanged_code_is_spent_witness :
  status_of (fst (handleToken Scenario.authToken Scenario.token_bytes
                    (Scenario.T + 1000) (Scenario.T + 1000)
                    (Scenario.body "authorization_code" Scenario.verifier)
                    Scenario.ip Scenario.authorized)) = Some 200
  /\ Forall (fun e => minted_code e <> Some Scenario.code) Scenario.later
  /\ fst (handleToken Scenario.authToken Scenario.token_bytes
            (Scenario.T + 90000) (Scenario.T + 90000)
            (Scenario.body "authorization_code" Scenario.verifier)
            Scenario.ip
            (run Scenario.baseUrl Scenario.authToken None
               Scenario.exchanged Scenario.later))
     = oauth_error 400 "invalid_grant" "Invalid or expired authorization code".
Proof.
  assert (H1 : status_of (fst (handleToken Scenario.authToken Scenario.token_bytes
                                 (Scenario.T + 1000) (Scenario.T + 1000)
                                 (Scenario.body "authorization_code" Scenario.verifier)
                                 Scenario.ip Scenario.authorized)) = Some 200)
    by (vm_compute; reflexivity).
  split; [exact H1|]. split; [exact scenario_later_leaves_code|].
  refine (proj2 (proj2 (proj2 (proj2
            (C1_exchanged_code_is_spent Scenario.baseUrl _ None _
               Scenario.token_bytes _ _ (Scenario.T + 90000) (Scenario.T + 90000)
               _ (Scenario.body "authorization_code" Scenario.verifier)
               _ Scenario.ip _ _ H1 scenario_later_leaves_code eq_refl)))) _).
  vm_compute. reflexivity.
Defined.

(** C1 as stated fails: after the successful exchange of the scenario, the
    same code presented with grant type [refresh_token] is answered
    [unsupported_grant_type], and presented without a verifier it is answered
    [invalid_request]; neither is [invalid_grant]. *)
Lemma C1_counterexample :
  status_of (fst (handleToken Scenario.authToken Scenario.token_bytes
                    (Scenario.T + 1000) (Scenario.T + 1000)
                    (Scenario.body "authorization_code" Scenario.verifier)
                    Scenario.ip Scenario.authorized)) = Some 200
  /\ Body.code (Scenario.body "refresh_token" Scenario.verifier)
     = Some Scenario.code
  /\ fst (handleToken Scenario.authToken Scenario.token_bytes
            (Scenario.T + 2000) (Scenario.T + 2000)
            (Scenario.body "refresh_token" Scenario.verifier)
            Scenario.ip Scenario.exchanged)
     = oauth_error 400 "unsupported_grant_type"
         "Only authorization_code grant is supported"
  /\ fst (handleToken Scenario.authToken Scenario.token_bytes
            (Scenario.T + 2000) (Scenario.T + 2000)
            (Scenario.body "authorization_code" EmptyString)
            Scenario.ip Scenario.exchanged)
     = oauth_error 400 "invalid_request" "Missing required parameters".
Proof. vm_compute. repeat split. Qed.

Lemma C3_failed_pkce_burns_code_witness :
  token_checks_1_to_2 (Scenario.body "authorization_code" "not-the-verifier") = true
  /\ authorizationCodes Scenario.authorized !! Scenario.code = Some Scenario.session
  /\ verifyCodeChallenge "not-the-verifier"
       (AuthorizationSession.codeChallenge Scenario.session)
       (AuthorizationSession.codeChallengeMethod Scenario.session) = false
  /\ Forall (fun e => minted_code e <> Some Scenario.code) Scenario.later
  /\ fst (handleToken Scenario.authToken Scenario.token_bytes
            (Scenario.T + 1000) (Scenario.T + 1000)
            (Scenario.body "authorization_code" "not-the-verifier")
            Scenario.ip Scenario.authorized)
     = oauth_error 400 "invalid_grant" "Invalid code_verifier"
  /\ fst (handleToken Scenario.authToken Scenario.token_bytes
            (Scenario.T + 90000) (Scenario.T + 90000)
            (Scenario.body "authorization_code" Scenario.verifier)
            Scenario.ip
            (run Scenario.baseUrl Scenario.authToken None
               Scenario.tampered Scenario.later))
     = oauth_error 400 "invalid_grant" "Invalid or expired authorization code".
Proof.
  assert (H1 : token_checks_1_to_2
                 (Scenario.body "authorization_code" "not-the-verifier") = true)
    by reflexivity.
  assert (H2 : authorizationCodes Scenario.authorized !! Scenario.code
               = Some Scenario.session) by (vm_compute; reflexivity).
  assert (H3 : verifyCodeChallenge "not-the-verifier"
                 (AuthorizationSession.codeChallenge Scenario.session)
                 (AuthorizationSession.codeChallengeMethod Scenario.session) = false)
    by (vm_compute; reflexivity).
  assert (H5 : token_checks_1_to_2
                 (Scenario.body "authorization_code" Scenario.verifier) = true)
    by reflexivity.
  pose proof (C3_failed_pkce_burns_code Scenario.baseUrl Scenario.authToken None
                Scenario.token_bytes Scenario.token_bytes
                (Scenario.T + 1000) (Scenario.T + 1000)
                (Scenario.T + 90000) (Scenario.T + 90000)
                (Scenario.body "authorization_code" "not-the-verifier")
                (Scenario.body "authorization_code" Scenario.verifier)
                Scenario.ip Scenario.ip Scenario.authorized Scenario.session
                Scenario.later H1 H2 H3 scenario_later_leaves_code eq_refl)
    as (R1 & _ & _ & _ & _ & _ & _ & R2).
  specialize (R2 H5).
  repeat split; assumption || exact scenario_later_leaves_code.
Defined.

(** C3 as stated fails, in both halves.  On the scenario's pending session,
    a request whose verifier is empty, and one whose verifier is a wrong
    string but whose grant type is [refresh_token], present a verifier that
    fails the PKCE check against the stored challenge; they are answered
    [invalid_request] and [unsupported_grant_type], not [invalid_grant], by
    the checks that come before the lookup, and the session stays: the
    rightful exchange right after them still gets its 200.  And after an
    exchange that did burn the code, a request that presents the same code
    with grant type [refresh_token] is answered [unsupported_grant_type],
    not [invalid_grant]. *)
Lemma C3_counterexample :
  let empty := Scenario.body "authorization_code" EmptyString in
  let wrong := Scenario.body "refresh_token" "not-the-verifier" in
  let rightful := Scenario.body "authorization_code" Scenario.verifier in
  let exchange body s :=
    handleToken Scenario.authToken Scenario.token_bytes
      (Scenario.T + 1000) (Scenario.T + 1000) body Scenario.ip s in
  authorizationCodes Scenario.authorized !! Scenario.code = Some Scenario.session
  (* an empty verifier *)
  /\ Body.code empty = Some Scenario.code
  /\ verifyCodeChallenge (str (Body.code_verifier empty))
       (AuthorizationSession.codeChallenge Scenario.session)
       (AuthorizationSession.codeChallengeMethod Scenario.session) = false
  /\ fst (exchange empty Scenario.authorized)
     = oauth_error 400 "invalid_request" "Missing required parameters"
  /\ authorizationCodes (snd (exchange empty Scenario.authorized)) !! Scenario.code
     = Some Scenario.session
  /\ status_of (fst (exchange rightful (snd (exchange empty Scenario.authorized))))
     = Some 200
  (* a wrong verifier under another grant type *)
  /\ Body.code wrong = Some Scenario.code
  /\ verifyCodeChallenge (str (Body.code_verifier wrong))
       (AuthorizationSession.codeChallenge Scenario.session)
       (AuthorizationSession.codeChallengeMethod Scenario.session) = false
  /\ fst (exchange wrong Scenario.authorized)
     = oauth_error 400 "unsupported_grant_type"
         "Only authorization_code grant is supported"
  /\ authorizationCodes (snd (exchange wrong Scenario.authorized)) !! Scenario.code
     = Some Scenario.session
  /\ status_of (fst (exchange rightful (snd (exchange wrong Scenario.authorized))))
     = Some 200
  (* after the code has been burnt *)
  /\ fst (exchange (Scenario.body "authorization_code" "not-the-verifier")
            Scenario.authorized)
     = oauth_error 400 "invalid_grant" "Invalid code_verifier"
  /\ fst (exchange wrong Scenario.tampered)
     = oauth_error 400 "unsupported_grant_type"
         "Only authorization_code grant is supported".
Proof. vm_compute. repeat split. Qed.

(** C2, where the code departs from the claim.  In the scenario the session
    is created at [T] and the sweep timer fires every 60 seconds; its tenth
    tick, 9:50 after [T], finds the session younger than ten minutes and
    keeps it, and the eleventh is due 10:50 after [T].  An exchange of the
    code 10:01 after [T] still finds the session, whose age the token
    endpoint never looks at, and is answered 200 with a fresh access
    token. *)
Theorem C2_stale_session_is_exchanged :
  let r := handleToken Scenario.authToken Scenario.token_bytes
             (Scenario.T + 601000) (Scenario.T + 601000)
             (Scenario.body "authorization_code" Scenario.verifier)
             Scenario.ip Scenario.stale in
  authorizationCodes Scenario.stale !! Scenario.code = Some Scenario.session
  /\ AuthorizationSession.createdAt Scenario.session = Scenario.T
  /\ status_of (fst r) = Some 200
  /\ field "access_token" (body_of (fst r)) = Some (JStr Scenario.bearer)
  /\ error_of (fst r) = None
  /\ is_Some (accessTokens (snd r) !! Scenario.bearer).
Proof. vm_compute. repeat split. now eexists. Qed.

(** ** The redirect-URI allow-list *)

(** What the prefix check lets through has a trusted host. *)
Lemma accepted_host_trusted (uri : string) :
  redirect_uri_accepted uri = true -> host_trusted uri = true.
Proof.
  unfold redirect_uri_accepted. intros H.
  apply orb_true_iff in H. destruct H as [H|H];
    apply startsWith_inv in H; destruct H as [t ->]; reflexivity.
Qed.

(** C6, as the code has it.  A request whose parameters are absent or
    strings and that passes checks 1 to 3 is rejected at check 4 exactly
    when its [redirect_uri] starts with neither [https://claude.ai/] nor
    [https://claude.com/]; the rejection is a 400 [invalid_request] and
    leaves both maps as they were.  Every URI the check lets through has
    host [claude.ai] or [claude.com]. *)
Theorem C6_redirect_uri_prefix_check
    (baseUrl authToken : string) (rb : nat -> list byte) (now : Z)
    (query : Query.t) (s : ServerState) :
  authorize_checks_1_to_3 query = true ->
  let uri := str (Query.redirect_uri query) in
  let r := handleAuthorize baseUrl authToken rb now query s in
  (status_of (fst r) = Some 400 <-> redirect_uri_accepted uri = false)
  /\ (redirect_uri_accepted uri = false ->
      fst r = oauth_error 400 "invalid_request" "Invalid redirect_uri"
      /\ authorizationCodes (snd r) = authorizationCodes s
      /\ accessTokens (snd r) = accessTokens s)
  /\ (redirect_uri_accepted uri = true -> host_trusted uri = true).
Proof.
  intros Hc uri r. subst uri r.
  destruct (redirect_uri_accepted (str (Query.redirect_uri query))) eqn:Hr.
  - rewrite handleAuthorize_success by assumption. simpl.
    repeat split; try discriminate. intros _. now apply accepted_host_trusted.
  - rewrite handleAuthorize_bad_redirect by assumption. simpl.
    repeat split; discriminate.
Qed.

Lemma C6_redirect_uri_prefix_check_witness :
  authorize_checks_1_to_3 (Scenario.query "https://evil.example/cb" (Some "xyz")) = true
  /\ redirect_uri_accepted "https://evil.example/cb" = false
  /\ fst (handleAuthorize Scenario.baseUrl Scenario.authToken Scenario.code_bytes
            Scenario.T (Scenario.query "https://evil.example/cb" (Some "xyz"))
            initial)
     = oauth_error 400 "invalid_request" "Invalid redirect_uri"
  /\ authorizationCodes
       (snd (handleAuthorize Scenario.baseUrl Scenario.authToken Scenario.code_bytes
               Scenario.T (Scenario.query "https://evil.example/cb" (Some "xyz"))
               initial))
     = authorizationCodes initial.
Proof.
  assert (H1 : authorize_checks_1_to_3
                 (Scenario.query "https://evil.example/cb" (Some "xyz")) = true)
    by reflexivity.
  assert (H2 : redirect_uri_accepted "https://evil.example/cb" = false)
    by reflexivity.
  destruct (C6_redirect_uri_prefix_check Scenario.baseUrl Scenario.authToken
              Scenario.code_bytes Scenario.T _ initial H1) as (_ & R & _).
  destruct (R H2) as (R1 & R2 & _).
  repeat split; assumption.
Defined.

(** C6 as stated fails: [http://claude.ai/cb] has a host on the allow-list,
    and a request carrying it, which passes checks 1 to 3, is rejected with
    400 [invalid_request] all the same; so are [https://claude.ai] (no
    slash after the host) and [https://claude.com:443/cb] (a port). *)
Lemma C6_counterexample :
  authorize_checks_1_to_3 (Scenario.query "http://claude.ai/cb" (Some "xyz")) = true
  /\ host_trusted "http://claude.ai/cb" = true
  /\ fst (handleAuthorize Scenario.baseUrl Scenario.authToken Scenario.code_bytes
            Scenario.T (Scenario.query "http://claude.ai/cb" (Some "xyz")) initial)
     = oauth_error 400 "invalid_request" "Invalid redirect_uri"
  /\ host_trusted "https://claude.ai" = true
  /\ fst (handleAuthorize Scenario.baseUrl Scenario.authToken Scenario.code_bytes
            Scenario.T (Scenario.query "https://claude.ai" (Some "xyz")) initial)
     = oauth_error 400 "invalid_request" "Invalid redirect_uri"
  /\ host_trusted "https://claude.com:443/cb" = true
  /\ fst (handleAuthorize Scenario.baseUrl Scenario.authToken Scenario.code_bytes
            Scenario.T (Scenario.query "https://claude.com:443/cb" (Some "xyz")) initial)
     = oauth_error 400 "invalid_request" "Invalid redirect_uri".
Proof. vm_compute. repeat split. Qed.

(** ** The success path of the authorization endpoint *)

(** [searchParams.set] on the pairs of a query: afterwards the name has the
    one value set, and the pairs of every other name are as before. *)
Lemma getAll_set_same (name value : string) (pairs : list (string * string)) :
  URL.getAll name (URL.set name value pairs) = [value].
Proof.
  unfold URL.getAll.
  induction pairs as [|[n v] rest IH]; simpl.
  - now rewrite String.eqb_refl.
  - destruct (String.eqb n name) eqn:E; simpl.
    + rewrite String.eqb_refl. simpl. f_equal.
      clear IH E. induction rest as [|[n' v'] rest IH]; simpl; [reflexivity|].
      destruct (String.eqb n' name) eqn:E'; simpl; [exact IH|].
      now rewrite E'.
    + rewrite E. exact IH.
Qed.

Lemma getAll_set_other (name value other : string)
    (pairs : list (string * string)) :
  other <> name ->
  URL.getAll other (URL.set name value pairs) = URL.getAll other pairs.
Proof.
  intros Hne. unfold URL.getAll.
  assert (Hn : String.eqb name other = false)
    by (apply String.eqb_neq; congruence).
  induction pairs as [|[n v] rest IH]; simpl.
  - now rewrite Hn.
  - destruct (String.eqb n name) eqn:E; simpl.
    + apply String.eqb_eq in E. subst n. rewrite Hn.
      clear IH. induction rest as [|[n' v'] rest IH]; simpl; [reflexivity|].
      destruct (String.eqb n' name) eqn:E'; simpl.
      * apply String.eqb_eq in E'. subst n'. now rewrite Hn.
      * destruct (String.eqb n' other); simpl; now rewrite IH.
    + destruct (String.eqb n other); simpl; now rewrite IH.
Qed.

(** C7, as the code has it.  A request that passes the four checks makes the
    handler generate a code from 32 fresh random octets and store, under
    that code, one session holding the challenge, method, redirect URI and
    client id of the request, [createdAt = now], and scope, state and
    resource defaulting to the empty string, the empty string and the
    server's base URL; every other entry of the session map and the whole
    token map stay as they were.  The response is a 302 to the URL parsed
    from [redirect_uri], in whose query [code] has the generated code as
    its one value, whatever [redirect_uri] held under that name.  When the
    request's state is a non-empty string, [state] has it as its one value;
    when the state is absent or empty, the handler sets no [state], and the
    redirect carries under that name what [redirect_uri] itself held, and
    nothing if it held nothing.  The parameters of every other name are
    those of [redirect_uri]. *)
Theorem C7_authorize_success
    (baseUrl authToken : string) (rb : nat -> list byte) (now : Z)
    (query : Query.t) (s : ServerState) :
  authorize_checks_1_to_3 query = true ->
  redirect_uri_accepted (str (Query.redirect_uri query)) = true ->
  let authCode := generateRandomString rb 32 in
  let r := handleAuthorize baseUrl authToken rb now query s in
  let session :=
    AuthorizationSession.mk
      (str (Query.code_challenge query)) "S256"
      (str (Query.redirect_uri query)) (str (Query.client_id query))
      (or_else (Query.scope query) EmptyString)
      (or_else (Query.state query) EmptyString)
      (or_else (Query.resource query) baseUrl)
      now in
  (* the store *)
  authorizationCodes (snd r) = <[authCode := session]> (authorizationCodes s)
  /\ authorizationCodes (snd r) !! authCode = Some session
  /\ (forall k, k <> authCode ->
        authorizationCodes (snd r) !! k = authorizationCodes s !! k)
  /\ (authorizationCodes s !! authCode = None ->
      size (authorizationCodes (snd r)) = S (size (authorizationCodes s)))
  /\ accessTokens (snd r) = accessTokens s
  (* the defaults *)
  /\ (Query.scope query = None -> AuthorizationSession.scope session = EmptyString)
  /\ (Query.state query = None -> AuthorizationSession.state session = EmptyString)
  /\ (Query.resource query = None -> AuthorizationSession.resource session = baseUrl)
  (* the redirect *)
  /\ exists location,
       fst r = Redirect 302 location
       /\ URL.input_of location = str (Query.redirect_uri query)
       /\ forall parsed : string -> list (string * string),
            let given := parsed (str (Query.redirect_uri query)) in
            let carried := URL.searchParams parsed location in
            URL.getAll "code" carried = [authCode]
            /\ URL.getAll "state" carried
               = (if truthy (Query.state query)
                  then [str (Query.state query)]
                  else URL.getAll "state" given)
            /\ (forall name, name <> "code" -> name <> "state" ->
                  URL.getAll name carried = URL.getAll name given).
Proof.
  intros Hc Hr authCode r session. subst r.
  rewrite handleAuthorize_success by assumption. simpl.
  assert (Hs : session_of baseUrl now query = session).
  { unfold session_of, session. f_equal.
    unfold authorize_checks_1_to_3 in Hc. split_andb Hc.
    now apply strict_eq_str. }
  rewrite Hs. fold authCode.
  split; [reflexivity|]. split; [apply lookup_insert_eq|].
  split; [intros k Hk; now apply lookup_insert_ne|].
  split; [intros Hfresh; now apply map_size_insert_None|].
  split; [reflexivity|].
  split; [now intros ->|]. split; [now intros ->|]. split; [now intros ->|].
  exists (redirect_of authCode query). split; [reflexivity|].
  unfold redirect_of.
  destruct (truthy (Query.state query)) eqn:Hst.
  - split; [reflexivity|]. intros parsed. cbv zeta.
    cbn [URL.searchParams]. split; [|split].
    + rewrite getAll_set_other by discriminate. apply getAll_set_same.
    + apply getAll_set_same.
    + intros name H1 H2. now rewrite !getAll_set_other by assumption.
  - split; [reflexivity|]. intros parsed. cbv zeta.
    cbn [URL.searchParams]. split; [|split].
    + apply getAll_set_same.
    + now rewrite getAll_set_other by discriminate.
    + intros name H1 H2. now rewrite getAll_set_other by assumption.
Qed.

Lemma C7_authorize_success_witness :
  authorize_checks_1_to_3 (Scenario.query "https://claude.ai/cb" (Some "xyz")) = true
  /\ redirect_uri_accepted "https://claude.ai/cb" = true
  /\ authorizationCodes Scenario.authorized
     = <[Scenario.code := Scenario.session]> ∅.
Proof.
  assert (H1 : authorize_checks_1_to_3
                 (Scenario.query "https://claude.ai/cb" (Some "xyz")) = true)
    by reflexivity.
  assert (H2 : redirect_uri_accepted "https://claude.ai/cb" = true)
    by reflexivity.
  split; [exact H1|]. split; [exact H2|].
  exact (proj1 (C7_authorize_success Scenario.baseUrl Scenario.authToken
                  Scenario.code_bytes Scenario.T _ initial H1 H2)).
Defined.

(** C7 as stated fails, in both directions of its last clause.  A request
    whose query string carries [state=] (the parameter supplied, with an
    empty value) passes the four checks and is redirected to
    [https://claude.ai/cb] with [code] set and no [state] parameter.  And a
    request without [state] whose [redirect_uri] is
    [https://claude.ai/cb?state=evil] passes the four checks as well and is
    redirected to a URL that carries [state=evil]. *)
Lemma C7_counterexample :
  let query := Scenario.query "https://claude.ai/cb" (Some EmptyString) in
  let r := handleAuthorize Scenario.baseUrl Scenario.authToken
             Scenario.code_bytes Scenario.T query initial in
  let query' := Scenario.query "https://claude.ai/cb?state=evil" None in
  let r' := handleAuthorize Scenario.baseUrl Scenario.authToken
              Scenario.code_bytes Scenario.T query' initial in
  (authorize_checks_1_to_3 query = true
   /\ redirect_uri_accepted (str (Query.redirect_uri query)) = true
   /\ Query.state query = Some EmptyString
   /\ fst r = Redirect 302
                (URL.searchParams_set (URL.new "https://claude.ai/cb")
                   "code" Scenario.code)
   /\ (forall parsed, parsed "https://claude.ai/cb" = [] ->
       forall location, fst r = Redirect 302 location ->
         URL.searchParams parsed location = [("code", Scenario.code)]
         /\ URL.getAll "state" (URL.searchParams parsed location) = []))
  /\ (authorize_checks_1_to_3 query' = true
      /\ redirect_uri_accepted (str (Query.redirect_uri query')) = true
      /\ Query.state query' = None
      /\ (forall parsed,
            parsed "https://claude.ai/cb?state=evil" = [("state", "evil")] ->
          forall location, fst r' = Redirect 302 location ->
            URL.searchParams parsed location
            = [("state", "evil"); ("code", Scenario.code)]
            /\ URL.getAll "state" (URL.searchParams parsed location) = ["evil"])).
Proof.
  cbv zeta. split.
  - split; [reflexivity|]. split; [reflexivity|]. split; [reflexivity|].
    split; [vm_compute; reflexivity|].
    intros parsed Hp location Hl. vm_compute in Hl.
    injection Hl as <-. cbn [URL.searchParams]. rewrite Hp.
    split; reflexivity.
  - split; [reflexivity|]. split; [reflexivity|]. split; [reflexivity|].
    intros parsed Hp location Hl. vm_compute in Hl.
    injection Hl as <-. cbn [URL.searchParams]. rewrite Hp.
    split; reflexivity.
Qed.

(** ** The success path of the token endpoint *)

(** C8, as the code has it.  When checks 1 to 6 pass, the handler deletes the
    session, generates a token from 48 fresh random octets and stores under
    it an access token with the session's client id, scope and resource,
    with [expiresAt] one hour (3 600 000 ms) after the first of two clock
    readings and [createdAt] the second reading; it answers 200 with
    [access_token], [token_type] "Bearer", [expires_in] 3600 and a [scope]
    field that is there exactly when the session's scope is not empty.
    [expiresAt] is [createdAt] plus one hour when the two readings agree. *)
Theorem C8_token_success
    (authToken : string) (rb : nat -> list byte) (now_expiresAt now_createdAt : Z)
    (body : Body.t) (ip : string) (s : ServerState)
    (session : AuthorizationSession.t) :
  token_checks_1_to_2 body = true ->
  authorizationCodes s !! str (Body.code body) = Some session ->
  token_checks_4_to_6 body session = true ->
  let accessToken := generateRandomString rb 48 in
  let r := handleToken authToken rb now_expiresAt now_createdAt body ip s in
  let data :=
    AccessToken.mk accessToken
      (AuthorizationSession.clientId session)
      (AuthorizationSession.scope session)
      (AuthorizationSession.resource session)
      (now_expiresAt + 3600 * 1000) now_createdAt in
  (* the stores *)
  authorizationCodes (snd r) = delete (str (Body.code body)) (authorizationCodes s)
  /\ authorizationCodes (snd r) !! str (Body.code body) = None
  /\ accessTokens (snd r) = <[accessToken := data]> (accessTokens s)
  /\ accessTokens (snd r) !! accessToken = Some data
  /\ (now_createdAt = now_expiresAt ->
      AccessToken.expiresAt data = AccessToken.createdAt data + 3600 * 1000)
  (* the response *)
  /\ status_of (fst r) = Some 200
  /\ field "access_token" (body_of (fst r)) = Some (JStr accessToken)
  /\ field "token_type" (body_of (fst r)) = Some (JStr "Bearer")
  /\ field "expires_in" (body_of (fst r)) = Some (JNum 3600)
  /\ field "scope" (body_of (fst r))
     = (if String.eqb (AuthorizationSession.scope session) EmptyString
        then None
        else Some (JStr (AuthorizationSession.scope session)))
  /\ log (snd r)
     = log s ++ [info "OAuth /token request:";
                 authAttempt true ip (AuthorizationSession.clientId session);
                 info "Issued access token:"].
Proof.
  intros Hc Hl H46 accessToken r data. subst r.
  rewrite (handleToken_success _ _ _ _ _ _ _ _ Hc Hl H46). simpl.
  fold accessToken. fold data.
  split; [reflexivity|]. split; [apply lookup_delete_eq|].
  split; [reflexivity|]. split; [apply lookup_insert_eq|].
  split; [intros ->; reflexivity|].
  repeat split.
  now destruct (String.eqb (AuthorizationSession.scope session) EmptyString).
Qed.

Lemma C8_token_success_witness :
  token_checks_1_to_2 (Scenario.body "authorization_code" Scenario.verifier) = true
  /\ authorizationCodes Scenario.authorized !! Scenario.code = Some Scenario.session
  /\ token_checks_4_to_6 (Scenario.body "authorization_code" Scenario.verifier)
       Scenario.session = true
  /\ accessTokens Scenario.exchanged !! Scenario.bearer = Some Scenario.issued.
Proof.
  assert (H1 : token_checks_1_to_2
                 (Scenario.body "authorization_code" Scenario.verifier) = true)
    by reflexivity.
  assert (H2 : authorizationCodes Scenario.authorized !! Scenario.code
               = Some Scenario.session) by (vm_compute; reflexivity).
  assert (H3 : token_checks_4_to_6
                 (Scenario.body "authorization_code" Scenario.verifier)
                 Scenario.session = true) by (vm_compute; reflexivity).
  split; [exact H1|]. split; [exact H2|]. split; [exact H3|].
  exact (proj1 (proj2 (proj2 (proj2
           (C8_token_success Scenario.authToken Scenario.token_bytes
              (Scenario.T + 1000) (Scenario.T + 1000) _ Scenario.ip _ _
              H1 H2 H3))))).
Defined.

(** C8 as stated fails: when the clock moves on by a millisecond between the
    two readings of the success path, the stored token has
    [expiresAt = createdAt + 3 599 999] ms, not [createdAt + 3 600 000]. *)
Lemma C8_counterexample :
  let r := handleToken Scenario.authToken Scenario.token_bytes
             (Scenario.T + 1000) (Scenario.T + 1001)
             (Scenario.body "authorization_code" Scenario.verifier)
             Scenario.ip Scenario.authorized in
  status_of (fst r) = Some 200
  /\ exists data,
       accessTokens (snd r) !! Scenario.bearer = Some data
       /\ AccessToken.createdAt data = Scenario.T + 1001
       /\ AccessToken.expiresAt data = AccessToken.createdAt data + 3599999
       /\ AccessToken.expiresAt data <> AccessToken.createdAt data + 3600 * 1000.
Proof.
  vm_compute. split; [reflexivity|].
  eexists. split; [reflexivity|]. vm_compute. repeat split. discriminate.
Qed.

(** * Further properties of the OAuth module *)

Lemma ServerState_eq (a b : ServerState) :
  authorizationCodes a = authorizationCodes b ->
  accessTokens a = accessTokens b ->
  log a = log b ->
  a = b.
Proof. destruct a, b; simpl; intros -> -> ->; reflexivity. Qed.

(** ** The sweep *)

(** X1.  After the timer callback has run at [now], a session is in the
    store exactly when it was there before and is at most ten minutes old
    (a session of exactly 600 000 ms stays), and a token exactly when it was
    there before and [now] is not past its [expiresAt]; what stays is
    unchanged, and nothing is logged. *)
Theorem X1_sweep_keeps_exactly_the_fresh (now : Z) (s : ServerState) :
  (forall code session,
      authorizationCodes (sweep now s) !! code = Some session
      <-> authorizationCodes s !! code = Some session
          /\ now - AuthorizationSession.createdAt session <= 600000)
  /\ (forall token data,
         accessTokens (sweep now s) !! token = Some data
         <-> accessTokens s !! token = Some data
             /\ now <= AccessToken.expiresAt data)
  /\ log (sweep now s) = log s.
Proof.
  split; [|split; [|reflexivity]].
  - intros code session. rewrite sweep_authorizationCodes.
    destruct (authorizationCodes s !! code) as [x|]; [|split; [discriminate|now intros [? _]]].
    case_bool_decide as Hold.
    + split; [discriminate|]. intros [[= ->] Hle]. change (10 * 60 * 1000) with 600000 in Hold. lia.
    + split; [intros [= ->]|now intros [? _]].
      split; [reflexivity|]. change (10 * 60 * 1000) with 600000 in Hold. lia.
  - intros token data. rewrite sweep_accessTokens.
    destruct (accessTokens s !! token) as [x|]; [|split; [discriminate|now intros [? _]]].
    case_bool_decide as Hold.
    + split; [discriminate|]. intros [[= ->] Hle]. lia.
    + split; [intros [= ->]|now intros [? _]].
      split; [reflexivity|]. lia.
Qed.

(** X2.  A sweep makes every earlier sweep redundant: sweeping at [t1] and
    then at a later [t2] leaves the state that sweeping at [t2] alone
    leaves.  In particular a sweep is idempotent. *)
Theorem X2_later_sweep_subsumes_earlier (t1 t2 : Z) (s : ServerState) :
  t1 <= t2 -> sweep t2 (sweep t1 s) = sweep t2 s.
Proof.
  intros Hle. apply ServerState_eq; [| |reflexivity].
  - apply map_eq. intros code. rewrite !sweep_authorizationCodes.
    destruct (authorizationCodes s !! code) as [x|]; [|reflexivity].
    repeat case_bool_decide; try reflexivity. lia.
  - apply map_eq. intros token. rewrite !sweep_accessTokens.
    destruct (accessTokens s !! token) as [x|]; [|reflexivity].
    repeat case_bool_decide; try reflexivity. lia.
Qed.

Lemma X2_later_sweep_subsumes_earlier_witness :
  Scenario.T + 50000 <= Scenario.T + 700000
  /\ sweep (Scenario.T + 700000) (sweep (Scenario.T + 50000) Scenario.authorized)
     = sweep (Scenario.T + 700000) Scenario.authorized.
Proof.
  assert (H : Scenario.T + 50000 <= Scenario.T + 700000) by (vm_compute; discriminate).
  split; [exact H|].
  exact (X2_later_sweep_subsumes_earlier _ _ Scenario.authorized H).
Defined.

(** ** The middleware on every header *)

(** X3.  A request with no [Authorization] header, an empty one, or one that
    does not start with "Bearer " (the scheme is matched with its case and
    one space) is answered 401 [invalid_token] with a [WWW-Authenticate]
    header that names the resource-metadata document; the store is not
    looked at and nothing at all changes, not even the log. *)
Theorem X3_missing_or_malformed_header
    (baseUrl : option string) (now : Z) (authorization : option string)
    (ip : string) (s : ServerState) :
  truthy authorization = false
  \/ startsWith (str authorization) "Bearer " = false ->
  validateBearerToken baseUrl now authorization ip s
  = (Json 401
       [("WWW-Authenticate",
         "Bearer resource_metadata=" +:+ dquote
           +:+ (or_else baseUrl EmptyString +:+ "/.well-known/oauth-protected-resource")
           +:+ dquote +:+ ", scope=" +:+ dquote +:+ "mcp" +:+ dquote)]
       [("error", JStr "invalid_token");
        ("error_description", JStr "Missing or invalid Authorization header")],
     s).
Proof.
  intros H. unfold validateBearerToken. cbv zeta.
  replace (negb (truthy authorization)
           || negb (startsWith (str authorization) "Bearer ")) with true
    by (destruct H as [-> | ->]; simpl; [reflexivity|now rewrite orb_true_r]).
  unfold or_else. destruct (truthy baseUrl); reflexivity.
Qed.

(** X4.  A well-formed bearer header whose token is not a key of the token
    store is answered 401 [invalid_token]; an [authFailure] is logged and
    both maps stay as they were. *)
Theorem X4_unknown_token_rejected
    (baseUrl : option string) (now : Z) (ip token : string) (s : ServerState) :
  accessTokens s !! token = None ->
  validateBearerToken baseUrl now (Some ("Bearer " +:+ token)) ip s
  = (Json 401 [] [("error", JStr "invalid_token");
                  ("error_description", JStr "Invalid or expired access token")],
     mkState (authorizationCodes s) (accessTokens s)
       (log s ++ [authFailure "invalid_access_token" ip])).
Proof. intros H. now rewrite validateBearerToken_bearer, H. Qed.

Lemma X4_unknown_token_rejected_witness :
  accessTokens Scenario.exchanged !! "Nzc3" = None
  /\ fst (validateBearerToken None (Scenario.T + 2000) (Some ("Bearer " +:+ "Nzc3"))
            Scenario.ip Scenario.exchanged)
     = Json 401 [] [("error", JStr "invalid_token");
                    ("error_description", JStr "Invalid or expired access token")].
Proof.
  assert (H : accessTokens Scenario.exchanged !! "Nzc3" = None)
    by (vm_compute; reflexivity).
  split; [exact H|].
  exact (f_equal fst (X4_unknown_token_rejected None (Scenario.T + 2000)
                        Scenario.ip "Nzc3" Scenario.exchanged H)).
Defined.

(** Which requests the middleware lets through. *)
Lemma validateBearerToken_next_iff baseUrl now authorization ip s :
  fst (validateBearerToken baseUrl now authorization ip s) = Next
  <-> exists token data,
        authorization = Some ("Bearer " +:+ token)
        /\ accessTokens s !! token = Some data
        /\ now <= AccessToken.expiresAt data.
Proof.
  split.
  - destruct (truthy authorization) eqn:Ht.
    + destruct (startsWith (str authorization) "Bearer ") eqn:Hp.
      * apply truthy_inv in Ht. destruct Ht as (h & -> & _). simpl in Hp.
        apply startsWith_inv in Hp. destruct Hp as [token ->].
        rewrite validateBearerToken_bearer.
        destruct (accessTokens s !! token) as [data|] eqn:Hl; [|discriminate].
        case_bool_decide; [discriminate|]. intros _.
        exists token, data. repeat split; [exact Hl|lia].
      * unfold validateBearerToken. cbv zeta. rewrite Hp, orb_true_r. discriminate.
    + unfold validateBearerToken. cbv zeta. rewrite Ht. discriminate.
  - intros (token & data & -> & Hl & Hle).
    rewrite validateBearerToken_bearer, Hl.
    rewrite bool_decide_eq_false_2 by lia. reflexivity.
Qed.

(** X5.  The middleware hands a request to the protected handler exactly
    when its [Authorization] header is "Bearer " followed by a key of the
    token store whose [expiresAt] is not before the current time (a token is
    still good at the very millisecond of its [expiresAt]); every other
    request is answered 401. *)
Theorem X5_middleware_verdict
    (baseUrl : option string) (now : Z) (authorization : option string)
    (ip : string) (s : ServerState) :
  let r := fst (validateBearerToken baseUrl now authorization ip s) in
  (r = Next
   <-> exists token data,
         authorization = Some ("Bearer " +:+ token)
         /\ accessTokens s !! token = Some data
         /\ now <= AccessToken.expiresAt data)
  /\ (r <> Next -> status_of r = Some 401
                   /\ error_of r = Some (JStr "invalid_token")).
Proof.
  intros r. subst r. split; [apply validateBearerToken_next_iff|].
  unfold validateBearerToken. cbv zeta.
  destruct (negb (truthy authorization) || _); [now intros _|].
  destruct (accessTokens s !! _) as [data|]; [|now intros _].
  case_bool_decide; [now intros _|]. simpl. congruence.
Qed.

(** X6.  Whatever the request, the middleware leaves the pending sessions
    alone and never adds or alters a token: every entry of the token store
    afterwards was there before, and every entry other than that of the
    presented token is kept. *)
Theorem X6_middleware_frame
    (baseUrl : option string) (now : Z) (authorization : option string)
    (ip : string) (s : ServerState) :
  let s' := snd (validateBearerToken baseUrl now authorization ip s) in
  authorizationCodes s' = authorizationCodes s
  /\ (forall k data, accessTokens s' !! k = Some data ->
                     accessTokens s !! k = Some data)
  /\ (forall k, k <> substring_from 7 (str authorization) ->
                accessTokens s' !! k = accessTokens s !! k).
Proof.
  intros s'. subst s'. split; [apply validateBearerToken_codes|].
  unfold validateBearerToken. cbv zeta.
  destruct (negb (truthy authorization) || _); [now split|].
  destruct (accessTokens s !! _) as [data|]; [|now split].
  case_bool_decide; [|now split]. simpl. split.
  - intros k x Hk. now apply lookup_delete_Some in Hk.
  - intros k Hk. now rewrite lookup_delete_ne.
Qed.

(** X7.  A sweep never takes away a token that the middleware would still
    accept afterwards: for a sweep at [t] and a request at a time [now] not
    before [t], the request is let through after the sweep exactly when it
    would have been let through without it. *)
Theorem X7_sweep_transparent_to_middleware
    (baseUrl : option string) (t now : Z) (authorization : option string)
    (ip : string) (s : ServerState) :
  t <= now ->
  fst (validateBearerToken baseUrl now authorization ip (sweep t s)) = Next
  <-> fst (validateBearerToken baseUrl now authorization ip s) = Next.
Proof.
  intros Hle. rewrite !validateBearerToken_next_iff.
  split; intros (token & data & -> & Hl & Hexp); exists token, data;
    (split; [reflexivity|]); (split; [|exact Hexp]).
  - rewrite sweep_accessTokens in Hl.
    destruct (accessTokens s !! token) as [x|]; [|discriminate].
    now case_bool_decide.
  - rewrite sweep_accessTokens, Hl. rewrite bool_decide_eq_false_2 by lia.
    reflexivity.
Qed.

Lemma X7_sweep_transparent_to_middleware_witness :
  Scenario.T + 60000 <= Scenario.T + 90000
  /\ fst (validateBearerToken None (Scenario.T + 90000)
            (Some ("Bearer " +:+ Scenario.bearer)) Scenario.ip
            (sweep (Scenario.T + 60000) Scenario.exchanged)) = Next.
Proof.
  assert (H : Scenario.T + 60000 <= Scenario.T + 90000) by (vm_compute; discriminate).
  split; [exact H|].
  apply (X7_sweep_transparent_to_middleware None _ _ _ Scenario.ip
           Scenario.exchanged H).
  vm_compute. reflexivity.
Defined.

(** X8.  The access token minted by a successful exchange opens the
    protected routes from then on until one hour after the clock reading
    taken for its [expiresAt], that millisecond included, and no longer. *)
Theorem X8_minted_token_is_good_for_an_hour
    (authToken : string) (rb : nat -> list byte) (now_expiresAt now_createdAt : Z)
    (body : Body.t) (ip ip' : string) (s : ServerState)
    (baseUrl : option string) (now : Z) :
  status_of (fst (handleToken authToken rb now_expiresAt now_createdAt body ip s))
    = Some 200 ->
  let s' := snd (handleToken authToken rb now_expiresAt now_createdAt body ip s) in
  let header := Some ("Bearer " +:+ generateRandomString rb 48) in
  fst (validateBearerToken baseUrl now header ip' s') = Next
  <-> now <= now_expiresAt + 3600000.
Proof.
  intros H200 s' header. subst s' header.
  apply handleToken_200_inv in H200. destruct H200 as (Hc & session & Hl & H46).
  rewrite (handleToken_success _ _ _ _ _ _ _ _ Hc Hl H46). simpl.
  rewrite validateBearerToken_bearer. simpl. rewrite lookup_insert_eq. simpl.
  case_bool_decide; split; intros; try discriminate; try reflexivity; lia.
Qed.

Lemma X8_minted_token_is_good_for_an_hour_witness :
  status_of (fst (handleToken Scenario.authToken Scenario.token_bytes
                    (Scenario.T + 1000) (Scenario.T + 1000)
                    (Scenario.body "authorization_code" Scenario.verifier)
                    Scenario.ip Scenario.authorized)) = Some 200
  /\ fst (validateBearerToken None (Scenario.T + 1000 + 3600000)
            (Some ("Bearer " +:+ Scenario.bearer)) Scenario.ip Scenario.exchanged)
     = Next.
Proof.
  assert (H : status_of (fst (handleToken Scenario.authToken Scenario.token_bytes
                                (Scenario.T + 1000) (Scenario.T + 1000)
                                (Scenario.body "authorization_code" Scenario.verifier)
                                Scenario.ip Scenario.authorized)) = Some 200)
    by (vm_compute; reflexivity).
  split; [exact H|].
  apply (X8_minted_token_is_good_for_an_hour _ _ _ _ _ _ Scenario.ip _ None
           (Scenario.T + 1000 + 3600000) H).
  vm_compute. discriminate.
Defined.

(** ** [generateRandomString] *)

(** Induction three octets at a time, the way [encode_octets] recurses. *)
Lemma octets_triple_ind (P : list Z -> Prop) :
  P [] -> (forall a, P [a]) -> (forall a b, P [a; b]) ->
  (forall a b c rest, P rest -> P (a :: b :: c :: rest)) ->
  forall l, P l.
Proof.
  intros H0 H1 H2 H3.
  fix IH 1.
  intros [|a [|b [|c rest]]];
    [exact H0|apply H1|apply H2|apply H3; apply IH].
Qed.

Lemma sextet_url_safe (i : Z) : url_safe (Base64url.sextet i) = true.
Proof.
  unfold Base64url.sextet. generalize (Z.to_nat i). intros n.
  do 64 (destruct n as [|n]; [reflexivity|]). reflexivity.
Qed.

Lemma encode_octets_url_safe (l : list Z) :
  all_chars url_safe (Base64url.encode_octets l) = true.
Proof.
  induction l as [|a|a b|a b c rest IH] using octets_triple_ind;
    cbn [Base64url.encode_octets all_chars];
    rewrite ?sextet_url_safe, ?IH; reflexivity.
Qed.

Lemma encode_octets_length (l : list Z) :
  String.length (Base64url.encode_octets l) = ((4 * List.length l + 2) / 3)%nat.
Proof.
  induction l as [|a|a b|a b c rest IH] using octets_triple_ind;
    cbn [Base64url.encode_octets String.length List.length]; try reflexivity.
  rewrite IH.
  replace (4 * S (S (S (List.length rest))) + 2)%nat
    with ((4 * List.length rest + 2) + 4 * 3)%nat by lia.
  rewrite Nat.div_add by discriminate. lia.
Qed.

Lemma substring_prefix_length (n : nat) (s : string) :
  String.length (String.substring 0 n s) = Nat.min n (String.length s).
Proof.
  revert s. induction n as [|n IH]; intros [|c s]; simpl; try reflexivity.
  now rewrite IH.
Qed.

Lemma substring_prefix_all_chars p (n : nat) (s : string) :
  all_chars p s = true -> all_chars p (String.substring 0 n s) = true.
Proof.
  revert s. induction n as [|n IH]; intros [|c s]; simpl; try reflexivity.
  intros H. apply andb_true_iff in H. destruct H as [-> H]. now apply IH.
Qed.

(** X9.  When the random source returns as many octets as it is asked for,
    the generated string has exactly the requested number of characters,
    and, whatever the source returns, every character is a letter, a digit,
    [-] or [_]. *)
Theorem X9_generateRandomString_shape (randomBytes : nat -> list byte) (n : nat) :
  all_chars url_safe (generateRandomString randomBytes n) = true
  /\ (List.length (randomBytes n) = n ->
      String.length (generateRandomString randomBytes n) = n).
Proof.
  unfold generateRandomString, Base64url.encode. split.
  - apply substring_prefix_all_chars, encode_octets_url_safe.
  - intros Hn. rewrite substring_prefix_length, encode_octets_length.
    rewrite length_map, Hn.
    apply Nat.min_l. apply Nat.div_le_lower_bound; lia.
Qed.

Lemma X9_generateRandomString_shape_witness :
  List.length (Scenario.code_bytes 32) = 32%nat
  /\ String.length Scenario.code = 32%nat.
Proof.
  assert (H : List.length (Scenario.code_bytes 32) = 32%nat) by reflexivity.
  split; [exact H|].
  exact (proj2 (X9_generateRandomString_shape Scenario.code_bytes 32) H).
Defined.

Lemma encode_octets_app (a b : list Z) (k : nat) :
  List.length a = (3 * k)%nat ->
  Base64url.encode_octets (a ++ b)
  = Base64url.encode_octets a +:+ Base64url.encode_octets b.
Proof.
  revert a. induction k as [|k IH]; intros a Ha.
  - destruct a; [reflexivity|simpl in Ha; lia].
  - destruct a as [|x [|y [|z rest]]]; simpl in Ha; try lia.
    cbn [app Base64url.encode_octets String.append].
    rewrite (IH rest) by lia. reflexivity.
Qed.

Lemma substring_prefix_append (x y : string) :
  String.substring 0 (String.length x) (x +:+ y) = x.
Proof.
  induction x as [|c x IH]; simpl.
  - now destruct y.
  - now rewrite IH.
Qed.

(** The generated string of [4 * k] characters is the encoding of the first
    [3 * k] octets drawn. *)
Lemma generateRandomString_uses_prefix (randomBytes : nat -> list byte) (k : nat) :
  (3 * k <= List.length (randomBytes (4 * k)%nat))%nat ->
  generateRandomString randomBytes (4 * k)%nat
  = Base64url.encode (firstn (3 * k)%nat (randomBytes (4 * k)%nat)).
Proof.
  intros Hlen. unfold generateRandomString, Base64url.encode.
  rewrite <- (firstn_skipn (3 * k) (randomBytes (4 * k)%nat)) at 1.
  rewrite map_app.
  rewrite (encode_octets_app _ _ k)
    by (rewrite length_map, length_firstn; lia).
  assert (H4 : String.length
                 (Base64url.encode_octets
                    (map Base64url.octet (firstn (3 * k)%nat (randomBytes (4 * k)%nat))))
               = (4 * k)%nat).
  { rewrite encode_octets_length, length_map, length_firstn.
    rewrite Nat.min_l by exact Hlen.
    replace (4 * (3 * k) + 2)%nat with (2 + (4 * k) * 3)%nat by lia.
    rewrite Nat.div_add by discriminate. reflexivity. }
  rewrite <- H4 at 1. apply substring_prefix_append.
Qed.

(** X10.  Of the [4 * k] random octets drawn for a string of [4 * k]
    characters only the first [3 * k] reach the string: two draws that agree
    on them give the same string.  An authorization code (32 characters)
    thus carries 24 of its 32 random octets, and an access token (48
    characters) 36 of its 48. *)
Theorem X10_generateRandomString_discards_a_quarter
    (randomBytes randomBytes' : nat -> list byte) (k : nat) :
  List.length (randomBytes (4 * k)%nat) = (4 * k)%nat ->
  List.length (randomBytes' (4 * k)%nat) = (4 * k)%nat ->
  firstn (3 * k)%nat (randomBytes (4 * k)%nat) = firstn (3 * k)%nat (randomBytes' (4 * k)%nat) ->
  generateRandomString randomBytes (4 * k)%nat
  = generateRandomString randomBytes' (4 * k)%nat.
Proof.
  intros H1 H2 Hprefix.
  rewrite !generateRandomString_uses_prefix by lia.
  now rewrite Hprefix.
Qed.

Lemma X10_generateRandomString_discards_a_quarter_witness :
  List.length (Scenario.code_bytes 32) = 32%nat
  /\ List.length (Samples.code_bytes' 32) = 32%nat
  /\ Scenario.code_bytes 32 <> Samples.code_bytes' 32
  /\ generateRandomString Scenario.code_bytes 32
     = generateRandomString Samples.code_bytes' 32.
Proof.
  split; [reflexivity|]. split; [reflexivity|]. split; [vm_compute; discriminate|].
  exact (X10_generateRandomString_discards_a_quarter
           Scenario.code_bytes Samples.code_bytes' 8 eq_refl eq_refl eq_refl).
Defined.

(** ** From the authorization endpoint to the token endpoint *)

Lemma generateRandomString_nonempty (randomBytes : nat -> list byte) (n : nat) :
  List.length (randomBytes n) = n -> n <> 0%nat ->
  generateRandomString randomBytes n <> EmptyString.
Proof.
  intros Hn Hpos E.
  assert (H : String.length (generateRandomString randomBytes n) = n).
  { unfold generateRandomString, Base64url.encode.
    rewrite substring_prefix_length, encode_octets_length, length_map, Hn.
    apply Nat.min_l. apply Nat.div_le_lower_bound; lia. }
  rewrite E in H. simpl in H. lia.
Qed.

Lemma authorize_checks_1_to_3_inv (query : Query.t) :
  authorize_checks_1_to_3 query = true ->
  truthy (Query.client_id query) = true
  /\ truthy (Query.redirect_uri query) = true
  /\ truthy (Query.response_type query) = true
  /\ truthy (Query.code_challenge query) = true
  /\ truthy (Query.code_challenge_method query) = true
  /\ strict_eq (Query.response_type query) "code" = true
  /\ strict_eq (Query.code_challenge_method query) "S256" = true.
Proof.
  unfold authorize_checks_1_to_3. rewrite !andb_true_iff. tauto.
Qed.

Lemma token_checks_1_to_2_inv (body : Body.t) :
  token_checks_1_to_2 body = true ->
  truthy (Body.grant_type body) = true
  /\ truthy (Body.code body) = true
  /\ truthy (Body.code_verifier body) = true
  /\ truthy (Body.client_id body) = true
  /\ strict_eq (Body.grant_type body) "authorization_code" = true.
Proof.
  unfold token_checks_1_to_2. rewrite !andb_true_iff. tauto.
Qed.

Lemma token_checks_4_to_6_inv (body : Body.t) (session : AuthorizationSession.t) :
  token_checks_4_to_6 body session = true ->
  verifyCodeChallenge (str (Body.code_verifier body))
    (AuthorizationSession.codeChallenge session)
    (AuthorizationSession.codeChallengeMethod session) = true
  /\ strict_eq (Body.client_id body) (AuthorizationSession.clientId session) = true
  /\ (truthy (Body.redirect_uri body) = true ->
      strict_eq (Body.redirect_uri body)
        (AuthorizationSession.redirectUri session) = true).
Proof.
  unfold token_checks_4_to_6. rewrite !andb_true_iff, orb_true_iff.
  intros [[Hv Hc] Hr]. repeat split; try assumption.
  intros Ht. destruct Hr as [Hr|Hr]; [|exact Hr].
  rewrite Ht in Hr. discriminate.
Qed.

(** X11.  The round trip of the flow, for a verifier that is not the empty
    string and a random source that returns the 32 octets asked of it.
    After an authorize request that passes its four checks with the
    challenge [sha256_base64url verifier], an exchange that presents the
    code the redirect carried, that verifier and the same client id, with
    the redirect URI of the authorize request or with none (or an empty
    one), is answered 200 with a fresh access token and the code is
    consumed, whatever sweep ran in between, provided the session was at
    most ten minutes old at that sweep.  (An empty verifier is stopped by
    check 1 of the token endpoint.) *)
Theorem X11_authorize_then_exchange
    (baseUrl authToken : string) (rb rb' : nat -> list byte)
    (now t n1 n2 : Z) (query : Query.t) (verifier : string)
    (redirect : option string) (ip : string) (s : ServerState) :
  authorize_checks_1_to_3 query = true ->
  redirect_uri_accepted (str (Query.redirect_uri query)) = true ->
  Query.code_challenge query = Some (sha256_base64url verifier) ->
  verifier <> EmptyString ->
  List.length (rb 32%nat) = 32%nat ->
  t - now <= 600000 ->
  redirect = None \/ redirect = Some EmptyString
  \/ redirect = Query.redirect_uri query ->
  let code := generateRandomString rb 32 in
  let s1 := sweep t (snd (handleAuthorize baseUrl authToken rb now query s)) in
  let body := Body.mk (Some "authorization_code") (Some code) (Some verifier)
                (Query.client_id query) redirect None in
  let r := handleToken authToken rb' n1 n2 body ip s1 in
  fst (handleAuthorize baseUrl authToken rb now query s)
  = Redirect 302 (redirect_of code query)
  /\ status_of (fst r) = Some 200
  /\ field "access_token" (body_of (fst r))
     = Some (JStr (generateRandomString rb' 48))
  /\ authorizationCodes (snd r) !! code = None.
Proof.
  intros Hc Hr Hch Hv Hlen Hage Hred code s1 body r.
  assert (Hcode : code <> EmptyString)
    by (apply generateRandomString_nonempty; [exact Hlen|discriminate]).
  destruct (authorize_checks_1_to_3_inv _ Hc)
    as (Hcid & Huri & _ & _ & _ & _ & Hmethod).
  assert (H12 : token_checks_1_to_2 body = true).
  { unfold token_checks_1_to_2, body; simpl.
    rewrite Hcid. apply String.eqb_neq in Hcode, Hv.
    now rewrite Hcode, Hv. }
  assert (Hl : authorizationCodes s1 !! str (Body.code body)
               = Some (session_of baseUrl now query)).
  { subst s1. rewrite sweep_authorizationCodes.
    rewrite handleAuthorize_success by assumption. simpl.
    fold code. rewrite lookup_insert_eq. simpl.
    rewrite bool_decide_eq_false_2; [reflexivity|].
    change (10 * 60 * 1000) with 600000. lia. }
  assert (H46 : token_checks_4_to_6 body (session_of baseUrl now query) = true).
  { unfold token_checks_4_to_6, body; simpl.
    rewrite Hch. simpl. apply strict_eq_str in Hmethod. rewrite Hmethod.
    rewrite verifyCodeChallenge_S256, String.eqb_refl. simpl.
    apply truthy_inv in Hcid. destruct Hcid as (cid & -> & _). simpl.
    rewrite String.eqb_refl. simpl.
    destruct Hred as [->| [->| ->]]; try reflexivity.
    apply truthy_inv in Huri. destruct Huri as (u & -> & _). simpl.
    rewrite String.eqb_refl. apply orb_true_r. }
  split; [now rewrite handleAuthorize_success by assumption|].
  subst r. rewrite (handleToken_success _ _ _ _ _ _ _ _ H12 Hl H46). simpl.
  repeat split. apply lookup_delete_eq.
Qed.

Lemma X11_authorize_then_exchange_witness :
  status_of
    (fst (handleToken Scenario.authToken Scenario.token_bytes
            (Scenario.T + 300000) (Scenario.T + 300000)
            (Body.mk (Some "authorization_code") (Some Scenario.code)
               (Some Scenario.verifier) (Some "abc")
               (Some "https://claude.ai/cb") None)
            Scenario.ip (sweep (Scenario.T + 290000) Scenario.authorized)))
  = Some 200.
Proof.
  exact (proj1 (proj2
           (X11_authorize_then_exchange Scenario.baseUrl Scenario.authToken
              Scenario.code_bytes Scenario.token_bytes
              Scenario.T (Scenario.T + 290000)
              (Scenario.T + 300000) (Scenario.T + 300000)
              (Scenario.query "https://claude.ai/cb" (Some "xyz"))
              Scenario.verifier (Some "https://claude.ai/cb")
              Scenario.ip initial
              eq_refl eq_refl
              (f_equal Some (eq_sym sha256_base64url_rfc7636))
              ltac:(discriminate) eq_refl ltac:(vm_compute; discriminate)
              (or_intror (or_intror eq_refl))))).
Defined.

(** X12.  Who can get a token.  In a state reachable from the empty one, a
    200 from the token endpoint means that the body named
    [authorization_code], that a session was stored under the presented
    code, that the SHA-256 digest of the presented verifier is the challenge
    of that session, that the presented client id is the client id of that
    session, and that the presented redirect URI, if not empty, is the one
    of that session. *)
Theorem X12_token_only_for_the_verifier
    (baseUrl authToken : string) (middlewareBaseUrl : option string)
    (rb : nat -> list byte) (n1 n2 : Z) (body : Body.t) (ip : string)
    (s : ServerState) :
  reachable baseUrl authToken middlewareBaseUrl s ->
  status_of (fst (handleToken authToken rb n1 n2 body ip s)) = Some 200 ->
  exists session,
    authorizationCodes s !! str (Body.code body) = Some session
    /\ Body.grant_type body = Some "authorization_code"
    /\ sha256_base64url (str (Body.code_verifier body))
       = AuthorizationSession.codeChallenge session
    /\ Body.client_id body = Some (AuthorizationSession.clientId session)
    /\ (truthy (Body.redirect_uri body) = true ->
        Body.redirect_uri body = Some (AuthorizationSession.redirectUri session)).
Proof.
  intros [events ->] H200.
  apply handleToken_200_inv in H200. destruct H200 as (Hc & session & Hl & H46).
  exists session. split; [exact Hl|].
  destruct (token_checks_1_to_2_inv _ Hc) as (_ & _ & _ & _ & Hgrant).
  destruct (token_checks_4_to_6_inv _ _ H46) as (Hv & Hcid & Hred).
  assert (Hm : AuthorizationSession.codeChallengeMethod session = "S256").
  { eapply run_keeps_S256; [|exact Hl].
    intros c x H. simpl in H. now rewrite lookup_empty in H. }
  rewrite Hm, verifyCodeChallenge_S256 in Hv.
  split; [now apply strict_eq_true|].
  split; [now apply String.eqb_eq|].
  split; [now apply strict_eq_true|].
  intros Ht. apply strict_eq_true. now apply Hred.
Qed.

Lemma X12_token_only_for_the_verifier_witness :
  sha256_base64url Scenario.verifier
  = AuthorizationSession.codeChallenge Scenario.session.
Proof.
  destruct (X12_token_only_for_the_verifier Scenario.baseUrl Scenario.authToken None
              Scenario.token_bytes (Scenario.T + 1000) (Scenario.T + 1000)
              (Scenario.body "authorization_code" Scenario.verifier)
              Scenario.ip Scenario.authorized
              scenario_authorized_reachable ltac:(vm_compute; reflexivity))
    as (session & Hl & _ & Hv & _).
  assert (H : authorizationCodes Scenario.authorized !! Scenario.code
              = Some Scenario.session) by (vm_compute; reflexivity).
  change (str (Body.code (Scenario.body "authorization_code" Scenario.verifier)))
    with Scenario.code in Hl.
  rewrite H in Hl. injection Hl as <-. exact Hv.
Defined.

(** ** Every outcome of the authorization endpoint *)

(** X13.  On a request whose parameters are absent or strings, the
    authorization endpoint answers 302 exactly when the four checks pass
    and 400 otherwise; a 400 leaves the session store as it was, and no
    such request changes the token store.  The error of a 400 is
    [unsupported_response_type] exactly when the five required parameters
    are there and [response_type] is not "code", and [invalid_request] in
    every other case. *)
Theorem X13_authorize_outcomes
    (baseUrl authToken : string) (rb : nat -> list byte) (now : Z)
    (query : Query.t) (s : ServerState) :
  let r := handleAuthorize baseUrl authToken rb now query s in
  let passes := authorize_checks_1_to_3 query
                && redirect_uri_accepted (str (Query.redirect_uri query)) in
  let required :=
    truthy (Query.client_id query) && truthy (Query.redirect_uri query)
    && truthy (Query.response_type query) && truthy (Query.code_challenge query)
    && truthy (Query.code_challenge_method query) in
  status_of (fst r) = Some (if passes then 302 else 400)
  /\ (passes = false -> authorizationCodes (snd r) = authorizationCodes s)
  /\ accessTokens (snd r) = accessTokens s
  /\ (passes = false ->
      error_of (fst r)
      = Some (JStr (if required && negb (strict_eq (Query.response_type query) "code")
                    then "unsupported_response_type" else "invalid_request"))).
Proof.
  intros r passes required. subst r passes required.
  destruct (authorize_checks_1_to_3 query) eqn:Hc.
  - destruct (authorize_checks_1_to_3_inv _ Hc)
      as (H1 & H2 & H3 & H4 & H5 & H6 & H7).
    rewrite H1, H2, H3, H4, H5, H6. simpl.
    destruct (redirect_uri_accepted (str (Query.redirect_uri query))) eqn:Hr.
    + rewrite handleAuthorize_success by assumption. simpl.
      repeat split; discriminate.
    + rewrite handleAuthorize_bad_redirect by assumption. simpl.
      repeat split.
  - simpl. unfold authorize_checks_1_to_3 in Hc.
    unfold handleAuthorize. cbv zeta.
    destruct (truthy (Query.client_id query)), (truthy (Query.redirect_uri query)),
      (truthy (Query.response_type query)), (truthy (Query.code_challenge query)),
      (truthy (Query.code_challenge_method query)); simpl in *;
      try (repeat split; reflexivity).
    destruct (strict_eq (Query.response_type query) "code"); simpl in *;
      [|repeat split; reflexivity].
    rewrite Hc. simpl. repeat split; reflexivity.
Qed.

(** ** Every outcome of the token endpoint *)

(** X14.  A failed binding check burns the code, whichever check it is.  An
    exchange whose fields are absent or strings, that passes checks 1 and 2
    and finds a stored session, and that fails check 4, 5 or 6 is answered
    400 [invalid_grant], described by the first check that fails, in the
    order verifier, client id, redirect URI; the session is deleted, no
    token is minted, and an exchange of the same code that follows and
    passes checks 1 and 2, be it the rightful one, is answered
    [invalid_grant]. *)
Theorem X14_failed_binding_burns_code
    (authToken : string) (rb rb' : nat -> list byte) (n1 n2 n1' n2' : Z)
    (body body' : Body.t) (ip ip' : string) (s : ServerState)
    (session : AuthorizationSession.t) :
  token_checks_1_to_2 body = true ->
  authorizationCodes s !! str (Body.code body) = Some session ->
  token_checks_4_to_6 body session = false ->
  token_checks_1_to_2 body' = true ->
  Body.code body' = Body.code body ->
  let r := handleToken authToken rb n1 n2 body ip s in
  let description :=
    if negb (verifyCodeChallenge (str (Body.code_verifier body))
               (AuthorizationSession.codeChallenge session)
               (AuthorizationSession.codeChallengeMethod session))
    then "Invalid code_verifier"
    else if negb (strict_eq (Body.client_id body)
                    (AuthorizationSession.clientId session))
    then "client_id mismatch"
    else "redirect_uri mismatch" in
  fst r = oauth_error 400 "invalid_grant" description
  /\ authorizationCodes (snd r)
     = delete (str (Body.code body)) (authorizationCodes s)
  /\ accessTokens (snd r) = accessTokens s
  /\ fst (handleToken authToken rb' n1' n2' body' ip' (snd r))
     = oauth_error 400 "invalid_grant" "Invalid or expired authorization code".
Proof.
  intros Hc Hl H46 Hc' Hsame r description.
  assert (E : fst r = oauth_error 400 "invalid_grant" description
              /\ authorizationCodes (snd r)
                 = delete (str (Body.code body)) (authorizationCodes s)
              /\ accessTokens (snd r) = accessTokens s).
  { subst r description.
    destruct (token_checks_1_to_2_inv _ Hc) as (H1 & H2 & H3 & H4 & H5).
    unfold token_checks_4_to_6 in H46.
    unfold handleToken. cbv zeta. rewrite H1, H2, H3, H4, H5. simpl.
    rewrite Hl.
    destruct (verifyCodeChallenge _ _ _); simpl in *; [|repeat split].
    destruct (strict_eq (Body.client_id body) _); simpl in *; [|repeat split].
    destruct (truthy (Body.redirect_uri body)),
      (strict_eq (Body.redirect_uri body) _); simpl in *;
      try discriminate; repeat split. }
  destruct E as (E1 & E2 & E3). repeat split; try assumption.
  rewrite handleToken_absent; [reflexivity|exact Hc'|].
  rewrite Hsame, E2. apply lookup_delete_eq.
Qed.

Lemma X14_failed_binding_burns_code_witness :
  fst (handleToken Scenario.authToken Scenario.token_bytes
         (Scenario.T + 1000) (Scenario.T + 1000)
         (Body.mk (Some "authorization_code") (Some Scenario.code)
            (Some Scenario.verifier) (Some "someone-else") None None)
         Scenario.ip Scenario.authorized)
  = oauth_error 400 "invalid_grant" "client_id mismatch"
  /\ fst (handleToken Scenario.authToken Scenario.token_bytes
            (Scenario.T + 2000) (Scenario.T + 2000)
            (Scenario.body "authorization_code" Scenario.verifier) Scenario.ip
            (snd (handleToken Scenario.authToken Scenario.token_bytes
                    (Scenario.T + 1000) (Scenario.T + 1000)
                    (Body.mk (Some "authorization_code") (Some Scenario.code)
                       (Some Scenario.verifier) (Some "someone-else") None None)
                    Scenario.ip Scenario.authorized)))
     = oauth_error 400 "invalid_grant" "Invalid or expired authorization code".
Proof.
  destruct (X14_failed_binding_burns_code Scenario.authToken
              Scenario.token_bytes Scenario.token_bytes
              (Scenario.T + 1000) (Scenario.T + 1000)
              (Scenario.T + 2000) (Scenario.T + 2000)
              (Body.mk (Some "authorization_code") (Some Scenario.code)
                 (Some Scenario.verifier) (Some "someone-else") None None)
              (Scenario.body "authorization_code" Scenario.verifier)
              Scenario.ip Scenario.ip Scenario.authorized Scenario.session
              eq_refl ltac:(vm_compute; reflexivity) ltac:(vm_compute; reflexivity)
              eq_refl eq_refl)
    as (R1 & _ & _ & R2).
  split; [|exact R2].
  rewrite R1. vm_compute. reflexivity.
Defined.

(** X15.  What the token endpoint leaves alone.  Whatever the request, the
    sessions stored under codes other than the presented one are kept as
    they are and none is added; the token store changes only when the
    answer is 200, and then only at the key of the new token. *)
Theorem X15_token_endpoint_frame
    (authToken : string) (rb : nat -> list byte) (n1 n2 : Z)
    (body : Body.t) (ip : string) (s : ServerState) :
  let r := handleToken authToken rb n1 n2 body ip s in
  (forall k, k <> str (Body.code body) ->
             authorizationCodes (snd r) !! k = authorizationCodes s !! k)
  /\ (forall k session, authorizationCodes (snd r) !! k = Some session ->
                        authorizationCodes s !! k = Some session)
  /\ (status_of (fst r) <> Some 200 -> accessTokens (snd r) = accessTokens s)
  /\ (forall k, k <> generateRandomString rb 48 ->
                accessTokens (snd r) !! k = accessTokens s !! k).
Proof.
  intros r. subst r.
  split; [|split; [intros k x H; exact (handleToken_origin _ _ _ _ _ _ _ _ _ H)|]].
  - intros k Hk.
    destruct (token_checks_1_to_2 body) eqn:Hc.
    + destruct (authorizationCodes s !! str (Body.code body)) as [found|] eqn:Hl.
      * destruct (token_checks_4_to_6 body found) eqn:H46.
        -- rewrite (handleToken_success _ _ _ _ _ _ _ _ Hc Hl H46). simpl.
           now rewrite lookup_delete_ne.
        -- destruct (handleToken_mismatch authToken rb n1 n2 _ ip _ _ Hc Hl H46)
             as (d & e & ->). simpl. now rewrite lookup_delete_ne.
      * now rewrite handleToken_absent by assumption.
    + destruct (handleToken_not_exchange authToken rb n1 n2 body ip s Hc)
        as (err & d & _ & ->). reflexivity.
  - destruct (token_checks_1_to_2 body) eqn:Hc.
    + destruct (authorizationCodes s !! str (Body.code body)) as [found|] eqn:Hl.
      * destruct (token_checks_4_to_6 body found) eqn:H46.
        -- rewrite (handleToken_success _ _ _ _ _ _ _ _ Hc Hl H46). simpl.
           split; [congruence|]. intros k Hk. now rewrite lookup_insert_ne.
        -- destruct (handleToken_mismatch authToken rb n1 n2 _ ip _ _ Hc Hl H46)
             as (d & e & ->). simpl. now split.
      * rewrite handleToken_absent by assumption. now split.
    + destruct (handleToken_not_exchange authToken rb n1 n2 body ip s Hc)
        as (err & d & _ & ->). now split.
Qed.

(** ** Invariants of the two maps *)

Lemma truthy_str_nonempty (p : option string) :
  truthy p = true -> negb (String.eqb (str p) EmptyString) = true.
Proof. intros H. apply truthy_inv in H. destruct H as (x & -> & Hx). simpl.
  apply negb_true_iff. now apply String.eqb_neq. Qed.

Lemma session_of_well_formed baseUrl now query :
  authorize_checks_1_to_3 query = true ->
  redirect_uri_accepted (str (Query.redirect_uri query)) = true ->
  session_well_formed (session_of baseUrl now query) = true.
Proof.
  intros Hc Hr.
  destruct (authorize_checks_1_to_3_inv _ Hc) as (H1 & H2 & H3 & H4 & H5 & H6 & H7).
  unfold session_well_formed, session_of; simpl.
  rewrite Hr, (truthy_str_nonempty _ H1), (truthy_str_nonempty _ H4).
  apply strict_eq_str in H7. now rewrite H7.
Qed.

Lemma handleAuthorize_keeps_well_formed baseUrl authToken rb now query s :
  maps_well_formed s ->
  maps_well_formed (snd (handleAuthorize baseUrl authToken rb now query s)).
Proof.
  intros [Hs Ht].
  destruct (authorize_checks_1_to_3 query) eqn:Hc.
  - destruct (redirect_uri_accepted (str (Query.redirect_uri query))) eqn:Hr.
    + rewrite handleAuthorize_success by assumption. split; simpl; [|exact Ht].
      intros code session.
      destruct (decide (generateRandomString rb 32 = code)) as [<-|Hne].
      * rewrite lookup_insert_eq. intros [= <-].
        now apply session_of_well_formed.
      * rewrite lookup_insert_ne by exact Hne. apply Hs.
    + rewrite handleAuthorize_bad_redirect by assumption. now split.
  - destruct (handleAuthorize_checks_fail baseUrl authToken rb now query s Hc)
      as (err & d & ->). now split.
Qed.

Lemma handleToken_keeps_well_formed authToken rb n1 n2 body ip s :
  maps_well_formed s ->
  maps_well_formed (snd (handleToken authToken rb n1 n2 body ip s)).
Proof.
  intros [Hs Ht]. split.
  - intros code session H. apply handleToken_origin in H. eauto.
  - destruct (token_checks_1_to_2 body) eqn:Hc.
    + destruct (authorizationCodes s !! str (Body.code body)) as [found|] eqn:Hl.
      * destruct (token_checks_4_to_6 body found) eqn:H46.
        -- rewrite (handleToken_success _ _ _ _ _ _ _ _ Hc Hl H46). simpl.
           intros key data.
           destruct (decide (generateRandomString rb 48 = key)) as [<-|Hne].
           ++ rewrite lookup_insert_eq. intros [= <-].
              unfold token_well_formed; simpl. rewrite String.eqb_refl. simpl.
              apply Hs in Hl. unfold session_well_formed in Hl.
              rewrite !andb_true_iff in Hl. tauto.
           ++ rewrite lookup_insert_ne by exact Hne. apply Ht.
        -- destruct (handleToken_mismatch authToken rb n1 n2 _ ip _ _ Hc Hl H46)
             as (d & e & ->). exact Ht.
      * rewrite handleToken_absent by assumption. exact Ht.
    + destruct (handleToken_not_exchange authToken rb n1 n2 body ip s Hc)
        as (err & d & _ & ->). exact Ht.
Qed.

Lemma validateBearerToken_keeps_well_formed baseUrl now authorization ip s :
  maps_well_formed s ->
  maps_well_formed (snd (validateBearerToken baseUrl now authorization ip s)).
Proof.
  intros [Hs Ht]. split.
  - rewrite validateBearerToken_codes. exact Hs.
  - unfold validateBearerToken. cbv zeta.
    destruct (negb (truthy authorization) || _); [exact Ht|].
    destruct (accessTokens s !! _) as [data|]; [|exact Ht].
    case_bool_decide; [|exact Ht]. simpl.
    intros key x Hk. apply lookup_delete_Some in Hk. destruct Hk as [_ Hk]. eauto.
Qed.

Lemma sweep_keeps_well_formed now s :
  maps_well_formed s -> maps_well_formed (sweep now s).
Proof.
  intros [Hs Ht]. split.
  - intros code session H. apply sweep_origin in H. eauto.
  - intros key data Hk. rewrite sweep_accessTokens in Hk.
    destruct (accessTokens s !! key) as [x|] eqn:E; [|discriminate].
    case_bool_decide; [discriminate|]. injection Hk as <-. eauto.
Qed.

Lemma reachable_well_formed baseUrl authToken middlewareBaseUrl s :
  reachable baseUrl authToken middlewareBaseUrl s -> maps_well_formed s.
Proof.
  intros [events ->].
  assert (H0 : maps_well_formed initial).
  { split; intros k x H; simpl in H; now rewrite lookup_empty in H. }
  revert H0. generalize initial.
  induction events as [|e events IH]; intros s0 H0; [exact H0|].
  simpl. apply IH.
  destruct e; simpl;
    auto using handleAuthorize_keeps_well_formed, handleToken_keeps_well_formed,
      validateBearerToken_keeps_well_formed, sweep_keeps_well_formed.
Qed.

(** X16.  In every state reachable from the empty one, every pending
    session has a redirect URI that starts with [https://claude.ai/] or
    [https://claude.com/] (and so has one of those two hosts), and a client
    id and a code challenge that are not empty. *)
Theorem X16_sessions_well_formed
    (baseUrl authToken : string) (middlewareBaseUrl : option string)
    (s : ServerState) (code : string) (session : AuthorizationSession.t) :
  reachable baseUrl authToken middlewareBaseUrl s ->
  authorizationCodes s !! code = Some session ->
  redirect_uri_accepted (AuthorizationSession.redirectUri session) = true
  /\ host_trusted (AuthorizationSession.redirectUri session) = true
  /\ AuthorizationSession.clientId session <> EmptyString
  /\ AuthorizationSession.codeChallenge session <> EmptyString.
Proof.
  intros Hreach Hl.
  destruct (reachable_well_formed _ _ _ _ Hreach) as [Hs _].
  apply Hs in Hl. unfold session_well_formed in Hl.
  rewrite !andb_true_iff, !negb_true_iff, !String.eqb_neq in Hl.
  destruct Hl as [[[Hr Hc] Hch] _].
  repeat split; try assumption. now apply accepted_host_trusted.
Qed.

Lemma X16_sessions_well_formed_witness :
  authorizationCodes Scenario.authorized !! Scenario.code = Some Scenario.session
  /\ host_trusted (AuthorizationSession.redirectUri Scenario.session) = true.
Proof.
  assert (H : authorizationCodes Scenario.authorized !! Scenario.code
              = Some Scenario.session) by (vm_compute; reflexivity).
  split; [exact H|].
  exact (proj1 (proj2 (X16_sessions_well_formed _ _ _ _ _ _
                         scenario_authorized_reachable H))).
Defined.

(** X17.  In every state reachable from the empty one, every entry of the
    token store holds its own key in its [token] field and a client id that
    is not empty. *)
Theorem X17_tokens_well_formed
    (baseUrl authToken : string) (middlewareBaseUrl : option string)
    (s : ServerState) (key : string) (data : AccessToken.t) :
  reachable baseUrl authToken middlewareBaseUrl s ->
  accessTokens s !! key = Some data ->
  AccessToken.token data = key
  /\ AccessToken.clientId data <> EmptyString.
Proof.
  intros Hreach Hl.
  destruct (reachable_well_formed _ _ _ _ Hreach) as [_ Ht].
  apply Ht in Hl. unfold token_well_formed in Hl.
  rewrite andb_true_iff, negb_true_iff, String.eqb_eq, String.eqb_neq in Hl.
  exact Hl.
Qed.

Lemma scenario_exchanged_reachable :
  reachable Scenario.baseUrl Scenario.authToken None Scenario.exchanged.
Proof.
  exists [Authorize Scenario.code_bytes Scenario.T
            (Scenario.query "https://claude.ai/cb" (Some "xyz"));
          Token Scenario.token_bytes (Scenario.T + 1000) (Scenario.T + 1000)
            (Scenario.body "authorization_code" Scenario.verifier) Scenario.ip].
  reflexivity.
Qed.

Lemma X17_tokens_well_formed_witness :
  accessTokens Scenario.exchanged !! Scenario.bearer = Some Scenario.issued
  /\ AccessToken.token Scenario.issued = Scenario.bearer.
Proof.
  assert (H : accessTokens Scenario.exchanged !! Scenario.bearer
              = Some Scenario.issued) by (vm_compute; reflexivity).
  split; [exact H|].
  exact (proj1 (X17_tokens_well_formed _ _ _ _ _ _
                  scenario_exchanged_reachable H)).
Defined.

(** ** The shape of an S256 challenge *)

Lemma be_octets_length (n : nat) (x : Z) : List.length (SHA256.be_octets n x) = n.
Proof. unfold SHA256.be_octets. now rewrite length_map, length_rev, length_seq. Qed.

Lemma digest_octets_length (msg : list Z) :
  List.length (SHA256.digest_octets msg) = 32%nat.
Proof.
  unfold SHA256.digest_octets. cbv zeta. cbn [flat_map].
  rewrite !length_app, !be_octets_length. reflexivity.
Qed.

Lemma sha256_base64url_shape (v : string) :
  String.length (sha256_base64url v) = 43%nat
  /\ all_chars url_safe (sha256_base64url v) = true.
Proof.
  unfold sha256_base64url. split.
  - now rewrite encode_octets_length, digest_octets_length.
  - apply encode_octets_url_safe.
Qed.

(** X18.  Under "S256" only a challenge of exactly 43 characters, each a
    letter, a digit, [-] or [_], can be verified.  The authorization
    endpoint does not look at the shape of [code_challenge]: put in place
    of the challenge of a request that passes the four checks, any string
    but the empty one gives a request that is answered 302 as well and
    whose session stores that string as its challenge.  A request to the
    token endpoint, its fields absent or strings, that presents the code of
    a stored "S256" session whose challenge is not 43 characters long is
    always answered 400, whatever verifier it presents. *)
Theorem X18_S256_challenge_shape
    (verifier challenge : string)
    (baseUrl authToken : string) (rb : nat -> list byte) (now n1 n2 : Z)
    (query : Query.t) (body : Body.t)
    (ip : string) (s : ServerState) (session : AuthorizationSession.t) :
  (verifyCodeChallenge verifier challenge "S256" = true ->
   String.length challenge = 43%nat /\ all_chars url_safe challenge = true)
  /\ (challenge <> EmptyString ->
      authorize_checks_1_to_3 query = true ->
      redirect_uri_accepted (str (Query.redirect_uri query)) = true ->
      let query' :=
        Query.mk (Query.client_id query) (Query.redirect_uri query)
          (Query.response_type query) (Some challenge)
          (Query.code_challenge_method query) (Query.state query)
          (Query.scope query) (Query.resource query) in
      let r := handleAuthorize baseUrl authToken rb now query' s in
      status_of (fst r) = Some 302
      /\ exists stored,
           authorizationCodes (snd r) !! generateRandomString rb 32 = Some stored
           /\ AuthorizationSession.codeChallenge stored = challenge
           /\ AuthorizationSession.codeChallengeMethod stored = "S256")
  /\ (authorizationCodes s !! str (Body.code body) = Some session ->
      AuthorizationSession.codeChallengeMethod session = "S256" ->
      String.length (AuthorizationSession.codeChallenge session) <> 43%nat ->
      status_of (fst (handleToken authToken rb n1 n2 body ip s)) = Some 400).
Proof.
  split; [|split].
  - rewrite verifyCodeChallenge_S256. intros H. apply String.eqb_eq in H.
    subst challenge. apply sha256_base64url_shape.
  - intros Hne Hc Hr query' r.
    destruct (authorize_checks_1_to_3_inv _ Hc)
      as (H1 & H2 & H3 & _ & H5 & H6 & H7).
    assert (Hc' : authorize_checks_1_to_3 query' = true).
    { unfold authorize_checks_1_to_3, query'; simpl.
      rewrite H1, H2, H3, H5, H6, H7. simpl.
      apply String.eqb_neq in Hne. now rewrite Hne. }
    subst r. rewrite handleAuthorize_success by assumption. simpl.
    split; [reflexivity|]. eexists. split; [apply lookup_insert_eq|].
    split; [reflexivity|]. simpl. now apply strict_eq_str.
  - intros Hl Hm Hlen.
    destruct (token_checks_1_to_2 body) eqn:Hc.
    + destruct (token_checks_4_to_6 body session) eqn:H46.
      * apply token_checks_4_to_6_inv in H46. destruct H46 as (Hv & _).
        rewrite Hm, verifyCodeChallenge_S256 in Hv. apply String.eqb_eq in Hv.
        rewrite <- Hv in Hlen. now destruct (sha256_base64url_shape
                                               (str (Body.code_verifier body))).
      * destruct (handleToken_mismatch authToken rb n1 n2 _ ip _ _ Hc Hl H46)
          as (d & e & ->). reflexivity.
    + destruct (handleToken_not_exchange authToken rb n1 n2 body ip s Hc)
        as (err & d & _ & ->). reflexivity.
Qed.

Lemma X18_S256_challenge_shape_witness :
  verifyCodeChallenge Scenario.verifier Scenario.challenge "S256" = true
  /\ String.length Scenario.challenge = 43%nat.
Proof.
  assert (H : verifyCodeChallenge Scenario.verifier Scenario.challenge "S256" = true)
    by (vm_compute; reflexivity).
  split; [exact H|].
  exact (proj1 (proj1 (X18_S256_challenge_shape Scenario.verifier Scenario.challenge
                         Scenario.baseUrl Scenario.authToken Scenario.token_bytes
                         0 0 0 (Scenario.query "https://claude.ai/cb" None)
                         (Scenario.body "authorization_code" Scenario.verifier)
                         Scenario.ip initial Scenario.session) H)).
Defined.

(** ** The discovery document against the endpoints *)

(** X19.  The authorization-server metadata advertises what the two
    endpoints accept, no more and no less: an authorize request with its
    five required parameters and an accepted redirect URI is answered 302
    exactly when its response type and its PKCE method are among the
    advertised ones, and a token request with its four required fields is
    turned away as [unsupported_grant_type] exactly when its grant type is
    not among the advertised ones. *)
Theorem X19_metadata_matches_endpoints
    (baseUrl authToken : string) (rb : nat -> list byte) (now n1 n2 : Z)
    (query : Query.t) (body : Body.t) (ip : string) (s : ServerState) :
  let doc := body_of (handleAuthorizationServerMetadata baseUrl) in
  (truthy (Query.client_id query) && truthy (Query.redirect_uri query)
   && truthy (Query.response_type query) && truthy (Query.code_challenge query)
   && truthy (Query.code_challenge_method query) = true ->
   redirect_uri_accepted (str (Query.redirect_uri query)) = true ->
   (status_of (fst (handleAuthorize baseUrl authToken rb now query s)) = Some 302
    <-> In (str (Query.response_type query))
          (advertised "response_types_supported" doc)
        /\ In (str (Query.code_challenge_method query))
             (advertised "code_challenge_methods_supported" doc)))
  /\ (truthy (Body.grant_type body) && truthy (Body.code body)
      && truthy (Body.code_verifier body) && truthy (Body.client_id body) = true ->
      (error_of (fst (handleToken authToken rb n1 n2 body ip s))
       = Some (JStr "unsupported_grant_type")
       <-> ~ In (str (Body.grant_type body))
               (advertised "grant_types_supported" doc))).
Proof.
  intros doc. subst doc. split.
  - intros Hreq Hr.
    change (advertised "response_types_supported" _) with ["code"].
    change (advertised "code_challenge_methods_supported" _) with ["S256"].
    rewrite !andb_true_iff in Hreq.
    destruct Hreq as [[[[H1 H2] H3] H4] H5].
    assert (Hrt : strict_eq (Query.response_type query) "code" = true
                  <-> In (str (Query.response_type query)) ["code"]).
    { apply truthy_inv in H3. destruct H3 as (x & -> & _). simpl.
      rewrite String.eqb_eq. intuition congruence. }
    assert (Hm : strict_eq (Query.code_challenge_method query) "S256" = true
                 <-> In (str (Query.code_challenge_method query)) ["S256"]).
    { apply truthy_inv in H5. destruct H5 as (x & -> & _). simpl.
      rewrite String.eqb_eq. intuition congruence. }
    rewrite <- Hrt, <- Hm.
    destruct (authorize_checks_1_to_3 query) eqn:Hc.
    + rewrite handleAuthorize_success by assumption.
      destruct (authorize_checks_1_to_3_inv _ Hc) as (_ & _ & _ & _ & _ & -> & ->).
      simpl. tauto.
    + destruct (handleAuthorize_checks_fail baseUrl authToken rb now query s Hc)
        as (err & d & ->). simpl.
      split; [discriminate|]. intros [E1 E2].
      unfold authorize_checks_1_to_3 in Hc.
      rewrite H1, H2, H3, H4, H5, E1, E2 in Hc. discriminate.
  - intros Hreq.
    change (advertised "grant_types_supported" _) with ["authorization_code"].
    rewrite !andb_true_iff in Hreq. destruct Hreq as [[[H1 H2] H3] H4].
    assert (Hg : strict_eq (Body.grant_type body) "authorization_code" = true
                 <-> In (str (Body.grant_type body)) ["authorization_code"]).
    { pose proof H1 as H1'. apply truthy_inv in H1'.
      destruct H1' as (x & E & _). rewrite E. simpl.
      rewrite String.eqb_eq. intuition congruence. }
    rewrite <- Hg.
    unfold handleToken. cbv zeta. rewrite H1, H2, H3, H4. simpl.
    destruct (strict_eq (Body.grant_type body) "authorization_code"); simpl.
    + split; [|intros H; now contradiction H].
      destruct (authorizationCodes s !! _) as [session|]; [|discriminate].
      repeat match goal with
             | |- context [if ?c then _ else _] => destruct c
             end; simpl; discriminate.
    + split; [discriminate|reflexivity].
Qed.

Lemma X3_missing_or_malformed_header_witness :
  startsWith (str (Some "bearer KioqKioq")) "Bearer " = false
  /\ validateBearerToken (Some Scenario.baseUrl) Scenario.T
       (Some "bearer KioqKioq") Scenario.ip Scenario.exchanged
     = (Json 401
          [("WWW-Authenticate",
            "Bearer resource_metadata=" +:+ dquote
              +:+ "https://mcp.example.org/.well-known/oauth-protected-resource"
              +:+ dquote +:+ ", scope=" +:+ dquote +:+ "mcp" +:+ dquote)]
          [("error", JStr "invalid_token");
           ("error_description", JStr "Missing or invalid Authorization header")],
        Scenario.exchanged).
Proof.
  assert (H : startsWith (str (Some "bearer KioqKioq")) "Bearer " = false)
    by reflexivity.
  split; [exact H|].
  exact (X3_missing_or_malformed_header (Some Scenario.baseUrl) Scenario.T
           (Some "bearer KioqKioq") Scenario.ip Scenario.exchanged (or_intror H)).
Defined.

(** * Properties of the Home Assistant client, its tools and the server *)

(** ** The base URL *)

Lemma remove_trailing_slash_append (b : string) :
  JS.remove_trailing_slash (b +:+ "/") = b.
Proof.
  induction b as [|c b IH]; [reflexivity|].
  simpl. rewrite IH.
  replace (String.eqb (b +:+ "/") EmptyString) with false by (now destruct b).
  now rewrite andb_false_r.
Qed.

Lemma remove_trailing_slash_id (b : string) :
  (forall b', b <> b' +:+ "/") -> JS.remove_trailing_slash b = b.
Proof.
  induction b as [|c b IH]; intros Hno; [reflexivity|].
  cbn [JS.remove_trailing_slash].
  destruct (Ascii.eqb c "/" && String.eqb b EmptyString) eqn:E.
  - apply andb_true_iff in E. destruct E as [Ec Eb].
    apply Ascii.eqb_eq in Ec. apply String.eqb_eq in Eb. subst.
    now contradiction (Hno EmptyString).
  - rewrite IH; [reflexivity|].
    intros b' ->. now apply (Hno (String c b')).
Qed.

(** X20.  The client drops one slash that ends the configured base URL and
    nothing else: a base URL written with a final slash gives the client
    that the same URL without it gives, so every request goes to the same
    address under both spellings; of two final slashes one stays. *)
Theorem X20_base_url_trailing_slash (b token : string) :
  HAClient.new (HAConfig.mk (b +:+ "/") token) = HAClient.mk b token
  /\ ((forall b', b <> b' +:+ "/") ->
      HAClient.new (HAConfig.mk b token) = HAClient.mk b token).
Proof.
  unfold HAClient.new; simpl. split.
  - now rewrite remove_trailing_slash_append.
  - intros Hno. now rewrite remove_trailing_slash_id.
Qed.

Lemma X20_base_url_trailing_slash_witness :
  HAClient.new (HAConfig.mk "http://ha.local:8123/" "secret")
  = HAClient.mk "http://ha.local:8123" "secret".
Proof.
  exact (proj1 (X20_base_url_trailing_slash "http://ha.local:8123" "secret")).
Defined.

(** ** Percent-encoding of what the caller supplies *)

Lemma hex_digit_alnum (n : nat) : JS.is_alnum (JS.hex_digit n) = true.
Proof. do 16 (destruct n as [|n]; [reflexivity|]). reflexivity. Qed.

Lemma all_chars_append p (x y : string) :
  all_chars p x = true -> all_chars p y = true -> all_chars p (x +:+ y) = true.
Proof.
  induction x as [|c x IH]; simpl; [auto|].
  intros H Hy. apply andb_true_iff in H. destruct H as [-> H]. now apply IH.
Qed.

Lemma encodeURIComponent_path_safe (s : string) :
  all_chars path_safe (JS.encodeURIComponent s) = true.
Proof.
  induction s as [|c s IH]; [reflexivity|].
  cbn [JS.encodeURIComponent]. apply all_chars_append; [|exact IH].
  unfold path_safe. destruct (JS.uri_unreserved c) eqn:E.
  - simpl. now rewrite E.
  - unfold JS.percent, JS.uri_unreserved. simpl.
    now rewrite !hex_digit_alnum.
Qed.

Lemma all_chars_excludes p (c : ascii) (s : string) :
  all_chars p s = true -> p c = false -> URI.contains c s = false.
Proof.
  induction s as [|d s IH]; simpl; [reflexivity|].
  intros H Hc. apply andb_true_iff in H. destruct H as [Hd H].
  rewrite (IH H Hc), orb_false_r.
  apply Ascii.eqb_neq. intros ->. congruence.
Qed.




Section HAProperties.
Context `{HevyModules}.

(** X21.  An entity id, a service domain and a service name, each a
    well-formed string, reach the request URL percent-encoded: [getState]
    asks for
    [<baseUrl>/api/states/<id>] and [callService] for
    [<baseUrl>/api/services/<domain>/<service>], and the segment made of
    each argument holds no [/], [?], [#] or [&], so an argument cannot
    bring a path separator, a query string or a fragment into the URL.
    The encoding leaves [.] and [..] as they are: a dot segment is not
    kept out. *)
Theorem X21_arguments_stay_in_their_segment
    (this : HAClient.t) (entityId : string)
    (data : HAServiceCallData.t JsonValue) (w : World) :
  let id := JS.encodeURIComponent entityId in
  let domain := JS.encodeURIComponent (HAServiceCallData.domain data) in
  let service := JS.encodeURIComponent (HAServiceCallData.service data) in
  (exists init headers,
      HAClient.getState this entityId w
      = transport (mkFetch (HAClient.baseUrl this +:+ "/api/states/" +:+ id)
                     init headers) w)
  /\ (exists init headers,
         HAClient.callService this data w
         = transport (mkFetch (HAClient.baseUrl this +:+ "/api/services/"
                                 +:+ domain +:+ "/" +:+ service)
                        init headers) w)
  /\ (forall segment, In segment [id; domain; service] ->
        forall c, In c ["/"; "?"; "#"; "&"]%char -> URI.contains c segment = false)
  /\ JS.encodeURIComponent "." = "."
  /\ JS.encodeURIComponent ".." = "..".
Proof.
  intros id domain service. split; [|split; [|split; [|split]]].
  - eexists _, _. reflexivity.
  - eexists _, _. reflexivity.
  - intros segment Hs c Hc.
    apply all_chars_excludes with (p := path_safe).
    + destruct Hs as [<-|[<-|[<-|[]]]]; apply encodeURIComponent_path_safe.
    + destruct Hc as [<-|[<-|[<-|[<-|[]]]]]; reflexivity.
  - vm_compute. reflexivity.
  - vm_compute. reflexivity.
Qed.



Lemma answered_is_Some (r : (Exn + JsonValue) * World) :
  exists result, fst (answered r) = Some result.
Proof. destruct r as [[e|v] w]; simpl; eauto. Qed.

Lemma handleHAToolCall_null_iff
    (request : CallToolRequest JsonValue) (haClient : HAClient.t) (w : World) :
  (fst (handleHAToolCall request haClient w) = None
   <-> ~ In (call_name request) (map Tool.name getHATools))
  /\ (fst (handleHAToolCall request haClient w) = None ->
      snd (handleHAToolCall request haClient w) = w).
Proof.
  change (map Tool.name getHATools)
    with ["ha_get_states"; "ha_get_state"; "ha_set_state"; "ha_call_service";
          "ha_get_services"; "ha_get_history"].
  unfold handleHAToolCall. cbv zeta.
  repeat match goal with
         | |- context [String.eqb (call_name request) ?n] =>
             destruct (String.eqb (call_name request) n) eqn:?
         end;
    repeat match goal with
           | E : String.eqb _ _ = true |- _ => apply String.eqb_eq in E
           | E : String.eqb _ _ = false |- _ => apply String.eqb_neq in E
           end;
    try (match goal with
         | |- (fst ?X = None <-> _) /\ _ =>
             assert (Hs : exists res, fst X = Some res)
               by (repeat match goal with
                          | |- context [if ?c then _ else _] => destruct c
                          end;
                   unfold thrown; simpl fst; eauto using answered_is_Some)
         end;
         destruct Hs as [res ->];
         split; [split; [discriminate|]|discriminate];
         intros Hn; contradiction Hn;
         match goal with E : call_name request = _ |- _ => rewrite E end;
         simpl; tauto).
  split; [|reflexivity]. split; [|reflexivity].
  intros _ Hin. simpl in Hin. intuition congruence.
Qed.

(** X23.  The Home Assistant handler answers [null] exactly for the tool
    names that [getHATools] does not list, and then without touching
    anything; a listed tool always gets a result. *)
Theorem X23_listed_tools_are_handled
    (request : CallToolRequest JsonValue) (haClient : HAClient.t) (w : World) :
  (fst (handleHAToolCall request haClient w) = None
   <-> ~ In (call_name request) (map Tool.name getHATools))
  /\ (fst (handleHAToolCall request haClient w) = None ->
      snd (handleHAToolCall request haClient w) = w).
Proof. apply handleHAToolCall_null_iff. Qed.

(** X24.  The handler checks what the schemas declare.  For each listed
    tool and a call whose arguments are absent or well-formed strings, a
    call in which an argument that the tool's schema marks as required is
    absent or empty is answered with an error result made from a thrown
    [Error], and no request leaves for Home Assistant; a call with all of
    them makes exactly one request and is answered from its outcome. *)
Theorem X24_required_arguments_are_checked
    (tool : Tool.t) (request : CallToolRequest JsonValue)
    (haClient : HAClient.t) (w : World) :
  In tool getHATools ->
  call_name request = Tool.name tool ->
  let args := default Args.empty (call_arguments request) in
  let required := default [] (Tool.required (Tool.inputSchema tool)) in
  if forallb (Args.has args) required
  then exists call,
         handleHAToolCall request haClient w = answered (transport call w)
  else exists message,
         handleHAToolCall request haClient w = thrown message w
         /\ snd (handleHAToolCall request haClient w) = w
         /\ (isError <$> fst (handleHAToolCall request haClient w)) = Some true.
Proof.
  intros Hin Hname args required. subst required.
  unfold handleHAToolCall. cbv zeta. fold args. rewrite Hname. clearbody args.
  clear Hname. simpl in Hin.
  destruct Hin as [<-|[<-|[<-|[<-|[<-|[<-|[]]]]]]];
    cbn [Tool.name Tool.inputSchema Tool.required];
    unfold default, id; simpl forallb;
    change (Args.has args "entity_id") with (truthy (Args.entity_id args));
    change (Args.has args "state") with (truthy (Args.state args));
    change (Args.has args "domain") with (truthy (Args.domain args));
    change (Args.has args "service") with (truthy (Args.service args));
    repeat match goal with
           | |- context [truthy ?x] => destruct (truthy x)
           end;
    cbn [negb orb andb];
    first [ eexists; unfold HAClient.getStates, HAClient.getState,
              HAClient.setState, HAClient.callService, HAClient.getServices,
              HAClient.getHistory, HAClient.request; reflexivity
          | eexists; repeat split ].
Qed.

(** ** The server *)

Lemma createHevyMCPServer_inr (config : ServerConfig.t) (server : Server) :
  createHevyMCPServer config = inr server ->
  truthy (ServerConfig.apiKey config) = true.
Proof.
  unfold createHevyMCPServer.
  destruct (truthy (ServerConfig.apiKey config)); [reflexivity|discriminate].
Qed.

(** X25.  The Home Assistant tools are offered and served together or not
    at all.  The server lists them, after the Hevy tools, exactly when both
    Home Assistant settings are given and not empty.  A call that names one
    of them, and that the Hevy handlers decline, is answered by the Home
    Assistant handler when they are listed, and is answered "Unknown tool"
    without anything being done when they are not. *)
Theorem X25_ha_tools_listed_iff_served
    (config : ServerConfig.t) (server : Server)
    (request : CallToolRequest JsonValue) (w : World) :
  createHevyMCPServer config = inr server ->
  In (call_name request) (map Tool.name getHATools) ->
  (forall hc w', handleWorkoutToolCall request hc w' = (None, w')) ->
  (forall hc w', handleRoutineToolCall request hc w' = (None, w')) ->
  (forall hc w', handleExerciseToolCall request hc w' = (None, w')) ->
  (forall hc w', handleFolderToolCall request hc w' = (None, w')) ->
  let configured :=
    truthy (ServerConfig.haBaseUrl config) && truthy (ServerConfig.haToken config) in
  listTools server
  = (getWorkoutTools ++ getRoutineTools ++ getExerciseTools ++ getFolderTools)
      ++ (if configured then getHATools else [])
  /\ (configured = true ->
      exists result,
        fst (handleHAToolCall request
               (HAClient.new
                  (HAConfig.mk (str (ServerConfig.haBaseUrl config))
                     (str (ServerConfig.haToken config)))) w) = Some result
        /\ fst (callTool server request w) = result)
  /\ (configured = false ->
      callTool server request w
      = (error_result ("Unknown tool: " +:+ call_name request), w)).
Proof.
  intros Hs Hin Hw Hr He Hf configured. subst configured.
  pose proof (createHevyMCPServer_inr _ _ Hs) as Hkey.
  unfold createHevyMCPServer in Hs. rewrite Hkey in Hs. simpl in Hs.
  injection Hs as <-. simpl.
  rewrite Hw, Hr, He, Hf.
  destruct (truthy (ServerConfig.haBaseUrl config)
            && truthy (ServerConfig.haToken config)).
  - split; [reflexivity|]. split; [|discriminate]. intros _.
    set (client := HAClient.new _).
    destruct (handleHAToolCall request client w) as [[result|] w'] eqn:E.
    + exists result. split; reflexivity.
    + exfalso.
      apply (proj1 (proj1 (handleHAToolCall_null_iff request client w)));
        [now rewrite E|exact Hin].
  - split; [now rewrite app_nil_r|]. split; [discriminate|reflexivity].
Qed.

(** X26.  How the server is made and how it routes.  Without an API key, or
    with an empty one, no server is made and the error names
    [HEVY_API_KEY]; otherwise one is.  The workout handler is asked first:
    when it answers, its result is the server's and no other handler runs.
    When every handler the server has answers [null], the answer is an
    error result that names the tool. *)
Theorem X26_server_routing
    (config : ServerConfig.t) (request : CallToolRequest JsonValue) (w : World) :
  let hevyClient :=
    HevyClient_new (str (ServerConfig.apiKey config))
      (or_else (ServerConfig.apiBaseUrl config) "https://api.hevyapp.com") in
  (truthy (ServerConfig.apiKey config) = false ->
   createHevyMCPServer config = inl "HEVY_API_KEY is required")
  /\ (truthy (ServerConfig.apiKey config) = true ->
      exists server,
        createHevyMCPServer config = inr server
        /\ (forall result w',
               handleWorkoutToolCall request hevyClient w = (Some result, w') ->
               callTool server request w = (result, w'))
        /\ (forall w1 w2 w3 w4,
               handleWorkoutToolCall request hevyClient w = (None, w1) ->
               handleRoutineToolCall request hevyClient w1 = (None, w2) ->
               handleExerciseToolCall request hevyClient w2 = (None, w3) ->
               handleFolderToolCall request hevyClient w3 = (None, w4) ->
               ~ In (call_name request) (map Tool.name getHATools) ->
               callTool server request w
               = (mkResult [mkText "text" ("Unknown tool: " +:+ call_name request)]
                    true, w4))).
Proof.
  intros hevyClient. split; intros Hkey.
  - unfold createHevyMCPServer. now rewrite Hkey.
  - unfold createHevyMCPServer. rewrite Hkey. simpl.
    eexists. split; [reflexivity|]. simpl. fold hevyClient. split.
    + intros result w' ->. reflexivity.
    + intros w1 w2 w3 w4 -> -> -> -> Hnot.
      destruct (truthy (ServerConfig.haBaseUrl config)
                && truthy (ServerConfig.haToken config)); [|reflexivity].
      set (client := HAClient.new _).
      destruct (handleHAToolCall_null_iff request client w4) as [Hiff Hw].
      destruct (handleHAToolCall request client w4) as [[result|] w'] eqn:E.
      * exfalso. apply Hiff in Hnot. discriminate.
      * simpl in Hw. now rewrite Hw.
Qed.

End HAProperties.

(** ** The tools and the server on the testbed *)

Lemma X24_required_arguments_are_checked_witness :
  snd (@handleHAToolCall Testbed.runtime
         (Testbed.call "ha_get_state" (Testbed.entity EmptyString))
         Testbed.client [])
  = []
  /\ (isError <$>
        fst (@handleHAToolCall Testbed.runtime
               (Testbed.call "ha_get_state" (Testbed.entity EmptyString))
               Testbed.client []))
     = Some true.
Proof.
  assert (Hin : In (nth 1 getHATools Testbed.get_workouts) getHATools)
    by (right; left; reflexivity).
  pose proof (@X24_required_arguments_are_checked Testbed.runtime
                (nth 1 getHATools Testbed.get_workouts)
                (Testbed.call "ha_get_state" (Testbed.entity EmptyString))
                Testbed.client [] Hin eq_refl) as W.
  destruct W as (message & _ & Hw & He).
  split; assumption.
Defined.

Lemma X25_ha_tools_listed_iff_served_witness :
  exists server,
    @createHevyMCPServer Testbed.runtime Testbed.modules (Testbed.config None None)
    = inr server
    /\ callTool server (Testbed.call "ha_get_states" Args.empty) []
       = (error_result "Unknown tool: ha_get_states", []).
Proof.
  eexists. split; [reflexivity|].
  apply (@X25_ha_tools_listed_iff_served Testbed.runtime Testbed.modules
           (Testbed.config None None) _
           (Testbed.call "ha_get_states" Args.empty) [] eq_refl).
  - left; reflexivity.
  - reflexivity.
  - reflexivity.
  - reflexivity.
  - reflexivity.
  - reflexivity.
Defined.

Lemma X26_server_routing_witness :
  @createHevyMCPServer Testbed.runtime Testbed.modules
    (ServerConfig.mk (Some EmptyString) None (Some "http://ha.local:8123") (Some "secret"))
  = inl "HEVY_API_KEY is required"
  /\ exists server,
       @createHevyMCPServer Testbed.runtime Testbed.modules
         (Testbed.config (Some "http://ha.local:8123") (Some "secret"))
       = inr server.
Proof.
  split.
  - exact (proj1 (@X26_server_routing Testbed.runtime Testbed.modules
                    (ServerConfig.mk (Some EmptyString) None
                       (Some "http://ha.local:8123") (Some "secret"))
                    (Testbed.call "get-workouts" Args.empty) []) eq_refl).
  - destruct (proj2 (@X26_server_routing Testbed.runtime Testbed.modules
                       (Testbed.config (Some "http://ha.local:8123") (Some "secret"))
                       (Testbed.call "get-workouts" Args.empty) []) eq_refl)
      as (server & Hs & _).
    exists server. exact Hs.
Defined.

Example testbed_get_state :
  @handleHAToolCall Testbed.runtime
    (Testbed.call "ha_get_state" (Testbed.entity "light.living room/1"))
    Testbed.client []
  = (Some (text_result "[]"),
     [mkFetch "http://ha.local:8123/api/states/light.living%20room%2F1"
        (mkInit None None)
        [("Authorization", "Bearer secret"); ("Content-Type", "application/json")]]).
Proof. vm_compute. reflexivity. Qed.

Example URLSearchParams_toString_example :
  JS.URLSearchParams_toString [("a b", "c&d"); ("end_time", "2024-01-01T00:00:00+02:00")]
  = "a+b=c%26d&end_time=2024-01-01T00%3A00%3A00%2B02%3A00".
Proof. vm_compute. reflexivity. Qed.

(** ** The token of the [generate-token] script *)

(** X27.  The token the script prints holds only letters, digits, [-] and
    [_], and, the random source returning the [n] octets asked for, has
    [(4 n + 2) / 3] characters: 43 for the default of 32 octets. *)
Theorem X27_generateToken_shape (randomBytes : nat -> list byte) (n : nat) :
  all_chars url_safe (generateToken randomBytes n) = true
  /\ (List.length (randomBytes n) = n ->
      String.length (generateToken randomBytes n) = ((4 * n + 2) / 3)%nat).
Proof.
  unfold generateToken, Base64url.encode. split.
  - apply encode_octets_url_safe.
  - intros Hn. now rewrite encode_octets_length, length_map, Hn.
Qed.

Lemma X27_generateToken_shape_witness :
  List.length (Scenario.code_bytes 32) = 32%nat
  /\ String.length (generateToken Scenario.code_bytes 32) = 43%nat.
Proof.
  assert (H : List.length (Scenario.code_bytes 32) = 32%nat) by reflexivity.
  split; [exact H|].
  exact (proj2 (X27_generateToken_shape Scenario.code_bytes 32) H).
Defined.
